(** * GiftNFT marketplace ledger: the units of work of [server.js] over the
      snapshot of [store.js].

    The server keeps one JSON document (users, items, payments, history,
    notifications).  Every mutating endpoint hands a closure to [transact],
    which loads the document, runs the closure on the parsed copy and writes
    the copy back.  The development below embeds that data model, the
    [transact] wrapper and each endpoint that goes through it, and states the
    ledger properties over them.

    Modelling conventions.
    - JS numbers that carry amounts, prices, stars and levels are taken in
      [Z]: whole numbers.  A JS number is an IEEE 754 double; on whole
      numbers of magnitude at most 2^53 its [+], [-], [<] and [Math.max]
      give the exact result whenever that result is again of this size, and
      there the routes compute what is written here.  Statements that rest
      on a sum undoing a difference carry that bound ([exact_in_double]);
      what the program does with fractions and beyond the bound is the
      subject of [Doubles], the same balance arithmetic on binary64 values.
    - A string field of a request body that is absent is the empty string:
      both are falsy for the [!x] guards of the handlers.
    - [nanoid] and [Date.now] are inputs of a request ([Env]): the k-th call
      made while serving the request yields [nanoid k] and [clock k].
    - Template literals written to the history are kept as structured values
      ([HistText]); Socket.IO emissions carry no state and are left out.
    - The stored document is taken as [loadDB] returns it: a file that is
      empty or does not parse reads as [defaultDB]. *)

From Stdlib Require Import PrimFloat.
From Stdlib Require Import ZArith List String Ascii Bool Lia DecimalString.
Import ListNotations.

Local Open Scope string_scope.
Local Open Scope Z_scope.

(** ** Data model (the comment at [server.js] line 145 and the object
       literals of the handlers) *)

Inductive Kind := deposit | withdraw.
Inductive Status := pending | approved | rejected.

Record User := mkUser {
  user_id : string;
  user_name : string;
  user_email : string;
  user_pass : string;
  user_role : string;
  user_balance : Z;
  user_owned : list string;
  user_gifts : Z;
  user_banned : option bool
}.

(** [img] is either a stored URL or the default of item creation,
    ['https://picsum.photos/seed/' + encodeURIComponent(name) + '/800']. *)
Inductive Img := ImgUrl (url : string) | ImgSeedOfName (name : string).

Record Item := mkItem {
  item_id : string;
  item_name : string;
  item_price : Z;
  item_rating : Z;
  item_img : Img;
  item_collection : string;
  item_stars : Z;
  item_level : Z;
  item_ownerId : option string;   (* [None] is JS [null] *)
  item_createdAt : Z
}.

Record Payment := mkPayment {
  pay_id : string;
  pay_userId : string;
  pay_kind : Kind;
  pay_amountTon : Z;
  pay_usdCents : Z;               (* [usd] in hundredths *)
  pay_tonAddress : option string;
  pay_status : Status;
  pay_ts : Z;
  pay_adminId : option string;
  pay_note : option string
}.

(** The template literals pushed to [db.history]. *)
Inductive HistText :=
| WithdrawalRequested (amt : Z) (tonAddress : string)
| DepositApproved (amt usdCents : Z)
| WithdrawalApproved (amt : Z) (tonAddress : option string)
| WithdrawalRejected (amt : Z)
| Bought (itemId : string) (price : Z)
| Gifted (itemId recipientId : string) (price : Z)
| ReceivedGift (itemId buyerId : string)
| Upgraded (itemId : string) (level stars : Z)
| AdminIssuedGift (itemId : string) (price : Z)
| AdminBalance (credit : bool) (magnitude : Z)
| AdminTransferred (itemId toId : string)
| AdminBurned (itemId : string).

Record HistoryEntry := mkHist {
  hist_userId : string;
  hist_t : HistText;
  hist_ts : Z
}.

Inductive NotifyPayload :=
| PayloadRequested (id : string) (amountTon : Z)
| PayloadApproved (id : string) (kind : Kind) (amountTon : Z)
| PayloadRejected (id : string) (kind : Kind) (amountTon : Z) (note : string).

Record Notification := mkNotif {
  notif_id : string;
  notif_userId : string;
  notif_type : string;
  notif_payload : NotifyPayload;
  notif_read : bool;
  notif_ts : Z
}.

(** The document of [store.js].  [defaultDB] has no [payments] and no
    [notifications] key: the handlers read them as [db.payments || []]. *)
Record DB := mkDB {
  users : list User;
  items : list Item;
  payments : option (list Payment);
  history : list HistoryEntry;
  notifications : option (list Notification)
}.

Definition defaultDB : DB := mkDB [] [] None [] None.

Definition TON_USD_cents : Z := 350.   (* TON_USD = 3.5 *)

(** ** Field updates (assignments to one property of an object) *)

Definition set_balance (b : Z) (u : User) : User :=
  mkUser (user_id u) (user_name u) (user_email u) (user_pass u) (user_role u)
         b (user_owned u) (user_gifts u) (user_banned u).

Definition set_owned (o : list string) (u : User) : User :=
  mkUser (user_id u) (user_name u) (user_email u) (user_pass u) (user_role u)
         (user_balance u) o (user_gifts u) (user_banned u).

Definition set_gifts (g : Z) (u : User) : User :=
  mkUser (user_id u) (user_name u) (user_email u) (user_pass u) (user_role u)
         (user_balance u) (user_owned u) g (user_banned u).

Definition set_banned (b : bool) (u : User) : User :=
  mkUser (user_id u) (user_name u) (user_email u) (user_pass u) (user_role u)
         (user_balance u) (user_owned u) (user_gifts u) (Some b).

Definition set_ownerId (o : option string) (it : Item) : Item :=
  mkItem (item_id it) (item_name it) (item_price it) (item_rating it)
         (item_img it) (item_collection it) (item_stars it) (item_level it)
         o (item_createdAt it).

Definition set_stars (s : Z) (it : Item) : Item :=
  mkItem (item_id it) (item_name it) (item_price it) (item_rating it)
         (item_img it) (item_collection it) s (item_level it)
         (item_ownerId it) (item_createdAt it).

Definition set_level (l : Z) (it : Item) : Item :=
  mkItem (item_id it) (item_name it) (item_price it) (item_rating it)
         (item_img it) (item_collection it) (item_stars it) l
         (item_ownerId it) (item_createdAt it).

Definition resolve (s : Status) (adminId : string) (note : option string)
    (p : Payment) : Payment :=
  mkPayment (pay_id p) (pay_userId p) (pay_kind p) (pay_amountTon p)
            (pay_usdCents p) (pay_tonAddress p) s (pay_ts p)
            (Some adminId) note.

Definition set_read (n : Notification) : Notification :=
  mkNotif (notif_id n) (notif_userId n) (notif_type n) (notif_payload n)
          true (notif_ts n).

Definition set_users (us : list User) (db : DB) : DB :=
  mkDB us (items db) (payments db) (history db) (notifications db).
Definition set_items (its : list Item) (db : DB) : DB :=
  mkDB (users db) its (payments db) (history db) (notifications db).
Definition set_payments (ps : list Payment) (db : DB) : DB :=
  mkDB (users db) (items db) (Some ps) (history db) (notifications db).
Definition set_history (h : list HistoryEntry) (db : DB) : DB :=
  mkDB (users db) (items db) (payments db) h (notifications db).
Definition set_notifications (ns : list Notification) (db : DB) : DB :=
  mkDB (users db) (items db) (payments db) (history db) (Some ns).

(** ** Arrays of objects

    [arr.find(p)] returns a reference to the first element satisfying [p];
    an assignment through that reference changes that element in place. *)

Fixpoint update_first {A : Type} (p : A -> bool) (f : A -> A) (l : list A)
  : list A :=
  match l with
  | [] => []
  | x :: t => if p x then f x :: t else x :: update_first p f t
  end.

(** [arr.findIndex(p)] followed by [arr.splice(idx, 1)]. *)
Fixpoint remove_first {A : Type} (p : A -> bool) (l : list A) : list A :=
  match l with
  | [] => []
  | x :: t => if p x then t else x :: remove_first p t
  end.

Definition includes (x : string) (l : list string) : bool :=
  existsb (String.eqb x) l.

(** [values.filter(id => id !== x)] *)
Definition without (x : string) (l : list string) : list string :=
  filter (fun y => negb (String.eqb y x)) l.

Definition has_user_id (id : string) (u : User) : bool := String.eqb (user_id u) id.
Definition has_item_id (id : string) (it : Item) : bool := String.eqb (item_id it) id.
Definition has_pay_id (id : string) (p : Payment) : bool := String.eqb (pay_id p) id.

Definition payments_or_empty (db : DB) : list Payment :=
  match payments db with Some ps => ps | None => [] end.
Definition notifications_or_empty (db : DB) : list Notification :=
  match notifications db with Some ns => ns | None => [] end.

Arguments payments_or_empty db : simpl nomatch.
Arguments notifications_or_empty db : simpl nomatch.

Definition find_user (id : string) (db : DB) : option User :=
  find (has_user_id id) (users db).
Definition find_item (id : string) (db : DB) : option Item :=
  find (has_item_id id) (items db).
Definition find_payment (id : string) (db : DB) : option Payment :=
  find (has_pay_id id) (payments_or_empty db).

(** Truthiness of [item.ownerId]: [null] and [''] are falsy. *)
Definition truthy (s : string) : bool := negb (String.eqb s "").
Definition owner_truthy (o : option string) : bool :=
  match o with Some s => truthy s | None => false end.

(** JS prints an integer number in decimal. *)
Definition show_number (z : Z) : string := NilZero.string_of_int (Z.to_int z).

(** ** Requests, replies and the environment of one request *)

Record Caller := mkCaller { caller_id : string; caller_role : string }.

Record Env := mkEnv { nanoid : nat -> string; clock : nat -> Z }.

Inductive Reply :=
| Ok                                   (* [res.json({ ok: true, ... })] *)
| Err (status : nat) (error : string). (* [res.status(s).json({ error })] *)

(** What the client observes: a reply, or nothing because the closure raised. *)
Inductive Outcome :=
| Replied (r : Reply)
| Uncaught (e : string).

(** ** Units of work

    A closure passed to [transact] works on [mem], the object returned by
    [loadDB]; [saveDB(db)] copies it to [disk], the stored document.  A unit
    of work continues with a value, returns early after replying, or raises. *)

Record Store := mkStore { mem : DB; disk : DB }.

Inductive Result (A : Type) :=
| Cont (a : A)
| Return (r : Reply)
| Throw (e : string).
Arguments Cont {A} a.
Arguments Return {A} r.
Arguments Throw {A} e.

Definition Work (A : Type) : Type := Store -> Result A * Store.

Definition ret {A} (a : A) : Work A := fun s => (Cont a, s).

Definition bind {A B} (m : Work A) (k : A -> Work B) : Work B :=
  fun s =>
    match m s with
    | (Cont a, s') => k a s'
    | (Return r, s') => (Return r, s')
    | (Throw e, s') => (Throw e, s')
    end.

Notation "x <- m ;; k" := (bind m (fun x => k))
  (at level 61, m at next level, right associativity).
Notation "m ;; k" := (bind m (fun _ => k))
  (at level 61, right associativity).

(** [res.status(s).json({ error }); return;] *)
Definition reject {A} (status : nat) (error : string) : Work A :=
  fun s => (Return (Err status error), s).

(** [res.json({ ok: true, ... })] as the last statement of the closure. *)
Definition respond_ok : Work Reply := fun s => (Return Ok, s).

Definition raise {A} (e : string) : Work A := fun s => (Throw e, s).

Definition read_db : Work DB := fun s => (Cont (mem s), s).

Definition modify (f : DB -> DB) : Work unit :=
  fun s => (Cont tt, mkStore (f (mem s)) (disk s)).

(** [await saveDB(db)] *)
Definition saveDB : Work unit :=
  fun s => (Cont tt, mkStore (mem s) (mem s)).

(** Reading a property of [undefined] raises a TypeError. *)
Definition deref {A} (o : option A) : Work A :=
  match o with
  | Some a => ret a
  | None => raise "TypeError: Cannot read properties of undefined"
  end.

(** [transact(mutator)]: load, run, save.  When the closure raises, the
    trailing [saveDB] is not reached. *)
Definition transact (mutator : Work Reply) (file : DB) : Outcome * DB :=
  match mutator (mkStore file file) with
  | (Cont r, s) => (Replied r, mem s)
  | (Return r, s) => (Replied r, mem s)
  | (Throw e, s) => (Uncaught e, disk s)
  end.

(** ** Middleware *)

Inductive Token := NoToken | InvalidToken | Bearer (payload : Caller).

(** What a route does with a request: it replies at once, or it awaits
    [transact] on a closure that replies. *)
Inductive Handler :=
| Immediate (r : Reply)
| Transact (mutator : Work Reply).

Definition refuse (status : nat) (error : string) : Handler :=
  Immediate (Err status error).

Definition auth (t : Token) (next : Caller -> Handler) : Handler :=
  match t with
  | NoToken => refuse 401 "No token"
  | InvalidToken => refuse 401 "Invalid token"
  | Bearer payload => next payload
  end.

Definition is_admin (c : Caller) : bool := String.eqb (caller_role c) "admin".

Definition adminOnly (c : Caller) (next : Handler) : Handler :=
  if is_admin c then next else refuse 403 "Admin only".

(** ** Mutations through a found reference *)

Definition modify_user (id : string) (f : User -> User) : Work unit :=
  modify (fun db => set_users (update_first (has_user_id id) f (users db)) db).

Definition modify_item (id : string) (f : Item -> Item) : Work unit :=
  modify (fun db => set_items (update_first (has_item_id id) f (items db)) db).

Definition modify_payment (id : string) (f : Payment -> Payment) : Work unit :=
  modify (fun db =>
    set_payments (update_first (has_pay_id id) f (payments_or_empty db)) db).

Definition push_history (userId : string) (t : HistText) (ts : Z) : Work unit :=
  modify (fun db => set_history (history db ++ [mkHist userId t ts]) db).

(** [db.payments = db.payments || []; db.payments.push(pay)] *)
Definition push_payment (pay : Payment) : Work unit :=
  modify (fun db => set_payments (payments_or_empty db ++ [pay]) db).

(** [pushNotify(db, userId, type, payload)]; [kid] and [kts] count the calls
    of [nanoid] and [Date.now] made so far by the request. *)
Definition pushNotify (env : Env) (kid kts : nat) (userId type : string)
    (payload : NotifyPayload) : Work unit :=
  modify (fun db =>
    set_notifications
      (notifications_or_empty db ++
         [mkNotif (nanoid env kid) userId type payload false (clock env kts)])
      db).

(** ** Notifications *)

Definition notifications_read (t : Token) (ids : list string) : Handler :=
  auth t (fun me =>
    Transact (
      modify (fun db =>
        set_notifications
          (map (fun n =>
                  if String.eqb (notif_userId n) (caller_id me)
                     && includes (notif_id n) ids
                  then set_read n else n)
               (notifications_or_empty db))
          db) ;;
      saveDB ;;
      respond_ok)).

(** ** Payments *)

(** [const amt = Number(amountTon); if (!(amt > 0)) ...], for a body whose
    [amountTon] is a whole number or is missing. *)
Definition positive_amount (amountTon : option Z) : option Z :=
  match amountTon with
  | Some amt => if 0 <? amt then Some amt else None
  | None => None                      (* [Number(x)] is NaN *)
  end.

Definition deposit_request (env : Env) (t : Token) (amountTon : option Z)
  : Handler :=
  auth t (fun me =>
    match positive_amount amountTon with
    | None => refuse 400 "amountTon > 0 required"
    | Some amt =>
      Transact (
        let pay := mkPayment (nanoid env 0) (caller_id me) deposit amt
                     (amt * TON_USD_cents) None pending (clock env 0)
                     None None in
        push_payment pay ;;
        pushNotify env 1 1 (caller_id me) "deposit_requested"
                   (PayloadRequested (pay_id pay) amt) ;;
        saveDB ;;
        respond_ok)
    end).

Definition withdraw_request (env : Env) (t : Token) (amountTon : option Z)
    (tonAddress : string) : Handler :=
  auth t (fun me =>
    match positive_amount amountTon with
    | None => refuse 400 "amountTon > 0 required"
    | Some amt =>
      if (String.length tonAddress <? 5)%nat
      then refuse 400 "Valid tonAddress required"
      else
        Transact (
          db <- read_db ;;
          match find_user (caller_id me) db with
          | None => reject 404 "User not found"
          | Some u =>
            if user_balance u <? amt then reject 400 "Insufficient balance"
            else
              modify_user (caller_id me)
                (fun u => set_balance (user_balance u - amt) u) ;;
              let pay := mkPayment (nanoid env 0) (caller_id me) withdraw amt
                           (amt * TON_USD_cents) (Some tonAddress) pending
                           (clock env 0) None None in
              push_payment pay ;;
              push_history (caller_id me)
                           (WithdrawalRequested amt tonAddress) (clock env 1) ;;
              pushNotify env 1 2 (caller_id me) "withdraw_requested"
                         (PayloadRequested (pay_id pay) amt) ;;
              saveDB ;;
              respond_ok
          end)
    end).

Definition status_pending (s : Status) : bool :=
  match s with pending => true | _ => false end.

Definition payments_approve (env : Env) (t : Token) (id : string) : Handler :=
  auth t (fun admin => adminOnly admin (
    if negb (truthy id) then refuse 400 "id required"
    else
      Transact (
        db <- read_db ;;
        match find_payment id db with
        | None => reject 404 "Payment not found"
        | Some p =>
          if negb (status_pending (pay_status p))
          then reject 400 "Already processed"
          else
            match find_user (pay_userId p) db with
            | None => reject 404 "User not found"
            | Some user =>
              match pay_kind p with
              | deposit =>
                modify_user (pay_userId p)
                  (fun u => set_balance (user_balance u + pay_amountTon p) u) ;;
                push_history (user_id user)
                  (DepositApproved (pay_amountTon p) (pay_usdCents p))
                  (clock env 0)
              | withdraw =>
                push_history (user_id user)
                  (WithdrawalApproved (pay_amountTon p) (pay_tonAddress p))
                  (clock env 0)
              end ;;
              modify_payment id
                (fun p => resolve approved (caller_id admin) (pay_note p) p) ;;
              pushNotify env 0 1 (user_id user) "payment_approved"
                (PayloadApproved (pay_id p) (pay_kind p) (pay_amountTon p)) ;;
              saveDB ;;
              respond_ok
            end
        end))).

Definition payments_reject (env : Env) (t : Token) (id note : string)
  : Handler :=
  auth t (fun admin => adminOnly admin (
    if negb (truthy id) then refuse 400 "id required"
    else
      Transact (
        db <- read_db ;;
        match find_payment id db with
        | None => reject 404 "Payment not found"
        | Some p =>
          if negb (status_pending (pay_status p))
          then reject 400 "Already processed"
          else
            match find_user (pay_userId p) db with
            | None => reject 404 "User not found"
            | Some user =>
              match pay_kind p with
              | withdraw =>
                modify_user (pay_userId p)
                  (fun u => set_balance (user_balance u + pay_amountTon p) u) ;;
                push_history (user_id user)
                  (WithdrawalRejected (pay_amountTon p)) (clock env 0)
              | deposit => ret tt
              end ;;
              modify_payment id
                (fun p => resolve rejected (caller_id admin) (Some note) p) ;;
              pushNotify env 0
                (match pay_kind p with withdraw => 1 | deposit => 0 end)%nat
                (user_id user) "payment_rejected"
                (PayloadRejected (pay_id p) (pay_kind p) (pay_amountTon p) note) ;;
              saveDB ;;
              respond_ok
            end
        end))).

(** ** Buy and gift: [POST /api/tx/pay] *)

Definition tx_pay (env : Env) (t : Token) (itemId mode toUserId : string)
  : Handler :=
  auth t (fun me =>
    if negb (truthy itemId) || negb (truthy mode)
    then refuse 400 "itemId and mode required"
    else
      Transact (
        db <- read_db ;;
        let buyer := find_user (caller_id me) db in
        match find_item itemId db with
        | None => reject 404 "Item not found"
        | Some item =>
          if owner_truthy (item_ownerId item) then reject 400 "Already sold"
          else
            let price := item_price item in
            (if String.eqb mode "buy" then
               b <- deref buyer ;;
               if user_balance b <? price then reject 400 "Insufficient balance"
               else
                 modify_user (caller_id me)
                   (fun u => set_balance (user_balance u - price) u) ;;
                 modify_item itemId (set_ownerId (Some (user_id b))) ;;
                 modify_user (caller_id me)
                   (fun u => set_owned (user_owned u ++ [item_id item]) u) ;;
                 push_history (user_id b) (Bought (item_id item) price)
                              (clock env 0)
             else if String.eqb mode "gift" then
               if negb (truthy toUserId)
               then reject 400 "toUserId required for gift mode"
               else
                 match find_user toUserId db with
                 | None => reject 404 "Recipient not found"
                 | Some recipient =>
                   b <- deref buyer ;;
                   if user_balance b <? price
                   then reject 400 "Insufficient balance"
                   else
                     modify_user (caller_id me)
                       (fun u => set_balance (user_balance u - price) u) ;;
                     modify_item itemId
                       (set_ownerId (Some (user_id recipient))) ;;
                     modify_user toUserId
                       (fun u => set_owned (user_owned u ++ [item_id item]) u) ;;
                     modify_user toUserId
                       (fun u => set_gifts (user_gifts u + 1) u) ;;
                     push_history (user_id b)
                       (Gifted (item_id item) (user_id recipient) price)
                       (clock env 0) ;;
                     push_history (user_id recipient)
                       (ReceivedGift (item_id item) (user_id b)) (clock env 1)
                 end
             else reject 400 "Invalid mode") ;;
            saveDB ;;
            respond_ok
        end)).

(** ** Upgrade: [POST /api/nft/upgrade] *)

Definition option_string_eqb (o : option string) (s : string) : bool :=
  match o with Some x => String.eqb x s | None => false end.

Definition nft_upgrade (env : Env) (t : Token) (id : string) : Handler :=
  auth t (fun me =>
    if negb (truthy id) then refuse 400 "id required"
    else
      Transact (
        db <- read_db ;;
        match find_item id db with
        | None => reject 404 "Item not found"
        | Some item =>
          if negb (option_string_eqb (item_ownerId item) (caller_id me))
          then reject 403 "Not owner"
          else
            modify_item id (fun it => set_stars (Z.max 0 (item_stars it - 1)) it) ;;
            modify_item id (fun it => set_level (item_level it + 1) it) ;;
            push_history (caller_id me)
              (Upgraded (item_id item) (item_level item + 1)
                        (Z.max 0 (item_stars item - 1)))
              (clock env 0) ;;
            saveDB ;;
            respond_ok
        end)).

(** ** Admin gift: [POST /api/admin/gift] *)

Definition admin_gift (env : Env) (t : Token) (toUserId itemId : string)
  : Handler :=
  auth t (fun admin => adminOnly admin (
    if negb (truthy toUserId) || negb (truthy itemId)
    then refuse 400 "toUserId and itemId required"
    else
      Transact (
        db <- read_db ;;
        match find_user toUserId db with
        | None => reject 404 "User not found"
        | Some user =>
          match find_item itemId db with
          | None => reject 404 "Item not found"
          | Some item =>
            if owner_truthy (item_ownerId item) then reject 400 "Already owned"
            else
              let price := item_price item in
              if user_balance user <? price
              then reject 400 "Recipient has insufficient balance to be charged"
              else
                modify_user toUserId
                  (fun u => set_balance (user_balance u - price) u) ;;
                modify_item itemId (set_ownerId (Some (user_id user))) ;;
                modify_user toUserId
                  (fun u => set_owned (user_owned u ++ [item_id item]) u) ;;
                modify_user toUserId
                  (fun u => set_gifts (user_gifts u + 1) u) ;;
                push_history (user_id user)
                  (AdminIssuedGift (item_id item) price) (clock env 0) ;;
                saveDB ;;
                respond_ok
          end
        end))).

(** ** Admin: users *)

Definition admin_users_balance (env : Env) (t : Token) (userId : string)
    (delta : option Z) : Handler :=
  auth t (fun admin => adminOnly admin (
    match delta with
    | None => refuse 400 "userId and numeric delta required"
    | Some delta =>
      if negb (truthy userId)
      then refuse 400 "userId and numeric delta required"
      else
        Transact (
          db <- read_db ;;
          match find_user userId db with
          | None => reject 404 "User not found"
          | Some _ =>
            modify_user userId
              (fun u => set_balance (Z.max 0 (user_balance u + delta)) u) ;;
            push_history userId (AdminBalance (0 <=? delta) (Z.abs delta))
                         (clock env 0) ;;
            saveDB ;;
            respond_ok
          end)
    end)).

Definition admin_users_ban (t : Token) (userId : string)
    (banned : option bool) : Handler :=
  auth t (fun admin => adminOnly admin (
    match banned with
    | None => refuse 400 "userId and banned boolean required"
    | Some banned =>
      if negb (truthy userId)
      then refuse 400 "userId and banned boolean required"
      else
        Transact (
          db <- read_db ;;
          match find_user userId db with
          | None => reject 404 "User not found"
          | Some _ =>
            modify_user userId (set_banned banned) ;;
            saveDB ;;
            respond_ok
          end)
    end)).

(** ** Admin: items *)

(** ['nft_' + (1000 + db.items.length)] *)
Definition next_item_id (db : DB) : string :=
  "nft_" ++ show_number (1000 + Z.of_nat (List.length (items db))).

Definition or_default {A} (o : option A) (d : A) : A :=
  match o with Some a => a | None => d end.

(** [x || d] on a number: [0] and NaN are falsy. *)
Definition number_or (o : option Z) (d : Z) : Z :=
  match o with
  | Some z => if z =? 0 then d else z
  | None => d
  end.

(** [x || d] on a string. *)
Definition string_or (s d : string) : string := if truthy s then s else d.

Definition admin_items_create (env : Env) (t : Token) (name : string)
    (price : option Z) (img : string) (collection : option string)
    (rating : option Z) : Handler :=
  auth t (fun admin => adminOnly admin (
    match price with
    | None => refuse 400 "name and numeric price required"
    | Some price =>
      if negb (truthy name) then refuse 400 "name and numeric price required"
      else
        Transact (
          db <- read_db ;;
          let id := next_item_id db in
          let item := mkItem id name price (or_default rating 5)
                        (if truthy img then ImgUrl img else ImgSeedOfName name)
                        (or_default collection "Default") 3 0 None
                        (clock env 0) in
          modify (fun db => set_items (items db ++ [item]) db) ;;
          saveDB ;;
          respond_ok)
    end)).

(** The rest properties [...fields] of the update body; [id] is taken out
    by the destructuring, so it cannot be among them. *)
Record ItemFields := mkFields {
  f_name : option string;
  f_price : option Z;
  f_rating : option Z;
  f_img : option Img;
  f_collection : option string;
  f_stars : option Z;
  f_level : option Z;
  f_ownerId : option (option string);
  f_createdAt : option Z
}.

(** [Object.assign(it, fields)] *)
Definition assign_fields (fields : ItemFields) (it : Item) : Item :=
  mkItem (item_id it)
         (or_default (f_name fields) (item_name it))
         (or_default (f_price fields) (item_price it))
         (or_default (f_rating fields) (item_rating it))
         (or_default (f_img fields) (item_img it))
         (or_default (f_collection fields) (item_collection it))
         (or_default (f_stars fields) (item_stars it))
         (or_default (f_level fields) (item_level it))
         (or_default (f_ownerId fields) (item_ownerId it))
         (or_default (f_createdAt fields) (item_createdAt it)).

Definition admin_items_update (t : Token) (id : string) (fields : ItemFields)
  : Handler :=
  auth t (fun admin => adminOnly admin (
    if negb (truthy id) then refuse 400 "id required"
    else
      Transact (
        db <- read_db ;;
        match find_item id db with
        | None => reject 404 "Item not found"
        | Some _ =>
          modify_item id (assign_fields fields) ;;
          saveDB ;;
          respond_ok
        end))).

Definition admin_items_delete (t : Token) (id : string) : Handler :=
  auth t (fun admin => adminOnly admin (
    Transact (
      db <- read_db ;;
      match find_item id db with
      | None => reject 404 "Item not found"
      | Some _ =>
        modify (fun db => set_items (remove_first (has_item_id id) (items db)) db) ;;
        saveDB ;;
        respond_ok
      end))).

Definition admin_items_clear (t : Token) : Handler :=
  auth t (fun admin => adminOnly admin (
    Transact (
      modify (set_items []) ;;
      saveDB ;;
      respond_ok))).

(** One element [x] of the [items] array of a bulk import. *)
Record ImportRow := mkRow {
  x_name : string;
  x_price : option Z;
  x_rating : option Z;
  x_img : string;
  x_collection : string;
  x_stars : option Z;
  x_level : option Z;
  x_ownerId : option string
}.

Definition import_row (env : Env) (idx : nat) (x : ImportRow) (db : DB) : DB :=
  let id := next_item_id db in
  set_items
    (items db ++
       [mkItem id
          (string_or (x_name x) ("Item " ++ id))
          (number_or (x_price x) 0)
          (number_or (x_rating x) 5)
          (ImgUrl (string_or (x_img x)
             ("https://picsum.photos/seed/i" ++ show_number (Z.of_nat idx)
                ++ "/800")))
          (string_or (x_collection x) "Default")
          (number_or (x_stars x) 3)
          (number_or (x_level x) 0)
          (match x_ownerId x with
           | Some o => if truthy o then Some o else None
           | None => None
           end)
          (clock env idx)])
    db.

(** [items.forEach((x, idx) => ...)] *)
Fixpoint import_rows (env : Env) (idx : nat) (rows : list ImportRow) (db : DB)
  : DB :=
  match rows with
  | [] => db
  | x :: rest => import_rows env (S idx) rest (import_row env idx x db)
  end.

Definition admin_items_bulkImport (env : Env) (t : Token)
    (rows : option (list ImportRow)) : Handler :=
  auth t (fun admin => adminOnly admin (
    match rows with
    | None => refuse 400 "items array required"
    | Some rows =>
      Transact (
        modify (import_rows env 0 rows) ;;
        saveDB ;;
        respond_ok)
    end)).

(** ** Admin: transfer and burn *)

Definition admin_transfer (env : Env) (t : Token) (itemId toUserId : string)
  : Handler :=
  auth t (fun admin => adminOnly admin (
    if negb (truthy itemId) || negb (truthy toUserId)
    then refuse 400 "itemId and toUserId required"
    else
      Transact (
        db <- read_db ;;
        match find_item itemId db with
        | None => reject 404 "Item not found"
        | Some it =>
          match find_user toUserId db with
          | None => reject 404 "Target user not found"
          | Some to =>
            match item_ownerId it with
            | Some prev =>
              if truthy prev
              then modify_user prev
                     (fun u => set_owned (without (item_id it) (user_owned u)) u)
              else ret tt
            | None => ret tt
            end ;;
            modify_item itemId (set_ownerId (Some (user_id to))) ;;
            modify_user toUserId
              (fun u => if includes (item_id it) (user_owned u) then u
                        else set_owned (user_owned u ++ [item_id it]) u) ;;
            push_history (user_id to)
              (AdminTransferred (item_id it) (user_id to)) (clock env 0) ;;
            saveDB ;;
            respond_ok
          end
        end))).

Definition admin_burn (env : Env) (t : Token) (itemId : string) : Handler :=
  auth t (fun admin => adminOnly admin (
    if negb (truthy itemId) then refuse 400 "itemId required"
    else
      Transact (
        db <- read_db ;;
        match find_item itemId db with
        | None => reject 404 "Item not found"
        | Some it =>
          match item_ownerId it with
          | Some owner =>
            if truthy owner
            then modify_user owner
                   (fun u => set_owned (without (item_id it) (user_owned u)) u)
            else ret tt
          | None => ret tt
          end ;;
          modify (fun db =>
            set_items
              (filter (fun x => negb (String.eqb (item_id x) (item_id it)))
                      (items db))
              db) ;;
          push_history
            (match item_ownerId it with
             | Some owner => string_or owner "system"
             | None => "system"
             end)
            (AdminBurned (item_id it)) (clock env 0) ;;
          saveDB ;;
          respond_ok
        end))).

(** ** The routes served through [transact] *)

Inductive Request :=
| NotificationsRead (ids : list string)
| DepositRequest (amountTon : option Z)
| WithdrawRequest (amountTon : option Z) (tonAddress : string)
| PaymentsApprove (id : string)
| PaymentsReject (id note : string)
| TxPay (itemId mode toUserId : string)
| NftUpgrade (id : string)
| AdminGift (toUserId itemId : string)
| AdminUsersBalance (userId : string) (delta : option Z)
| AdminUsersBan (userId : string) (banned : option bool)
| AdminItemsCreate (name : string) (price : option Z) (img : string)
    (collection : option string) (rating : option Z)
| AdminItemsUpdate (id : string) (fields : ItemFields)
| AdminItemsDelete (id : string)
| AdminItemsClear
| AdminItemsBulkImport (rows : option (list ImportRow))
| AdminTransfer (itemId toUserId : string)
| AdminBurn (itemId : string).

Definition route (env : Env) (t : Token) (r : Request) : Handler :=
  match r with
  | NotificationsRead ids => notifications_read t ids
  | DepositRequest a => deposit_request env t a
  | WithdrawRequest a addr => withdraw_request env t a addr
  | PaymentsApprove id => payments_approve env t id
  | PaymentsReject id note => payments_reject env t id note
  | TxPay itemId mode toUserId => tx_pay env t itemId mode toUserId
  | NftUpgrade id => nft_upgrade env t id
  | AdminGift toUserId itemId => admin_gift env t toUserId itemId
  | AdminUsersBalance userId delta => admin_users_balance env t userId delta
  | AdminUsersBan userId banned => admin_users_ban t userId banned
  | AdminItemsCreate name price img collection rating =>
      admin_items_create env t name price img collection rating
  | AdminItemsUpdate id fields => admin_items_update t id fields
  | AdminItemsDelete id => admin_items_delete t id
  | AdminItemsClear => admin_items_clear t
  | AdminItemsBulkImport rows => admin_items_bulkImport env t rows
  | AdminTransfer itemId toUserId => admin_transfer env t itemId toUserId
  | AdminBurn itemId => admin_burn env t itemId
  end.

(** Serving a request against the stored document [file]. *)
Definition perform (h : Handler) (file : DB) : Outcome * DB :=
  match h with
  | Immediate r => (Replied r, file)
  | Transact mutator => transact mutator file
  end.

Definition serve (env : Env) (t : Token) (r : Request) (file : DB)
  : Outcome * DB :=
  perform (route env t r) file.

(** ** Requests served one after the other

    Each submission carries its own environment and token; the document left
    by one is the document loaded by the next. *)

Record Submission := mkSub {
  sub_env : Env;
  sub_token : Token;
  sub_request : Request
}.

Definition submit (s : Submission) (file : DB) : Outcome * DB :=
  serve (sub_env s) (sub_token s) (sub_request s) file.

Fixpoint serve_all (subs : list Submission) (file : DB) : list Outcome * DB :=
  match subs with
  | [] => ([], file)
  | s :: rest =>
    let (out, file1) := submit s file in
    let (outs, file2) := serve_all rest file1 in
    (out :: outs, file2)
  end.

(** An admin's attempt to resolve the payment [id]. *)
Inductive Attempt := TryApprove | TryReject (note : string).

Definition attempt (id : string) (a : Env * Caller * Attempt) : Submission :=
  match a with
  | (env, admin, TryApprove) => mkSub env (Bearer admin) (PaymentsApprove id)
  | (env, admin, TryReject note) =>
      mkSub env (Bearer admin) (PaymentsReject id note)
  end.

(** A submission, by anyone, that asks to approve or to reject payment [id]. *)
Definition resolves (id : string) (s : Submission) : bool :=
  match sub_request s with
  | PaymentsApprove id' => String.eqb id' id
  | PaymentsReject id' _ => String.eqb id' id
  | _ => false
  end.

Definition is_rejection (o : Outcome) : bool :=
  match o with
  | Replied (Err _ _) => true
  | _ => false
  end.

(** ** Reading a snapshot *)

Definition balance_of (id : string) (db : DB) : option Z :=
  option_map user_balance (find_user id db).

Definition owned_of (id : string) (db : DB) : option (list string) :=
  option_map user_owned (find_user id db).


Definition status_of (id : string) (db : DB) : option Status :=
  option_map pay_status (find_payment id db).

(** ** Sample data for closed instances *)

Definition env0 : Env :=
  mkEnv (fun k => "id_" ++ show_number (Z.of_nat k))
        (fun k => 1700000000000 + Z.of_nat k).

Definition env1 : Env :=
  mkEnv (fun k => "jd_" ++ show_number (Z.of_nat k))
        (fun k => 1700000001000 + Z.of_nat k).

Definition admin0 : Caller := mkCaller "u_admin" "admin".
Definition alice : Caller := mkCaller "u_1001" "user".
Definition bob : Caller := mkCaller "u_1002" "user".
Definition ghost : Caller := mkCaller "u_gone" "user".

Definition seeded_user (id name email : string) (role : string) (balance : Z)
  : User := mkUser id name email "$2a$10$hash" role balance [] 0 None.

(** The users written by [seed()], with the given balances for Alice and Bob. *)
Definition seeded (a b : Z) : DB :=
  mkDB [seeded_user "u_admin" "Admin" "admin@example.com" "admin" 0;
        seeded_user "u_1001" "Alice" "alice@example.com" "user" a;
        seeded_user "u_1002" "Bob" "bob@example.com" "user" b]
       [] None [] None.


(** Alice holds 10, asks to withdraw all of it, and the admin rejects. *)
Definition after_reject : DB :=
  snd (serve_all
         [mkSub env0 (Bearer alice) (WithdrawRequest (Some 10) "EQaddress");
          mkSub env1 (Bearer admin0) (PaymentsReject "id_0" "")]
         (seeded 10 0)).

(** The seeded users and one item, "nft_1000", created by the admin at the
    given price. *)
Definition market (a b price : Z) : DB :=
  snd (serve_all
         [mkSub env0 (Bearer admin0)
                (AdminItemsCreate "Rose" (Some price) "" None None)]
         (seeded a b)).

(** The seeded users and one bulk-imported item, "nft_1000", that arrives
    owned by Alice with a negative [stars] value. *)
Definition imported_negative_stars : DB :=
  snd (serve_all
         [mkSub env0 (Bearer admin0)
                (AdminItemsBulkImport
                   (Some [mkRow "Thorn" (Some 5) None "" "" (Some (-2)) None
                                (Some "u_1001")]))]
         (seeded 0 0)).


(** The market after Alice bought "nft_1000" for 5. *)
Definition alice_owns : DB :=
  snd (serve env1 (Bearer alice) (TxPay "nft_1000" "buy" "") (market 5 0 5)).

(** ** Ownership consistency

    The two sides of the ownership relation: an item names its owner in
    [ownerId], a user lists the ids of the items it owns in [owned]. *)

(** Every item whose owner reference is set is listed by a user with that id. *)
Definition owner_lists_item (db : DB) : Prop :=
  forall it o,
    In it (items db) -> item_ownerId it = Some o -> truthy o = true ->
    exists u, In u (users db) /\ user_id u = o /\ In (item_id it) (user_owned u).

(** Every id listed by a user is the id of an item owned by that user. *)
Definition owned_is_owned (db : DB) : Prop :=
  forall u id,
    In u (users db) -> In id (user_owned u) ->
    exists it,
      In it (items db) /\ item_id it = id /\ item_ownerId it = Some (user_id u).

Definition ownership_consistent (db : DB) : Prop :=
  owner_lists_item db /\ owned_is_owned db.

(** The same two conditions as a check that runs on a snapshot. *)
Definition owner_lists_itemb (db : DB) : bool :=
  forallb
    (fun it =>
       negb (owner_truthy (item_ownerId it))
       || existsb (fun u => option_string_eqb (item_ownerId it) (user_id u)
                            && includes (item_id it) (user_owned u))
                  (users db))
    (items db).

Definition owned_is_ownedb (db : DB) : bool :=
  forallb
    (fun u =>
       forallb
         (fun id =>
            existsb (fun it => has_item_id id it
                               && option_string_eqb (item_ownerId it) (user_id u))
                    (items db))
         (user_owned u))
    (users db).

Definition ownership_consistentb (db : DB) : bool :=
  owner_lists_itemb db && owned_is_ownedb db.

(** Identifiers name one record each, and no user has the empty id. *)
Definition ids_well_formed (db : DB) : Prop :=
  NoDup (map user_id (users db))
  /\ NoDup (map item_id (items db))
  /\ ~ In "" (map user_id (users db)).

Definition well_formed (db : DB) : Prop :=
  ids_well_formed db /\ ownership_consistent db.

(** The requests of buy and gift, admin gift, transfer and burn. *)
Definition keeps_ownership_in_step (r : Request) : bool :=
  match r with
  | TxPay _ _ _ | AdminGift _ _ | AdminTransfer _ _ | AdminBurn _ => true
  | _ => false
  end.

(** The ownership relation read through the lookups of the handlers. *)
Definition owner_at (id : string) (db : DB) : option (option string) :=
  option_map item_ownerId (find_item id db).

Definition lookup_consistent (db : DB) : Prop :=
  (forall id o,
      owner_at id db = Some (Some o) -> truthy o = true ->
      exists owned, owned_of o db = Some owned /\ In id owned)
  /\ (forall uid owned id,
        owned_of uid db = Some owned -> In id owned ->
        owner_at id db = Some (Some uid)).

(** [uid] is the user from whose list transfer and burn take the item: the
    item's [ownerId], when truthy. *)
Definition held_by (ownerId : option string) (uid : string) : bool :=
  match ownerId with
  | Some prev => truthy prev && String.eqb uid prev
  | None => false
  end.

(** [if (!owned.includes(k)) owned.push(k)] *)
Definition ensure (k : string) (l : list string) : list string :=
  if includes k l then l else l ++ [k].

Fixpoint nodupb (l : list string) : bool :=
  match l with
  | [] => true
  | x :: t => negb (includes x t) && nodupb t
  end.

Definition ids_well_formedb (db : DB) : bool :=
  nodupb (map user_id (users db))
  && nodupb (map item_id (items db))
  && negb (includes "" (map user_id (users db))).

Definition well_formedb (db : DB) : bool :=
  ids_well_formedb db && ownership_consistentb db.

(** Update fields that only rewrite the owner reference. *)
Definition only_owner (o : option string) : ItemFields :=
  mkFields None None None None None None None (Some o) None.

(** ** Requests in flight

    [transact] takes no lock:
    [const db = await loadDB(); const result = await mutator(db);
     await saveDB(db); return result;].
    Each [await] hands control back to the event loop, which may run a step
    of another request.  A request is therefore cut at its awaits: it
    arrives; [loadDB] resolves with the document stored at that moment; the
    closure runs on that copy up to and including its own [saveDB] and
    replies; the trailing [saveDB] of [transact] writes the copy once more. *)

Inductive Task :=
| Arrived (h : Handler)
| Loaded (mutator : Work Reply) (db : DB)
| Closing (out : Outcome) (db : DB)
| Finished (out : Outcome).

Definition step_task (t : Task) (file : DB) : Task * DB :=
  match t with
  | Arrived (Immediate r) => (Finished (Replied r), file)
  | Arrived (Transact mutator) => (Loaded mutator file, file)
  | Loaded mutator db =>
    match mutator (mkStore db file) with
    | (Cont r, s) => (Closing (Replied r) (mem s), disk s)
    | (Return r, s) => (Closing (Replied r) (mem s), disk s)
    | (Throw e, s) => (Finished (Uncaught e), disk s)
    end
  | Closing out db => (Finished out, db)
  | Finished out => (Finished out, file)
  end.

(** The event loop resumes the [i]-th request in flight. *)
Fixpoint resume (i : nat) (ts : list Task) (file : DB) : list Task * DB :=
  match ts, i with
  | [], _ => ([], file)
  | t :: rest, O =>
    let (t', file') := step_task t file in (t' :: rest, file')
  | t :: rest, S j =>
    let (rest', file') := resume j rest file in (t :: rest', file')
  end.

Fixpoint run_schedule (schedule : list nat) (ts : list Task) (file : DB)
  : list Task * DB :=
  match schedule with
  | [] => (ts, file)
  | i :: later =>
    let (ts', file') := resume i ts file in run_schedule later ts' file'
  end.

(** Two withdrawal requests by Alice, each for her full balance of 10. *)
Definition full_withdrawal (env : Env) : Handler :=
  route env (Bearer alice) (WithdrawRequest (Some 10) "EQaddress").

Definition two_full_withdrawals : list Task :=
  [Arrived (full_withdrawal env0); Arrived (full_withdrawal env1)].

(** ** Item ids across deletions *)

Definition create_item (env : Env) (name : string) : Submission :=
  mkSub env (Bearer admin0) (AdminItemsCreate name (Some 1) "" None None).

Definition create_create_delete_create : list Submission :=
  [create_item env0 "Rose"; create_item env0 "Lily";
   mkSub env0 (Bearer admin0) (AdminItemsDelete "nft_1000");
   create_item env0 "Iris"].

Definition create_create_burn_import : list Submission :=
  [create_item env0 "Rose"; create_item env0 "Lily";
   mkSub env0 (Bearer admin0) (AdminBurn "nft_1000");
   mkSub env0 (Bearer admin0)
         (AdminItemsBulkImport
            (Some [mkRow "Iris" (Some 1) None "" "" None None None]))].

(** ** Snapshots with repeated or empty ids *)

Definition rose (owner : option string) : Item :=
  mkItem "nft_1000" "Rose" 5 5 (ImgSeedOfName "Rose") "Default" 3 0 owner 0.

(** Two items carry the id "nft_1000"; Alice owns both and lists the id. *)
Definition twin_items : DB :=
  mkDB [seeded_user "u_admin" "Admin" "admin@example.com" "admin" 0;
        set_owned ["nft_1000"]
          (seeded_user "u_1001" "Alice" "alice@example.com" "user" 0);
        seeded_user "u_1002" "Bob" "bob@example.com" "user" 0]
       [rose (Some "u_1001"); rose (Some "u_1001")] None [] None.

(** Two users carry the id "u_1001"; the second one lists the item. *)
Definition twin_users : DB :=
  mkDB [seeded_user "u_1001" "Alice" "alice@example.com" "user" 0;
        set_owned ["nft_1000"]
          (seeded_user "u_1001" "Alicia" "alicia@example.com" "user" 0);
        seeded_user "u_1002" "Bob" "bob@example.com" "user" 0]
       [rose (Some "u_1001")] None [] None.

(** A user with the empty id lists an item whose [ownerId] is ['']. *)
Definition nameless_user : DB :=
  mkDB [set_owned ["nft_1000"] (seeded_user "" "Nobody" "nobody@example.com" "user" 0);
        seeded_user "u_1001" "Alice" "alice@example.com" "user" 9]
       [rose (Some "")] None [] None.

(** The payment record of [after_reject]. *)
Definition rejected_withdrawal : Payment :=
  mkPayment "id_0" "u_1001" withdraw 10 3500 (Some "EQaddress") rejected
            (clock env0 0) (Some "u_admin") (Some "").

(** Alice asks to withdraw more than she holds while Bob files a deposit. *)
Definition refused_withdrawal_and_deposit : list Task :=
  [Arrived (route env0 (Bearer alice) (WithdrawRequest (Some 20) "EQaddress"));
   Arrived (route env1 (Bearer bob) (DepositRequest (Some 3)))].

(** ** Whole numbers and doubles *)

(** A whole number that a double holds exactly, with room for the sums and
    differences of such numbers to be exact as well: its magnitude is at
    most 2^53. *)
Definition exact_in_double (z : Z) : Prop :=
  - 9007199254740992 <= z <= 9007199254740992.

(** The balance arithmetic of the payment routes and of the admin
    adjustment on binary64 values, as the program computes it: every sum
    and difference is rounded to the nearest double. *)
Module Doubles.

(** [x || 0] on a number: [NaN], [0] and [-0] are falsy. *)
Definition or_zero (x : float) : float :=
  if is_nan x || (x =? 0)%float then 0%float else x.

(** [POST /api/payments/withdraw/request] by a stored user, with a valid
    address: the guard on [amt = Number(amountTon)] (line 172), the guard
    on the balance (line 177) and [me.balance -= amt] (line 179).  The
    balance after the hold, or the refusal. *)
Definition withdraw_request (balance amt : float) : Reply + float :=
  if negb (0 <? amt)%float then inl (Err 400 "amountTon > 0 required")
  else if (or_zero balance <? amt)%float
       then inl (Err 400 "Insufficient balance")
       else inr (balance - amt)%float.

(** [POST /api/admin/payments/reject] of a pending withdrawal:
    [user.balance = (user.balance||0) + p.amountTon] (line 236). *)
Definition reject_withdraw (balance amountTon : float) : float :=
  (or_zero balance + amountTon)%float.

(** [POST /api/admin/payments/approve] of a pending deposit:
    [user.balance = (user.balance||0) + p.amountTon] (line 211). *)
Definition approve_deposit (balance amountTon : float) : float :=
  (or_zero balance + amountTon)%float.

(** [Math.max(0, x)] *)
Definition max_zero (x : float) : float :=
  if is_nan x then x else if (0 <? x)%float then x else 0%float.

(** [POST /api/admin/users/balance]:
    [u.balance = Math.max(0, (u.balance||0) + delta)] (line 375). *)
Definition users_balance (balance delta : float) : float :=
  max_zero (or_zero balance + delta)%float.

End Doubles.

From Stdlib Require Import DecimalPos DecimalZ Permutation Sorted.

(** * The rest of the server

    Relations between the document before and after a request, the routes
    that do not go through [transact], and the read-only routes. *)

(** ** What a request may do to the payments

    A record keeps the fields it was filed with; its status moves at most
    once, away from ['pending']. *)

Definition same_filing (p p' : Payment) : Prop :=
  pay_id p' = pay_id p /\ pay_userId p' = pay_userId p
  /\ pay_kind p' = pay_kind p /\ pay_amountTon p' = pay_amountTon p
  /\ pay_usdCents p' = pay_usdCents p
  /\ pay_tonAddress p' = pay_tonAddress p /\ pay_ts p' = pay_ts p.

Definition payment_evolves (p p' : Payment) : Prop :=
  p' = p
  \/ (pay_status p = pending /\ pay_status p' <> pending /\ same_filing p p').

Definition payments_evolve (ps ps' : list Payment) : Prop :=
  exists kept filed,
    ps' = (kept ++ filed)%list
    /\ Forall2 payment_evolves ps kept
    /\ Forall (fun p => pay_status p = pending) filed.

(** ** Solvency: no balance below zero, no filed amount at or below zero *)

Definition solvent (db : DB) : Prop :=
  Forall (fun u => 0 <= user_balance u) (users db)
  /\ Forall (fun p => 0 < pay_amountTon p) (payments_or_empty db).

(** ** Funds of a user: the balance and what pending withdrawals hold *)

Definition holds_for (uid : string) (p : Payment) : bool :=
  String.eqb (pay_userId p) uid
  && status_pending (pay_status p)
  && match pay_kind p with withdraw => true | deposit => false end.

Fixpoint held (uid : string) (ps : list Payment) : Z :=
  match ps with
  | [] => 0
  | p :: rest =>
    (if holds_for uid p then pay_amountTon p else 0) + held uid rest
  end.

Definition funds_of (uid : string) (db : DB) : option Z :=
  option_map (fun b => b + held uid (payments_or_empty db)) (balance_of uid db).

(** The funds are whole numbers the program's doubles hold exactly: no
    balance is negative, every filed amount is above zero, and no user's
    balance and held amounts together exceed 2^53.  Every balance, every
    held amount and every sum of them is then of magnitude at most 2^53. *)
Definition funds_exact (db : DB) : Prop :=
  solvent db
  /\ Forall (fun u =>
               exact_in_double
                 (user_balance u + held (user_id u) (payments_or_empty db)))
            (users db).

(** ** What identifies a user and an item *)

Definition user_identity (u : User)
  : string * string * string * string * string :=
  (user_id u, user_name u, user_email u, user_pass u, user_role u).

Definition item_listing (it : Item) : string * string * Z :=
  (item_id it, item_name it, item_price it).

(** ** Tokens *)

Definition admin_token (t : Token) : bool :=
  match t with
  | Bearer c => is_admin c
  | _ => false
  end.

Definition token_id (t : Token) : option string :=
  match t with
  | Bearer c => Some (caller_id c)
  | _ => None
  end.

(** ** Marking notifications as read *)

(** The caller [c] asked to mark the ids [ids]: this notification is one of
    them. *)
Definition asked_to_read (c : string) (ids : list string) (n : Notification)
  : bool :=
  String.eqb (notif_userId n) c && includes (notif_id n) ids.

Definition marking (c : string) (ids : list string) (n n' : Notification)
  : Prop :=
  n' = n \/ (asked_to_read c ids n = true /\ n' = set_read n).

(** ** Item ids in issue order *)

(** The id issued when [n] items are stored. *)
Definition issued_id (n : nat) : string :=
  "nft_" ++ show_number (1000 + Z.of_nat n).

(** The stored items carry, in order, the ids issued for 0, 1, 2, ... *)
Definition ids_in_sequence (db : DB) : Prop :=
  map item_id (items db) = map issued_id (seq 0 (List.length (items db))).

(** The two routes that take single items out of the array. *)
Definition removes_an_item (r : Request) : bool :=
  match r with
  | AdminItemsDelete _ | AdminBurn _ => true
  | _ => false
  end.

(** The requests that hold funds and that give them back. *)
Definition holds_or_refunds (r : Request) : bool :=
  match r with
  | WithdrawRequest _ _ | PaymentsReject _ _ => true
  | _ => false
  end.

(** The amount a withdrawal request asks for is a whole number the
    program's doubles hold exactly, so that [Number(amountTon)] is that
    number. *)
Definition amount_exact (r : Request) : Prop :=
  match r with
  | WithdrawRequest (Some amt) _ => exact_in_double amt
  | _ => True
  end.

(** [x || d] on a number field of a row, as a relation between the field
    and what is stored: a number other than [0] is kept, and [0] or a
    missing field gives the default [d]. *)
Definition number_or_default (field : option Z) (d stored : Z) : Prop :=
  (forall z, field = Some z -> z <> 0 -> stored = z)
  /\ (field = Some 0 \/ field = None -> stored = d).

(** What bulk import stores for the row [x]: every field of the row that is
    truthy, and the default of the route for every other one. *)
Definition imported_from (x : ImportRow) (it : Item) : Prop :=
  number_or_default (x_price x) 0 (item_price it)
  /\ number_or_default (x_rating x) 5 (item_rating it)
  /\ number_or_default (x_stars x) 3 (item_stars it)
  /\ number_or_default (x_level x) 0 (item_level it)
  /\ (x_name x <> "" -> item_name it = x_name x)
  /\ (x_name x = "" -> item_name it = "Item " ++ item_id it)
  /\ (x_collection x <> "" -> item_collection it = x_collection x)
  /\ (x_collection x = "" -> item_collection it = "Default")
  /\ (forall o, x_ownerId x = Some o -> o <> "" -> item_ownerId it = Some o)
  /\ (x_ownerId x = Some "" \/ x_ownerId x = None -> item_ownerId it = None).

(** What bulk import guarantees of every item it stores: the [||] defaults
    leave no falsy name, rating, image, collection, stars or owner. *)
Definition import_defaults_applied (it : Item) : Prop :=
  item_name it <> "" /\ item_rating it <> 0 /\ item_stars it <> 0
  /\ item_collection it <> "" /\ item_ownerId it <> Some ""
  /\ item_img it <> ImgUrl "".

(** ** Read-only routes

    A [GET] route loads the document and sends a value computed from it;
    nothing is written back. *)

Inductive Fetched (A : Type) :=
| Sent (body : A)                         (* [res.json(body)] *)
| Refused (status : nat) (error : string)
| Raised (e : string).
Arguments Sent {A} body.
Arguments Refused {A} status error.
Arguments Raised {A} e.

Definition fetch_auth {A} (t : Token) (next : Caller -> Fetched A)
  : Fetched A :=
  match t with
  | NoToken => Refused 401 "No token"
  | InvalidToken => Refused 401 "Invalid token"
  | Bearer payload => next payload
  end.

Definition fetch_adminOnly {A} (c : Caller) (next : Fetched A) : Fetched A :=
  if is_admin c then next else Refused 403 "Admin only".

(** [arr.sort((a, b) => b.ts - a.ts)]: the sort of an array is stable, so
    with this comparator the result is the one arrangement that is ordered
    by [ts], largest first, and keeps records of equal [ts] in their order.
    Insertion from the right computes it. *)
Fixpoint insert_newest_first {A : Type} (ts : A -> Z) (x : A) (l : list A)
  : list A :=
  match l with
  | [] => [x]
  | y :: rest =>
    if ts x <? ts y then y :: insert_newest_first ts x rest else x :: l
  end.

Fixpoint sort_newest_first {A : Type} (ts : A -> Z) (l : list A) : list A :=
  match l with
  | [] => []
  | x :: rest => insert_newest_first ts x (sort_newest_first ts rest)
  end.

(** [arr.slice(-n)] *)
Definition last_n {A : Type} (n : nat) (l : list A) : list A :=
  skipn (List.length l - n) l.

(** [GET /api/notifications] *)
Definition notifications_list (t : Token) (db : DB)
  : Fetched (list Notification) :=
  fetch_auth t (fun me =>
    Sent (firstn 200
            (sort_newest_first notif_ts
               (filter (fun n => String.eqb (notif_userId n) (caller_id me))
                       (notifications_or_empty db))))).

(** [GET /api/payments/mine] *)
Definition payments_mine (t : Token) (db : DB) : Fetched (list Payment) :=
  fetch_auth t (fun me =>
    Sent (firstn 200
            (sort_newest_first pay_ts
               (filter (fun p => String.eqb (pay_userId p) (caller_id me))
                       (payments_or_empty db))))).

Definition status_name (s : Status) : string :=
  match s with
  | pending => "pending"
  | approved => "approved"
  | rejected => "rejected"
  end.

(** [GET /api/admin/payments?status=...]; an absent query parameter is the
    empty string. *)
Definition admin_payments (t : Token) (status : string) (db : DB)
  : Fetched (list Payment) :=
  fetch_auth t (fun admin => fetch_adminOnly admin (
    let list := payments_or_empty db in
    let list :=
      if truthy status
      then filter (fun p => String.eqb (status_name (pay_status p)) status) list
      else list in
    Sent (firstn 500 (sort_newest_first pay_ts list)))).

(** The object sent by [GET /api/me]. *)
Record Profile := mkProfile {
  profile_id : string;
  profile_name : string;
  profile_email : string;
  profile_role : string;
  profile_balance : Z
}.

(** [GET /api/me]: [me] is used without a test, so an absent record raises. *)
Definition me (t : Token) (db : DB) : Fetched Profile :=
  fetch_auth t (fun c =>
    match find_user (caller_id c) db with
    | Some u =>
      Sent (mkProfile (user_id u) (user_name u) (user_email u) (user_role u)
                      (user_balance u))
    | None => Raised "TypeError: Cannot read properties of undefined"
    end).

(** [GET /api/me/owned] *)
Definition me_owned (t : Token) (db : DB) : Fetched (list Item) :=
  fetch_auth t (fun c =>
    Sent (filter (fun it => option_string_eqb (item_ownerId it) (caller_id c))
                 (items db))).

(** [GET /api/me/history] *)
Definition me_history (t : Token) (db : DB) : Fetched (list HistoryEntry) :=
  fetch_auth t (fun c =>
    Sent (rev (last_n 100
                 (filter (fun h => String.eqb (hist_userId h) (caller_id c))
                         (history db))))).

(** [GET /api/market/items], open to anyone. *)
Definition market_items (db : DB) : list Item := items db.

(** [Math.min(1000, Number(limit) || 200)] as the end of a slice: a negative
    end is counted from the end of the array. *)
Definition slice_to {A : Type} (stop : Z) (l : list A) : list A :=
  if stop <? 0
  then firstn (List.length l - Z.to_nat (- stop)) l
  else firstn (Z.to_nat stop) l.

(** [GET /api/admin/history?userId=...&limit=...] *)
Definition admin_history (t : Token) (userId : string) (limit : option Z)
    (db : DB) : Fetched (list HistoryEntry) :=
  fetch_auth t (fun admin => fetch_adminOnly admin (
    let hist := history db in
    let hist :=
      if truthy userId
      then filter (fun h => String.eqb (hist_userId h) userId) hist
      else hist in
    Sent (slice_to (Z.min 1000 (number_or limit 200))
                   (sort_newest_first hist_ts hist)))).

(** Newest first: every record is at least as recent as all that follow. *)
Definition newest_first {A : Type} (ts : A -> Z) (l : list A) : Prop :=
  StronglySorted (fun a b => ts b <= ts a) l.

(** ** Routes that load and save without [transact]

    Registration, login, user creation by an admin and the seeding at
    start-up call [loadDB] and [saveDB] themselves. *)

(** What these routes take from their libraries: bcrypt's salted hash (its
    result for this call), bcrypt's check of a password against a hash, and
    [String.prototype.toLowerCase]. *)
Record Lib := mkLib {
  bcrypt_hash : string -> string;
  bcrypt_compare : string -> string -> bool;
  toLowerCase : string -> string
}.

(** [String(x)] of a body field: an absent field reads ["undefined"]. *)
Definition String_of (o : option string) : string :=
  match o with
  | Some s => s
  | None => "undefined"
  end.

(** [db.users.find(u => u.email.toLowerCase() ===
                        String(email).toLowerCase())] *)
Definition find_email (lib : Lib) (email : string) (db : DB) : option User :=
  find (fun u => String.eqb (toLowerCase lib (user_email u))
                            (toLowerCase lib email))
       (users db).

(** [POST /api/auth/register] *)
Definition auth_register (lib : Lib) (env : Env) (name email password : string)
    (file : DB) : Outcome * DB :=
  if negb (truthy name) || negb (truthy email) || negb (truthy password)
  then (Replied (Err 400 "Missing fields"), file)
  else
    match find_email lib email file with
    | Some _ => (Replied (Err 409 "Email exists"), file)
    | None =>
      (Replied Ok,
       set_users
         (users file ++
            [mkUser (nanoid env 0) name email (bcrypt_hash lib password)
                    "user" 0 [] 0 None])
         file)
    end.

(** [POST /api/auth/login], for a body that carries a password. *)
Definition auth_login (lib : Lib) (email : option string) (password : string)
    (file : DB) : Outcome :=
  match find_email lib (String_of email) file with
  | None => Replied (Err 401 "Invalid credentials")
  | Some user =>
    if bcrypt_compare lib password (user_pass user) then Replied Ok
    else Replied (Err 401 "Invalid credentials")
  end.

(** [POST /api/admin/users/create]; [balance] and [role] default to [0] and
    ['user'] when the body leaves them out. *)
Definition admin_users_create (lib : Lib) (env : Env) (t : Token)
    (name email password : string) (balance : option Z)
    (role : option string) (file : DB) : Outcome * DB :=
  match t with
  | NoToken => (Replied (Err 401 "No token"), file)
  | InvalidToken => (Replied (Err 401 "Invalid token"), file)
  | Bearer admin =>
    if negb (is_admin admin) then (Replied (Err 403 "Admin only"), file)
    else if negb (truthy name) || negb (truthy email) || negb (truthy password)
    then (Replied (Err 400 "name, email, password required"), file)
    else
      match find_email lib email file with
      | Some _ => (Replied (Err 409 "Email exists"), file)
      | None =>
        (Replied Ok,
         set_users
           (users file ++
              [mkUser (nanoid env 0) name email (bcrypt_hash lib password)
                      (or_default role "user") (or_default balance 0) [] 0
                      (Some false)])
           file)
      end
  end.

(** [seed()]: the admin's name and email come from the environment, the
    three hashes from bcrypt. *)
Definition seed (admin_name admin_email pass_admin pass_alice pass_bob : string)
    (file : DB) : DB :=
  if (List.length (users file) =? 0)%nat
  then
    set_users
      (users file ++
         [mkUser "u_admin" admin_name admin_email pass_admin "admin" 0 [] 0
                 None;
          mkUser "u_1001" "Alice" "alice@example.com" pass_alice "user" 0 []
                 0 None;
          mkUser "u_1002" "Bob" "bob@example.com" pass_bob "user" 0 [] 0
                 None])
      file
  else file.

(** No two users share an email, letter case aside. *)
Definition emails_distinct (lib : Lib) (db : DB) : Prop :=
  NoDup (map (fun u => toLowerCase lib (user_email u)) (users db)).

(** [String.prototype.toLowerCase] on ASCII text: the letters [A] to [Z]
    become [a] to [z], every other character stays. *)
Definition lower_ascii (c : ascii) : ascii :=
  let n := nat_of_ascii c in
  if ((65 <=? n) && (n <=? 90))%nat then ascii_of_nat (n + 32) else c.

Fixpoint lower_case (s : string) : string :=
  match s with
  | EmptyString => EmptyString
  | String c rest => String (lower_ascii c) (lower_case rest)
  end.

(** A library for closed instances: no hashing, exact comparison of the
    password, and the lower-casing of ASCII text. *)
Definition plain_lib : Lib :=
  mkLib (fun p => p) String.eqb lower_case.

(** ** More on requests in flight *)

(** Handlers served one after the other. *)
Fixpoint perform_all (hs : list Handler) (file : DB) : list Outcome * DB :=
  match hs with
  | [] => ([], file)
  | h :: rest =>
    let (out, file1) := perform h file in
    let (outs, file2) := perform_all rest file1 in
    (out :: outs, file2)
  end.

(** The schedule that gives request [first] its three steps, then the next
    request its three steps, and so on for [n] requests. *)
Definition in_turn (first n : nat) : list nat :=
  flat_map (fun i => [i; i; i]) (seq first n).

(** A closure that never looks at what is stored while it runs: its result
    and its working copy depend on the copy it was given only, and it
    raises, if it does, before saving. *)
Definition disk_blind (m : Work Reply) : Prop :=
  forall db d d',
    fst (m (mkStore db d)) = fst (m (mkStore db d'))
    /\ mem (snd (m (mkStore db d))) = mem (snd (m (mkStore db d')))
    /\ (forall e, fst (m (mkStore db d)) = Throw e ->
                  disk (snd (m (mkStore db d))) = d).

(** ** The ban flag *)

(** The user with the [banned] key taken off. *)
Definition lift_ban (u : User) : User :=
  mkUser (user_id u) (user_name u) (user_email u) (user_pass u) (user_role u)
         (user_balance u) (user_owned u) (user_gifts u) None.

Definition lift_bans (db : DB) : DB :=
  set_users (map lift_ban (users db)) db.
(** * Properties *)

(** ** Lists: [find] against the in-place updates *)

Section FindFacts.
Context {A : Type}.
Variables (p q : A -> bool) (f : A -> A).

Lemma find_update_first_same (l : list A) :
  (forall x, p (f x) = p x) ->
  find p (update_first p f l) = option_map f (find p l).
Proof.
  intros Hp. induction l as [|x l IH]; simpl; [reflexivity|].
  destruct (p x) eqn:E; simpl.
  - rewrite Hp, E. reflexivity.
  - rewrite E. exact IH.
Qed.

Lemma find_update_first_other (l : list A) :
  (forall x, p x = true -> q x = false) ->
  (forall x, q (f x) = q x) ->
  find q (update_first p f l) = find q l.
Proof.
  intros Hpq Hq. induction l as [|x l IH]; simpl; [reflexivity|].
  destruct (p x) eqn:E; simpl.
  - rewrite Hq, (Hpq x E). reflexivity.
  - rewrite IH. reflexivity.
Qed.

Lemma find_app_last (l : list A) (x : A) :
  find p (l ++ [x]) =
  match find p l with
  | Some y => Some y
  | None => if p x then Some x else None
  end.
Proof.
  induction l as [|y l IH]; simpl; [reflexivity|].
  destruct (p y); [reflexivity | exact IH].
Qed.

Lemma update_first_absent (l : list A) :
  find p l = None -> update_first p f l = l.
Proof.
  induction l as [|x l IH]; simpl; [reflexivity|].
  destruct (p x); [discriminate|]. intros H. rewrite IH; auto.
Qed.
End FindFacts.

Lemma find_user_id (id : string) (db : DB) (u : User) :
  find_user id db = Some u -> user_id u = id.
Proof.
  unfold find_user. intros H. apply find_some in H. destruct H as [_ H].
  apply String.eqb_eq. exact H.
Qed.

Lemma find_item_id (id : string) (db : DB) (it : Item) :
  find_item id db = Some it -> item_id it = id.
Proof.
  unfold find_item. intros H. apply find_some in H. destruct H as [_ H].
  apply String.eqb_eq. exact H.
Qed.

Lemma find_payment_id (id : string) (db : DB) (p : Payment) :
  find_payment id db = Some p -> pay_id p = id.
Proof.
  unfold find_payment. intros H. apply find_some in H. destruct H as [_ H].
  apply String.eqb_eq. exact H.
Qed.



(** Unfolds a route down to its tests and its updates of the store. *)
Ltac unfold_route :=
  cbv beta iota zeta delta
    [serve route perform notifications_read deposit_request withdraw_request
     payments_approve payments_reject tx_pay nft_upgrade admin_gift
     admin_users_balance admin_users_ban admin_items_create
     admin_items_update admin_items_delete admin_items_clear
     admin_items_bulkImport admin_transfer admin_burn
     auth adminOnly refuse transact bind ret reject respond_ok raise read_db
     modify saveDB deref modify_user modify_item modify_payment push_history
     push_payment pushNotify mem disk] in *.

(** Splits on every test the route makes, closing the paths on which the
    hypothesis [H] about the outcome is contradictory. *)
Ltac split_paths H :=
  repeat match type of H with
         | context [match ?x with _ => _ end] =>
             lazymatch x with
             | context [match _ with _ => _ end] => fail
             | _ => destruct x eqn:?; cbv beta iota in H
             end
         end;
  try discriminate H.

(** C2. Whenever a route answers with an error reply (validation, conflict,
    not-found or authorization), the stored document after the submission is
    the one before it. *)
Theorem rejection_leaves_snapshot_unchanged :
  forall env t r file status error file',
    serve env t r file = (Replied (Err status error), file') ->
    file' = file.
Proof.
  intros env t r file status error file' H.
  destruct r; unfold_route; split_paths H;
    inversion H; reflexivity.
Qed.

(** C2 at a withdrawal beyond the balance. *)
Lemma rejection_leaves_snapshot_unchanged_witness :
  snd (serve env0 (Bearer alice) (WithdrawRequest (Some 7) "EQaddress") (seeded 5 0))
  = seeded 5 0.
Proof.
  apply (rejection_leaves_snapshot_unchanged env0 (Bearer alice)
           (WithdrawRequest (Some 7) "EQaddress") (seeded 5 0)
           400%nat "Insufficient balance").
  reflexivity.
Defined.

(** A closure that raises has saved nothing either. *)
Lemma uncaught_leaves_snapshot_unchanged env t r file e file' :
  serve env t r file = (Uncaught e, file') -> file' = file.
Proof.
  intros H. destruct r; unfold_route; split_paths H; inversion H; reflexivity.
Qed.

Lemma truthy_true (s : string) : s <> "" -> truthy s = true.
Proof.
  intros H. unfold truthy. apply negb_true_iff, String.eqb_neq. exact H.
Qed.

Lemma find_user_balance_updated (id : string) (g : Z -> Z) (db : DB) :
  find (has_user_id id)
       (update_first (has_user_id id)
          (fun u => set_balance (g (user_balance u)) u) (users db))
  = option_map (fun u => set_balance (g (user_balance u)) u) (find_user id db).
Proof. apply find_update_first_same. reflexivity. Qed.

Lemma find_payment_resolved (id : string) (s : Status) (a : string)
    (n : Payment -> option string) (db : DB) :
  find (has_pay_id id)
       (update_first (has_pay_id id) (fun p => resolve s a (n p) p)
          (payments_or_empty db))
  = option_map (fun p => resolve s a (n p) p) (find_payment id db).
Proof. apply find_update_first_same. reflexivity. Qed.

Lemma payments_or_empty_set_users us db :
  payments_or_empty (set_users us db) = payments_or_empty db.
Proof. reflexivity. Qed.
Lemma payments_or_empty_set_items its db :
  payments_or_empty (set_items its db) = payments_or_empty db.
Proof. reflexivity. Qed.
Lemma payments_or_empty_set_history h db :
  payments_or_empty (set_history h db) = payments_or_empty db.
Proof. reflexivity. Qed.
Lemma payments_or_empty_set_notifications ns db :
  payments_or_empty (set_notifications ns db) = payments_or_empty db.
Proof. reflexivity. Qed.
Lemma payments_or_empty_set_payments ps db :
  payments_or_empty (set_payments ps db) = ps.
Proof. reflexivity. Qed.

Create Rewrite HintDb snapshot.
#[local] Hint Rewrite payments_or_empty_set_users payments_or_empty_set_items
  payments_or_empty_set_history payments_or_empty_set_notifications
  payments_or_empty_set_payments : snapshot.

Ltac project_db :=
  cbn [users items payments history notifications set_users set_items
       set_payments set_history set_notifications];
  autorewrite with snapshot.

(** ** The payment state machine *)

(** Rejecting a pending payment refunds a withdrawal and leaves a deposit
    without effect on the balance. *)
Lemma reject_pending env admin id note db p u :
  is_admin admin = true -> id <> "" ->
  find_payment id db = Some p -> pay_status p = pending ->
  find_user (pay_userId p) db = Some u ->
  exists db',
    serve env (Bearer admin) (PaymentsReject id note) db = (Replied Ok, db')
    /\ balance_of (pay_userId p) db' =
       Some (match pay_kind p with
             | withdraw => user_balance u + pay_amountTon p
             | deposit => user_balance u
             end)
    /\ status_of id db' = Some rejected.
Proof.
  intros Hadm Hid Hp Hst Hu.
  unfold_route. rewrite Hadm, (truthy_true _ Hid). cbn [negb]; cbv beta iota.
  rewrite Hp, Hst. cbn [negb status_pending]; cbv beta iota. rewrite Hu.
  destruct (pay_kind p); (eexists; split; [reflexivity|]);
    unfold balance_of, status_of, find_user, find_payment; project_db.
  - split.
    + fold (find_user (pay_userId p) db). rewrite Hu. reflexivity.
    + rewrite (find_payment_resolved id rejected (caller_id admin) (fun _ => Some note)), Hp.
      reflexivity.
  - split.
    + rewrite (find_user_balance_updated (pay_userId p) (fun b => b + pay_amountTon p)), Hu.
      reflexivity.
    + rewrite (find_payment_resolved id rejected (caller_id admin) (fun _ => Some note)), Hp.
      reflexivity.
Qed.

(** Approving a pending payment credits a deposit and leaves a withdrawal,
    whose funds are already held, without effect on the balance. *)
Lemma approve_pending env admin id db p u :
  is_admin admin = true -> id <> "" ->
  find_payment id db = Some p -> pay_status p = pending ->
  find_user (pay_userId p) db = Some u ->
  exists db',
    serve env (Bearer admin) (PaymentsApprove id) db = (Replied Ok, db')
    /\ balance_of (pay_userId p) db' =
       Some (match pay_kind p with
             | deposit => user_balance u + pay_amountTon p
             | withdraw => user_balance u
             end)
    /\ status_of id db' = Some approved.
Proof.
  intros Hadm Hid Hp Hst Hu.
  unfold_route. rewrite Hadm, (truthy_true _ Hid). cbn [negb]; cbv beta iota.
  rewrite Hp, Hst. cbn [negb status_pending]; cbv beta iota. rewrite Hu.
  destruct (pay_kind p); (eexists; split; [reflexivity|]);
    unfold balance_of, status_of, find_user, find_payment; project_db.
  - split.
    + rewrite (find_user_balance_updated (pay_userId p) (fun b => b + pay_amountTon p)), Hu.
      reflexivity.
    + rewrite (find_payment_resolved id approved (caller_id admin) pay_note), Hp.
      reflexivity.
  - split.
    + fold (find_user (pay_userId p) db). rewrite Hu. reflexivity.
    + rewrite (find_payment_resolved id approved (caller_id admin) pay_note), Hp.
      reflexivity.
Qed.

(** A withdrawal request within the balance and with an address debits the
    amount at once and files a pending record under the generated id. *)
Lemma withdraw_request_holds env c A addr db u :
  find_user (caller_id c) db = Some u ->
  0 < A <= user_balance u ->
  (5 <= String.length addr)%nat ->
  find_payment (nanoid env 0) db = None ->
  exists db' p,
    serve env (Bearer c) (WithdrawRequest (Some A) addr) db = (Replied Ok, db')
    /\ find_user (caller_id c) db' = Some (set_balance (user_balance u - A) u)
    /\ find_payment (nanoid env 0) db' = Some p
    /\ pay_status p = pending /\ pay_kind p = withdraw
    /\ pay_amountTon p = A /\ pay_userId p = caller_id c.
Proof.
  intros Hu HA Haddr Hfresh.
  unfold_route. unfold positive_amount.
  replace (0 <? A) with true by (symmetry; apply Z.ltb_lt; lia).
  replace (String.length addr <? 5)%nat with false
    by (symmetry; apply Nat.ltb_ge; lia).
  rewrite Hu.
  replace (user_balance u <? A) with false by (symmetry; apply Z.ltb_ge; lia).
  eexists. eexists. split; [reflexivity|].
  unfold find_user, find_payment; project_db.
  split.
  - rewrite (find_user_balance_updated (caller_id c) (fun b => b - A)), Hu.
    reflexivity.
  - rewrite find_app_last. fold (find_payment (nanoid env 0) db).
    rewrite Hfresh. unfold has_pay_id at 1. cbn [pay_id].
    rewrite String.eqb_refl. repeat split; reflexivity.
Qed.

(** A deposit request files a pending record and touches no user. *)
Lemma deposit_request_files env c A db :
  0 < A ->
  find_payment (nanoid env 0) db = None ->
  exists db' p,
    serve env (Bearer c) (DepositRequest (Some A)) db = (Replied Ok, db')
    /\ users db' = users db
    /\ find_payment (nanoid env 0) db' = Some p
    /\ pay_status p = pending /\ pay_kind p = deposit
    /\ pay_amountTon p = A /\ pay_userId p = caller_id c.
Proof.
  intros HA Hfresh.
  unfold_route. unfold positive_amount.
  replace (0 <? A) with true by (symmetry; apply Z.ltb_lt; lia).
  eexists. eexists. split; [reflexivity|].
  unfold find_payment; project_db.
  split; [reflexivity|].
  rewrite find_app_last. fold (find_payment (nanoid env 0) db).
  rewrite Hfresh. unfold has_pay_id at 1. cbn [pay_id].
  rewrite String.eqb_refl. repeat split; reflexivity.
Qed.

(** Rejecting never moves the balances when the payment is a deposit,
    whether or not the rejection goes through. *)
Lemma reject_deposit_keeps_users env t id note db p :
  find_payment id db = Some p -> pay_kind p = deposit ->
  users (snd (serve env t (PaymentsReject id note) db)) = users db.
Proof.
  intros Hp Hk.
  destruct (serve env t (PaymentsReject id note) db) as [out db'] eqn:H.
  cbn [snd]. unfold_route.
  destruct t as [| |admin]; [inversion H; reflexivity ..|].
  destruct (is_admin admin); [|inversion H; reflexivity].
  destruct (negb (truthy id)); [inversion H; reflexivity|].
  cbv beta iota in H. rewrite Hp in H.
  destruct (negb (status_pending (pay_status p))); [inversion H; reflexivity|].
  destruct (find_user (pay_userId p) db); [|inversion H; reflexivity].
  rewrite Hk in H. inversion H. reflexivity.
Qed.

(** C1 (as amended). For a user whose balance [B] is a whole number of
    magnitude at most 2^53: a withdrawal request of a whole amount [A],
    [0 < A <= B], that carries a destination address of at least five
    characters leaves the balance at [B - A] and files a pending record; an
    admin's reject of that record brings the balance back to [B] and marks
    it rejected; an admin's approve leaves [B - A] and marks it approved.  A
    deposit request of a whole amount [A > 0], with [A] and [B + A] of
    magnitude at most 2^53 as well, leaves the balance at [B] and files a
    pending record; the balance becomes [B + A] on approval and stays [B]
    on any reject attempt.  Within these bounds every sum and difference
    the routes take is exact in the program's doubles.  The generated
    record id is taken to be non-empty and not yet in use. *)
Theorem hold_refund_correctness :
  forall env env' c admin A addr note db u,
    find_user (caller_id c) db = Some u ->
    nanoid env 0 <> "" ->
    find_payment (nanoid env 0) db = None ->
    is_admin admin = true ->
    (0 < A <= user_balance u -> (5 <= String.length addr)%nat ->
     exact_in_double (user_balance u) ->
     exists db1,
       serve env (Bearer c) (WithdrawRequest (Some A) addr) db
         = (Replied Ok, db1)
       /\ balance_of (caller_id c) db1 = Some (user_balance u - A)
       /\ status_of (nanoid env 0) db1 = Some pending
       /\ (exists db2,
             serve env' (Bearer admin) (PaymentsReject (nanoid env 0) note) db1
               = (Replied Ok, db2)
             /\ balance_of (caller_id c) db2 = Some (user_balance u)
             /\ status_of (nanoid env 0) db2 = Some rejected)
       /\ (exists db2,
             serve env' (Bearer admin) (PaymentsApprove (nanoid env 0)) db1
               = (Replied Ok, db2)
             /\ balance_of (caller_id c) db2 = Some (user_balance u - A)
             /\ status_of (nanoid env 0) db2 = Some approved))
    /\
    (0 < A ->
     exact_in_double (user_balance u) -> exact_in_double A ->
     exact_in_double (user_balance u + A) ->
     exists db1,
       serve env (Bearer c) (DepositRequest (Some A)) db = (Replied Ok, db1)
       /\ balance_of (caller_id c) db1 = Some (user_balance u)
       /\ status_of (nanoid env 0) db1 = Some pending
       /\ (exists db2,
             serve env' (Bearer admin) (PaymentsApprove (nanoid env 0)) db1
               = (Replied Ok, db2)
             /\ balance_of (caller_id c) db2 = Some (user_balance u + A)
             /\ status_of (nanoid env 0) db2 = Some approved)
       /\ (forall t,
             balance_of (caller_id c)
               (snd (serve env' t (PaymentsReject (nanoid env 0) note) db1))
             = Some (user_balance u))).
Proof.
  intros env env' c admin A addr note db u Hu Hid Hfresh Hadm. split.
  - intros HA Haddr _.
    destruct (withdraw_request_holds env c A addr db u Hu HA Haddr Hfresh)
      as (db1 & p & Hrun & Hu1 & Hp1 & Hst & Hk & Hamt & Huid).
    exists db1. split; [exact Hrun|].
    split; [unfold balance_of; rewrite Hu1; reflexivity|].
    split; [unfold status_of; rewrite Hp1; cbn [option_map]; rewrite Hst; reflexivity|].
    rewrite <- Huid in Hu1. split.
    + destruct (reject_pending env' admin _ note db1 p _ Hadm Hid Hp1 Hst Hu1)
        as (db2 & Hrun2 & Hbal & Hstat).
      exists db2. split; [exact Hrun2|]. split; [|exact Hstat].
      rewrite <- Huid, Hbal, Hk, Hamt. cbn [user_balance set_balance].
      f_equal. lia.
    + destruct (approve_pending env' admin _ db1 p _ Hadm Hid Hp1 Hst Hu1)
        as (db2 & Hrun2 & Hbal & Hstat).
      exists db2. split; [exact Hrun2|]. split; [|exact Hstat].
      rewrite <- Huid, Hbal, Hk. reflexivity.
  - intros HA _ _ _.
    destruct (deposit_request_files env c A db HA Hfresh)
      as (db1 & p & Hrun & Hus & Hp1 & Hst & Hk & Hamt & Huid).
    assert (Hu1 : find_user (pay_userId p) db1 = Some u)
      by (unfold find_user; rewrite Hus, Huid; exact Hu).
    exists db1. split; [exact Hrun|].
    split; [unfold balance_of, find_user; rewrite Hus; fold (find_user (caller_id c) db);
            rewrite Hu; reflexivity|].
    split; [unfold status_of; rewrite Hp1; cbn [option_map]; rewrite Hst; reflexivity|].
    split.
    + destruct (approve_pending env' admin _ db1 p _ Hadm Hid Hp1 Hst Hu1)
        as (db2 & Hrun2 & Hbal & Hstat).
      exists db2. split; [exact Hrun2|]. split; [|exact Hstat].
      rewrite <- Huid, Hbal, Hk, Hamt. reflexivity.
    + intros t. unfold balance_of, find_user.
      rewrite (reject_deposit_keeps_users env' t _ note db1 p Hp1 Hk), Hus.
      fold (find_user (caller_id c) db). rewrite Hu. reflexivity.
Qed.

(** C1 for Alice holding 10 and asking for 4. *)
Lemma hold_refund_correctness_witness :
  exists db1,
    serve env0 (Bearer alice) (WithdrawRequest (Some 4) "EQaddress") (seeded 10 0)
      = (Replied Ok, db1)
    /\ balance_of "u_1001" db1 = Some 6.
Proof.
  destruct (hold_refund_correctness env0 env1 alice admin0 4 "EQaddress" "no"
              (seeded 10 0)
              (seeded_user "u_1001" "Alice" "alice@example.com" "user" 10))
    as [Hw _].
  - reflexivity.
  - discriminate.
  - reflexivity.
  - reflexivity.
  - destruct Hw as (db1 & Hrun & Hbal & _).
    + cbn [user_balance seeded_user]. lia.
    + cbn. lia.
    + unfold exact_in_double. cbn [user_balance seeded_user]. lia.
    + exists db1. split; [exact Hrun | exact Hbal].
Defined.

(** A withdrawal request within the balance but without a destination
    address is refused, the balance stays and no record is filed. *)
Lemma withdraw_without_address_is_refused :
  balance_of "u_1001" (seeded 10 0) = Some 10
  /\ 0 < 4 <= 10
  /\ serve env0 (Bearer alice) (WithdrawRequest (Some 4) "") (seeded 10 0)
     = (Replied (Err 400 "Valid tonAddress required"), seeded 10 0)
  /\ balance_of "u_1001"
       (snd (serve env0 (Bearer alice) (WithdrawRequest (Some 4) "") (seeded 10 0)))
     <> Some (10 - 4)
  /\ status_of (nanoid env0 0)
       (snd (serve env0 (Bearer alice) (WithdrawRequest (Some 4) "") (seeded 10 0)))
     = None.
Proof.
  split; [reflexivity|]. split; [lia|]. split; [reflexivity|].
  split; [discriminate | reflexivity].
Qed.

Set Warnings "-inexact-float".

(** C1 as stated fails, in two ways.  A withdrawal request within the
    balance but without a destination address is refused: the balance stays
    and no record is filed.  And the amounts are doubles: from a balance of
    0.9 a hold of 0.2 followed by its refund leaves less than 0.9; from
    2^53 + 2 a hold of 1 leaves 2^53 and the refund leaves 2^53 again; and a
    deposit of 1 approved on a balance of 2^53 leaves 2^53.  The literals
    0.9 and 0.2 stand for the doubles nearest to them, as [JSON.parse]
    reads them. *)
Lemma hold_refund_needs_address_and_exact_amounts :
  (balance_of "u_1001" (seeded 10 0) = Some 10
   /\ 0 < 4 <= 10
   /\ serve env0 (Bearer alice) (WithdrawRequest (Some 4) "") (seeded 10 0)
      = (Replied (Err 400 "Valid tonAddress required"), seeded 10 0)
   /\ balance_of "u_1001"
        (snd (serve env0 (Bearer alice) (WithdrawRequest (Some 4) "")
                    (seeded 10 0)))
      <> Some (10 - 4)
   /\ status_of (nanoid env0 0)
        (snd (serve env0 (Bearer alice) (WithdrawRequest (Some 4) "")
                    (seeded 10 0)))
      = None)
  /\ (exists held,
        Doubles.withdraw_request 0.9 0.2 = inr held
        /\ (Doubles.reject_withdraw held 0.2 <? 0.9)%float = true)
  /\ (Doubles.withdraw_request 9007199254740994 1 = inr 9007199254740992%float
      /\ Doubles.reject_withdraw 9007199254740992 1
         = 9007199254740992%float
      /\ (9007199254740992 <? 9007199254740994)%float = true)
  /\ Doubles.approve_deposit 9007199254740992 1 = 9007199254740992%float.
Proof.
  split; [exact withdraw_without_address_is_refused|].
  split; [eexists; split; reflexivity|].
  split; [repeat split|reflexivity].
Qed.

(** The bound is the largest that works: on a balance of 2^53 a hold of 1
    leaves 2^53 - 1 and its refund 2^53, a hold of the whole balance leaves
    0 and its refund 2^53, both exact. *)
Lemma hold_refund_exact_at_the_bound :
  Doubles.withdraw_request 9007199254740992 1 = inr 9007199254740991%float
  /\ Doubles.reject_withdraw 9007199254740991 1 = 9007199254740992%float
  /\ Doubles.withdraw_request 9007199254740992 9007199254740992
     = inr 0%float
  /\ Doubles.reject_withdraw 0 9007199254740992 = 9007199254740992%float.
Proof. repeat split. Qed.

(** ** Terminal payments *)

Lemma resolved_payment_conflicts env admin id a db p :
  is_admin admin = true -> id <> "" ->
  find_payment id db = Some p -> pay_status p <> pending ->
  submit (attempt id (env, admin, a)) db
  = (Replied (Err 400 "Already processed"), db).
Proof.
  intros Hadm Hid Hp Hst.
  assert (Hnp : status_pending (pay_status p) = false)
    by (destruct (pay_status p); [congruence | reflexivity ..]).
  destruct a; unfold submit, attempt; cbn [sub_env sub_token sub_request];
    unfold_route; rewrite Hadm, (truthy_true _ Hid); cbn [negb]; cbv beta iota;
    rewrite Hp, Hnp; reflexivity.
Qed.

Lemma resolved_payment_refuses (id : string) (db : DB) (p : Payment)
    (s : Submission) :
  find_payment id db = Some p -> pay_status p <> pending ->
  resolves id s = true ->
  is_rejection (fst (submit s db)) = true /\ snd (submit s db) = db.
Proof.
  intros Hp Hst Hs.
  assert (Hnp : status_pending (pay_status p) = false)
    by (destruct (pay_status p); [congruence | reflexivity ..]).
  destruct s as [env t r]. unfold resolves in Hs. cbn [sub_request] in Hs.
  unfold submit. cbn [sub_env sub_token sub_request].
  destruct r; try discriminate Hs; apply String.eqb_eq in Hs; subst;
    unfold_route;
    (destruct t as [| |admin]; [split; reflexivity ..|]);
    (destruct (is_admin admin); [|split; reflexivity]);
    (destruct (negb (truthy id)); [split; reflexivity|]);
    cbv beta iota; rewrite Hp, Hnp; split; reflexivity.
Qed.

(** C3. Once a payment is approved or rejected, every later approve or
    reject attempt on it by an admin is answered "Already processed", and the
    whole stored document (the payment, its user's balance and everything
    else) stays as it is, however many attempts follow; attempts made with
    any other token are refused as well and change nothing either. *)
Theorem terminal_payment_attempts_conflict :
  forall id db p,
    find_payment id db = Some p ->
    pay_status p = approved \/ pay_status p = rejected ->
    (forall attempts : list (Env * Caller * Attempt),
        id <> "" ->
        Forall (fun a => is_admin (snd (fst a)) = true) attempts ->
        serve_all (map (attempt id) attempts) db
        = (map (fun _ => Replied (Err 400 "Already processed")) attempts, db))
    /\
    (forall subs : list Submission,
        forallb (resolves id) subs = true ->
        forallb is_rejection (fst (serve_all subs db)) = true
        /\ snd (serve_all subs db) = db).
Proof.
  intros id db p Hp Hst.
  assert (Hnp : pay_status p <> pending) by (destruct Hst; congruence).
  split.
  - intros attempts Hid Hall.
    induction Hall as [|[[env admin] a] rest Hadm _ IH]; [reflexivity|].
    cbn [map serve_all]. cbn [snd fst] in Hadm.
    rewrite (resolved_payment_conflicts env admin id a db p Hadm Hid Hp Hnp).
    rewrite IH. reflexivity.
  - intros subs. induction subs as [|s rest IH]; intros Hall.
    + split; reflexivity.
    + cbn [forallb] in Hall. apply andb_true_iff in Hall.
      destruct Hall as [Hs Hrest].
      destruct (resolved_payment_refuses id db p s Hp Hnp Hs) as [Hout Hdb].
      cbn [serve_all]. destruct (submit s db) as [out db1].
      cbn [fst snd] in Hout, Hdb. subst db1.
      destruct (IH Hrest) as [Houts Hdbs].
      destruct (serve_all rest db) as [outs db2]. cbn [fst snd] in *.
      cbn [forallb]. rewrite Hout, Houts. split; [reflexivity | exact Hdbs].
Qed.

(** C3 on the rejected withdrawal of [after_reject]: approving it afterwards
    conflicts and Alice keeps her 10. *)
Lemma terminal_payment_attempts_conflict_witness :
  serve_all (map (attempt "id_0") [(env1, admin0, TryApprove);
                                   (env0, admin0, TryReject "again")])
            after_reject
  = ([Replied (Err 400 "Already processed");
      Replied (Err 400 "Already processed")], after_reject)
  /\ balance_of "u_1001" after_reject = Some 10.
Proof.
  split; [|reflexivity].
  destruct (terminal_payment_attempts_conflict "id_0" after_reject
              rejected_withdrawal) as [Hadmins _].
  - reflexivity.
  - right. reflexivity.
  - apply Hadmins; [discriminate | repeat constructor].
Defined.

(** ** Buying *)

Lemma find_item_owner_set (id : string) (o : option string) (db : DB) :
  find (has_item_id id)
       (update_first (has_item_id id) (set_ownerId o) (items db))
  = option_map (set_ownerId o) (find_item id db).
Proof. apply find_update_first_same. reflexivity. Qed.






(** ** Admin gift *)





(** ** Absent caller *)

Lemma pay_by_absent_caller_raises env c itemId toUserId db it :
  itemId <> "" ->
  find_user (caller_id c) db = None ->
  find_item itemId db = Some it ->
  owner_truthy (item_ownerId it) = false ->
  (exists e,
      serve env (Bearer c) (TxPay itemId "buy" toUserId) db = (Uncaught e, db))
  /\ (toUserId <> "" -> find_user toUserId db <> None ->
      exists e,
        serve env (Bearer c) (TxPay itemId "gift" toUserId) db
        = (Uncaught e, db)).
Proof.
  intros Hid Hu Hit Hfree. split.
  - unfold_route.
    rewrite (truthy_true _ Hid);
      cbn [truthy String.eqb Ascii.eqb Bool.eqb negb orb];
      cbv beta iota; rewrite Hit, Hfree, Hu; cbv beta iota.
    eexists. reflexivity.
  - intros Hto Hr. destruct (find_user toUserId db) as [r|] eqn:Er;
      [|congruence].
    unfold_route.
    rewrite (truthy_true _ Hid), (truthy_true _ Hto);
      cbn [truthy String.eqb Ascii.eqb Bool.eqb negb orb];
      cbv beta iota; rewrite Hit, Hfree, Er, Hu; cbv beta iota.
    eexists. reflexivity.
Qed.

(** C7 at its failing input. The caller's token is valid but no user record
    carries its id.  Buying or gifting an existing unowned item then raises a
    TypeError on [buyer.balance]: no reply is sent, where the withdrawal route
    answers the same caller with 404 "User not found".  The stored document
    is unchanged in each case. *)
Theorem buy_by_absent_caller_is_uncaught :
  find_user (caller_id ghost) (market 5 0 5) = None
  /\ serve env1 (Bearer ghost) (TxPay "nft_1000" "buy" "") (market 5 0 5)
     = (Uncaught "TypeError: Cannot read properties of undefined", market 5 0 5)
  /\ serve env1 (Bearer ghost) (TxPay "nft_1000" "gift" "u_1002") (market 5 0 5)
     = (Uncaught "TypeError: Cannot read properties of undefined", market 5 0 5)
  /\ serve env1 (Bearer ghost) (WithdrawRequest (Some 1) "EQaddress") (market 5 0 5)
     = (Replied (Err 404 "User not found"), market 5 0 5).
Proof. repeat split; reflexivity. Qed.

(** The references the routes do test: an absent user, item or payment is
    answered with 404 and the document stays as it is. *)
Lemma absent_references_are_not_found env c admin id addr note db :
  id <> "" -> is_admin admin = true ->
  (find_user (caller_id c) db = None -> (5 <= String.length addr)%nat ->
   serve env (Bearer c) (WithdrawRequest (Some 1) addr) db
   = (Replied (Err 404 "User not found"), db))
  /\ (find_item id db = None ->
      serve env (Bearer c) (NftUpgrade id) db
      = (Replied (Err 404 "Item not found"), db)
      /\ serve env (Bearer c) (TxPay id "buy" "") db
         = (Replied (Err 404 "Item not found"), db)
      /\ serve env (Bearer admin) (AdminBurn id) db
         = (Replied (Err 404 "Item not found"), db)
      /\ serve env (Bearer admin) (AdminItemsDelete id) db
         = (Replied (Err 404 "Item not found"), db))
  /\ (find_payment id db = None ->
      serve env (Bearer admin) (PaymentsApprove id) db
      = (Replied (Err 404 "Payment not found"), db)
      /\ serve env (Bearer admin) (PaymentsReject id note) db
         = (Replied (Err 404 "Payment not found"), db)).
Proof.
  intros Hid Hadm. split; [|split].
  - intros Hu Haddr. unfold_route. cbn [positive_amount Z.ltb Z.compare].
    replace (String.length addr <? 5)%nat with false
      by (symmetry; apply Nat.ltb_ge; lia).
    rewrite Hu. reflexivity.
  - intros Hit. repeat split; unfold_route;
      rewrite ?Hadm, ?(truthy_true _ Hid);
      cbn [truthy String.eqb Ascii.eqb Bool.eqb negb orb]; cbv beta iota;
      rewrite Hit; reflexivity.
  - intros Hp. repeat split; unfold_route;
      rewrite Hadm, (truthy_true _ Hid); cbn [negb]; cbv beta iota;
      rewrite Hp; reflexivity.
Qed.

(** The deposit route never looks the caller up: an absent caller's request
    is filed like any other. *)
Lemma deposit_by_absent_caller_is_filed :
  find_user (caller_id ghost) (seeded 0 0) = None
  /\ fst (serve env0 (Bearer ghost) (DepositRequest (Some 3)) (seeded 0 0))
     = Replied Ok
  /\ option_map pay_userId
       (find_payment "id_0"
          (snd (serve env0 (Bearer ghost) (DepositRequest (Some 3)) (seeded 0 0))))
     = Some "u_gone".
Proof. repeat split; reflexivity. Qed.

(** ** Upgrades *)







(** ** Ownership consistency: the check against the statement *)

Lemma includes_In (x : string) (l : list string) :
  includes x l = true <-> In x l.
Proof.
  unfold includes. rewrite existsb_exists. split.
  - intros (y & Hy & E). apply String.eqb_eq in E. subst. exact Hy.
  - intros H. exists x. split; [exact H | apply String.eqb_refl].
Qed.

Lemma option_string_eqb_eq (o : option string) (s : string) :
  option_string_eqb o s = true <-> o = Some s.
Proof.
  destruct o as [x|]; cbn.
  - rewrite String.eqb_eq. split; congruence.
  - split; discriminate.
Qed.

Lemma owner_lists_itemb_spec (db : DB) :
  owner_lists_itemb db = true <-> owner_lists_item db.
Proof.
  unfold owner_lists_itemb, owner_lists_item. rewrite forallb_forall. split.
  - intros H it o Hin Ho Ht. specialize (H it Hin).
    rewrite Ho in H. cbn [owner_truthy] in H. rewrite Ht in H. cbn in H.
    apply existsb_exists in H. destruct H as (u & Hu & H).
    apply andb_true_iff in H. destruct H as [E Hl].
    apply String.eqb_eq in E. apply includes_In in Hl.
    exists u. auto.
  - intros H it Hin. destruct (item_ownerId it) as [o|] eqn:Ho; [|reflexivity].
    cbn [owner_truthy]. destruct (truthy o) eqn:Ht; [|reflexivity].
    destruct (H it o Hin Ho Ht) as (u & Hu & E & Hl).
    cbn [negb orb]. apply existsb_exists. exists u. split; [exact Hu|].
    apply andb_true_iff. split.
    + cbn. apply String.eqb_eq. auto.
    + apply includes_In. exact Hl.
Qed.

Lemma owned_is_ownedb_spec (db : DB) :
  owned_is_ownedb db = true <-> owned_is_owned db.
Proof.
  unfold owned_is_ownedb, owned_is_owned. rewrite forallb_forall. split.
  - intros H u id Hu Hid. specialize (H u Hu).
    rewrite forallb_forall in H. specialize (H id Hid).
    apply existsb_exists in H. destruct H as (it & Hit & H).
    apply andb_true_iff in H. destruct H as [E Ho].
    apply String.eqb_eq in E. apply option_string_eqb_eq in Ho.
    exists it. auto.
  - intros H u Hu. apply forallb_forall. intros id Hid.
    destruct (H u id Hu Hid) as (it & Hit & E & Ho).
    apply existsb_exists. exists it. split; [exact Hit|].
    apply andb_true_iff. split.
    + apply String.eqb_eq. exact E.
    + apply option_string_eqb_eq. exact Ho.
Qed.

Lemma ownership_consistentb_spec (db : DB) :
  ownership_consistentb db = true <-> ownership_consistent db.
Proof.
  unfold ownership_consistentb, ownership_consistent.
  rewrite andb_true_iff, owner_lists_itemb_spec, owned_is_ownedb_spec.
  reflexivity.
Qed.

(** ** Lookups in arrays whose ids are distinct *)

Section Keyed.
Context {A : Type}.
Variable key : A -> string.

Lemma find_by_key_in (k : string) (l : list A) (x : A) :
  find (fun y => String.eqb (key y) k) l = Some x -> In x l /\ key x = k.
Proof.
  intros H. apply find_some in H. destruct H as [Hin E].
  apply String.eqb_eq in E. auto.
Qed.

Lemma find_by_key_unique (l : list A) (x : A) :
  NoDup (map key l) -> In x l ->
  find (fun y => String.eqb (key y) (key x)) l = Some x.
Proof.
  induction l as [|y l IH]; cbn [map find In]; intros Hnd Hin; [contradiction|].
  inversion Hnd as [|? ? Hnotin Hnd']; subst.
  destruct (String.eqb (key y) (key x)) eqn:E.
  - destruct Hin as [->|Hin]; [reflexivity|].
    apply String.eqb_eq in E. exfalso. apply Hnotin. rewrite E.
    apply in_map. exact Hin.
  - destruct Hin as [->|Hin]; [rewrite String.eqb_refl in E; discriminate|].
    apply IH; assumption.
Qed.

Lemma find_by_key_absent (k : string) (l : list A) :
  ~ In k (map key l) -> find (fun y => String.eqb (key y) k) l = None.
Proof.
  intros Hnotin. destruct (find _ l) as [x|] eqn:E; [|reflexivity].
  apply find_by_key_in in E. destruct E as [Hin <-].
  exfalso. apply Hnotin. apply in_map. exact Hin.
Qed.

Lemma find_by_key_update (id k : string) (f : A -> A) (l : list A) :
  (forall x, key (f x) = key x) ->
  find (fun y => String.eqb (key y) id)
       (update_first (fun y => String.eqb (key y) k) f l)
  = if String.eqb id k
    then option_map f (find (fun y => String.eqb (key y) id) l)
    else find (fun y => String.eqb (key y) id) l.
Proof.
  intros Hf. destruct (String.eqb id k) eqn:E.
  - apply String.eqb_eq in E. subst k. apply find_update_first_same.
    intros x. rewrite Hf. reflexivity.
  - apply find_update_first_other.
    + intros x Hx. apply String.eqb_eq in Hx. rewrite Hx.
      rewrite String.eqb_sym. exact E.
    + intros x. rewrite Hf. reflexivity.
Qed.

Lemma map_key_update (p : A -> bool) (f : A -> A) (l : list A) :
  (forall x, key (f x) = key x) ->
  map key (update_first p f l) = map key l.
Proof.
  intros Hf. induction l as [|x l IH]; cbn; [reflexivity|].
  destruct (p x); cbn; [rewrite Hf | rewrite IH]; reflexivity.
Qed.

Lemma find_by_key_filter_out (id k : string) (l : list A) :
  find (fun y => String.eqb (key y) id)
       (filter (fun y => negb (String.eqb (key y) k)) l)
  = if String.eqb id k then None
    else find (fun y => String.eqb (key y) id) l.
Proof.
  induction l as [|x l IH]; cbn [filter find].
  - destruct (String.eqb id k); reflexivity.
  - destruct (String.eqb (key x) k) eqn:Ek; cbn [negb].
    + rewrite IH. destruct (String.eqb id k) eqn:E; [reflexivity|].
      apply String.eqb_eq in Ek.
      replace (String.eqb (key x) id) with false; [reflexivity|].
      symmetry. apply String.eqb_neq. apply String.eqb_neq in E. congruence.
    + cbn [find]. rewrite IH.
      destruct (String.eqb (key x) id) eqn:Ei; [|reflexivity].
      apply String.eqb_eq in Ei. subst id. rewrite Ek. reflexivity.
Qed.

Lemma map_key_filter_out (k : string) (l : list A) :
  map key (filter (fun y => negb (String.eqb (key y) k)) l)
  = filter (fun s => negb (String.eqb s k)) (map key l).
Proof.
  induction l as [|x l IH]; cbn; [reflexivity|].
  destruct (String.eqb (key x) k); cbn; rewrite IH; reflexivity.
Qed.
End Keyed.

Lemma find_user_update (id k : string) (f : User -> User) (us : list User) :
  (forall u, user_id (f u) = user_id u) ->
  find (has_user_id id) (update_first (has_user_id k) f us)
  = if String.eqb id k then option_map f (find (has_user_id id) us)
    else find (has_user_id id) us.
Proof. apply (find_by_key_update user_id). Qed.

Lemma find_item_update (id k : string) (f : Item -> Item) (its : list Item) :
  (forall x, item_id (f x) = item_id x) ->
  find (has_item_id id) (update_first (has_item_id k) f its)
  = if String.eqb id k then option_map f (find (has_item_id id) its)
    else find (has_item_id id) its.
Proof. apply (find_by_key_update item_id). Qed.

(** ** The invariant through the lookups *)

Lemma no_user_without_id (db : DB) :
  ids_well_formed db -> find_user "" db = None.
Proof.
  intros (_ & _ & Hne). apply (find_by_key_absent user_id). exact Hne.
Qed.

Lemma consistent_as_lookups (db : DB) :
  ids_well_formed db -> ownership_consistent db -> lookup_consistent db.
Proof.
  intros (Hnu & Hni & _) [Ha Hb]. split.
  - intros id o Hown Ht. unfold owner_at in Hown.
    destruct (find_item id db) as [it|] eqn:Hit; [|discriminate].
    injection Hown as Hown.
    apply (find_by_key_in item_id) in Hit. destruct Hit as [Hin Hid].
    destruct (Ha it o Hin Hown Ht) as (u & Hu & Huid & Hl).
    exists (user_owned u). split; [|congruence].
    unfold owned_of, find_user. rewrite <- Huid.
    unfold has_user_id. rewrite (find_by_key_unique user_id _ u Hnu Hu).
    reflexivity.
  - intros uid owned id Hown Hl. unfold owned_of in Hown.
    destruct (find_user uid db) as [u|] eqn:Hu; [|discriminate].
    injection Hown as Hown. subst owned.
    apply (find_by_key_in user_id) in Hu. destruct Hu as [Hin Huid].
    destruct (Hb u id Hin Hl) as (it & Hit & Hid & Ho).
    unfold owner_at, find_item, has_item_id. rewrite <- Hid.
    rewrite (find_by_key_unique item_id _ it Hni Hit). cbn [option_map].
    congruence.
Qed.

Lemma lookups_as_consistent (db : DB) :
  ids_well_formed db -> lookup_consistent db -> ownership_consistent db.
Proof.
  intros (Hnu & Hni & _) [Ha Hb]. split.
  - intros it o Hin Hown Ht.
    destruct (Ha (item_id it) o) as (owned & Ho & Hl); [|exact Ht|].
    + unfold owner_at, find_item, has_item_id.
      rewrite (find_by_key_unique item_id _ it Hni Hin). cbn [option_map].
      congruence.
    + unfold owned_of in Ho.
      destruct (find_user o db) as [u|] eqn:Hu; [|discriminate].
      injection Ho as Ho. subst owned.
      apply (find_by_key_in user_id) in Hu. destruct Hu as [Hu Huid].
      exists u. auto.
  - intros u id Hin Hl.
    assert (Ho : owner_at id db = Some (Some (user_id u))).
    { apply (Hb (user_id u) (user_owned u) id); [|exact Hl].
      unfold owned_of, find_user, has_user_id.
      rewrite (find_by_key_unique user_id _ u Hnu Hin). reflexivity. }
    unfold owner_at in Ho.
    destruct (find_item id db) as [it|] eqn:Hit; [|discriminate].
    injection Ho as Ho.
    apply (find_by_key_in item_id) in Hit. destruct Hit as [Hit Hid].
    exists it. auto.
Qed.

Lemma In_without (x k : string) (l : list string) :
  In x (without k l) <-> In x l /\ x <> k.
Proof.
  unfold without. rewrite filter_In, negb_true_iff, String.eqb_neq.
  reflexivity.
Qed.

Lemma In_ensure (x k : string) (l : list string) :
  In x (ensure k l) <-> In x l \/ x = k.
Proof.
  unfold ensure. destruct (includes k l) eqn:E.
  - apply includes_In in E. split; [auto|]. intros [H| ->]; assumption.
  - rewrite in_app_iff. cbn [In]. intuition.
Qed.

Lemma truthy_nonempty (s : string) : truthy s = true <-> s <> "".
Proof. unfold truthy. rewrite negb_true_iff. apply String.eqb_neq. Qed.

Lemma held_by_true (ow : option string) (uid : string) :
  held_by ow uid = true <-> ow = Some uid /\ uid <> "".
Proof.
  destruct ow as [prev|]; cbn [held_by].
  - rewrite andb_true_iff, truthy_nonempty, String.eqb_eq. split.
    + intros [Hp E]. subst. auto.
    + intros [E Hp]. injection E as E. subst. auto.
  - split; [discriminate | intros [E _]; discriminate].
Qed.

Section LookupPreservation.
Variables (db db' : DB) (k o : string) (ow : option string).
Hypothesis Hcons : lookup_consistent db.
Hypothesis Hnoempty : find_user "" db = None.
Hypothesis Hitem : owner_at k db = Some ow.

(** A listed id of an existing user: the item [k] is listed only by the
    user named in its owner reference. *)
Lemma lister_holds (uid : string) (owned : list string) :
  owned_of uid db = Some owned -> In k owned -> held_by ow uid = true.
Proof.
  intros Hown Hl. destruct Hcons as [_ Hb].
  pose proof (Hb uid owned k Hown Hl) as H. rewrite Hitem in H.
  injection H as H. apply held_by_true. split; [exact H|].
  intros ->. unfold owned_of in Hown. rewrite Hnoempty in Hown. discriminate.
Qed.

(** Buy, gift and admin gift: the unowned item [k] goes to user [o]. *)
Lemma assign_lookup_consistent :
  owner_truthy ow = false ->
  owned_of o db <> None ->
  (forall id, owner_at id db'
              = if String.eqb id k then Some (Some o) else owner_at id db) ->
  (forall uid, owned_of uid db'
               = if String.eqb uid o
                 then option_map (fun l => l ++ [k])%list (owned_of uid db)
                 else owned_of uid db) ->
  lookup_consistent db'.
Proof.
  intros Hfree Hto HI HU. destruct Hcons as [Ha Hb]. split.
  - intros id o' Hown Ht. rewrite HI in Hown. rewrite HU.
    destruct (String.eqb_spec id k) as [->|Hne].
    + injection Hown as <-. rewrite String.eqb_refl.
      destruct (owned_of o db) as [owned|]; [|congruence].
      exists (owned ++ [k])%list. split; [reflexivity|].
      apply in_or_app. right. left. reflexivity.
    + destruct (Ha id o' Hown Ht) as (owned & Ho & Hl). rewrite Ho.
      destruct (String.eqb o' o); cbn [option_map]; eexists; split;
        try reflexivity; auto using in_or_app.
  - intros uid owned' id Hown Hl. rewrite HU in Hown. rewrite HI.
    destruct (String.eqb_spec uid o) as [->|Hne].
    + destruct (owned_of o db) as [owned|] eqn:Ho; [|discriminate].
      injection Hown as <-. apply in_app_or in Hl.
      destruct (String.eqb_spec id k) as [->|Hk]; [reflexivity|].
      destruct Hl as [Hl|[Hl|[]]]; [|congruence].
      apply (Hb o owned id Ho Hl).
    + destruct (String.eqb_spec id k) as [->|Hk].
      * pose proof (lister_holds uid owned' Hown Hl) as Hh.
        apply held_by_true in Hh. destruct Hh as [-> Hh].
        cbn [owner_truthy] in Hfree. apply truthy_nonempty in Hh. congruence.
      * apply (Hb uid owned' id Hown Hl).
Qed.

(** Transfer: the item [k] leaves its holder's list and goes to user [o]. *)
Lemma transfer_lookup_consistent :
  owned_of o db <> None ->
  (forall id, owner_at id db'
              = if String.eqb id k then Some (Some o) else owner_at id db) ->
  (forall uid, owned_of uid db'
               = let before :=
                   if held_by ow uid
                   then option_map (without k) (owned_of uid db)
                   else owned_of uid db in
                 if String.eqb uid o then option_map (ensure k) before
                 else before) ->
  lookup_consistent db'.
Proof.
  intros Hto HI HU. destruct Hcons as [Ha Hb]. split.
  - intros id o' Hown Ht. rewrite HI in Hown. rewrite HU. cbv zeta.
    destruct (String.eqb_spec id k) as [->|Hne].
    + injection Hown as <-. rewrite String.eqb_refl.
      destruct (owned_of o db) as [owned|]; [|congruence].
      destruct (held_by ow o); cbn [option_map]; eexists; split;
        try reflexivity; apply In_ensure; auto.
    + destruct (Ha id o' Hown Ht) as (owned & Ho & Hl). rewrite Ho.
      destruct (held_by ow o'), (String.eqb o' o); cbn [option_map];
        eexists; split; try reflexivity;
        rewrite ?In_ensure, ?In_without; auto.
  - intros uid owned' id Hown Hl. rewrite HU in Hown. cbv zeta in Hown.
    rewrite HI.
    assert (Hback : id <> k -> exists owned,
               owned_of uid db = Some owned /\ In id owned).
    { intros Hk. destruct (owned_of uid db) as [owned|] eqn:Ho.
      - exists owned. split; [reflexivity|].
        destruct (held_by ow uid), (String.eqb uid o);
          cbn [option_map] in Hown; injection Hown as <-;
          rewrite ?In_ensure, ?In_without in Hl; intuition.
      - destruct (held_by ow uid), (String.eqb uid o); discriminate. }
    destruct (String.eqb_spec id k) as [->|Hk].
    + destruct (String.eqb_spec uid o) as [->|Hne]; [reflexivity|].
      exfalso. destruct (held_by ow uid) eqn:Hh.
      * destruct (owned_of uid db); [|discriminate].
        injection Hown as <-. apply In_without in Hl. intuition.
      * rewrite (lister_holds uid owned' Hown Hl) in Hh. discriminate.
    + destruct (Hback Hk) as (owned & Ho & Hin). apply (Hb uid owned id Ho Hin).
Qed.

(** Burn: the item [k] leaves its holder's list and the array of items. *)
Lemma burn_lookup_consistent :
  (forall id, owner_at id db'
              = if String.eqb id k then None else owner_at id db) ->
  (forall uid, owned_of uid db'
               = if held_by ow uid
                 then option_map (without k) (owned_of uid db)
                 else owned_of uid db) ->
  lookup_consistent db'.
Proof.
  intros HI HU. destruct Hcons as [Ha Hb]. split.
  - intros id o' Hown Ht. rewrite HI in Hown. rewrite HU.
    destruct (String.eqb_spec id k) as [->|Hne]; [discriminate|].
    destruct (Ha id o' Hown Ht) as (owned & Ho & Hl). rewrite Ho.
    destruct (held_by ow o'); cbn [option_map]; eexists; split;
      try reflexivity; rewrite ?In_without; auto.
  - intros uid owned' id Hown Hl. rewrite HU in Hown. rewrite HI.
    destruct (String.eqb_spec id k) as [->|Hk].
    + exfalso. destruct (held_by ow uid) eqn:Hh.
      * destruct (owned_of uid db); [|discriminate].
        injection Hown as <-. apply In_without in Hl. intuition.
      * rewrite (lister_holds uid owned' Hown Hl) in Hh. discriminate.
    + destruct (held_by ow uid).
      * destruct (owned_of uid db) as [owned|] eqn:Ho; [|discriminate].
        injection Hown as <-. apply In_without in Hl.
        apply (Hb uid owned id Ho). intuition.
      * apply (Hb uid owned' id Hown Hl).
Qed.
End LookupPreservation.

(** ** The invariant along the routes that move ownership *)

(** Splits the goal on every test of the unfolded route; the paths that
    reply with an error or raise leave the document [Hwf] speaks about. *)
Ltac split_goal Hwf :=
  repeat match goal with
         | |- context [match ?x with _ => _ end] =>
             lazymatch x with
             | context [match _ with _ => _ end] => fail
             | _ => destruct x eqn:?; cbv beta iota
             end
         end;
  cbn [snd]; try exact Hwf.

Lemma well_formed_by_lookups (db db' : DB) :
  ids_well_formed db ->
  map user_id (users db') = map user_id (users db) ->
  NoDup (map item_id (items db')) ->
  lookup_consistent db' ->
  well_formed db'.
Proof.
  intros (Hnu & Hni & Hne) Hus Hits Hl.
  assert (Hids : ids_well_formed db').
  { unfold ids_well_formed. rewrite Hus. auto. }
  split; [exact Hids|]. apply lookups_as_consistent; assumption.
Qed.

Ltac id_kept := intros ?; try destruct (includes _ _); reflexivity.

Ltac same_ids Hwf :=
  destruct Hwf as [(Hnu & Hni & Hne) _]; project_db;
  rewrite ?(map_key_update user_id), ?(map_key_update item_id) by id_kept;
  try reflexivity; try assumption.

(** The item lookups after the owner of [k] was assigned. *)
Ltac owner_assigned k Hi :=
  intros id; unfold owner_at, find_item; project_db;
  rewrite find_item_update by id_kept;
  destruct (String.eqb_spec id k) as [->|]; [|reflexivity];
  let Hi' := fresh in
  pose proof Hi as Hi'; unfold find_item in Hi'; rewrite Hi'; reflexivity.

Lemma tx_pay_keeps_well_formed env t itemId mode toUserId db :
  well_formed db ->
  well_formed (snd (perform (tx_pay env t itemId mode toUserId) db)).
Proof.
  intros Hwf. unfold_route. split_goal Hwf.
  - match goal with
    | Hi : find_item itemId db = Some ?i, Hu : find_user ?c db = Some ?u |- _ =>
        rewrite (find_item_id _ _ _ Hi), (find_user_id _ _ _ Hu);
        apply (well_formed_by_lookups db); [apply Hwf | same_ids Hwf ..|];
        apply (assign_lookup_consistent db _ itemId c (item_ownerId i));
        [ apply consistent_as_lookups; apply Hwf
        | apply no_user_without_id; apply Hwf
        | unfold owner_at; rewrite Hi; reflexivity
        | assumption
        | unfold owned_of; rewrite Hu; discriminate
        | owner_assigned itemId Hi
        | intros uid; unfold owned_of, find_user; project_db;
          rewrite !find_user_update by id_kept;
          destruct (String.eqb uid c), (find (has_user_id uid) (users db));
          reflexivity ]
    end.
  - match goal with
    | Hi : find_item itemId db = Some ?i,
      Hr : find_user toUserId db = Some ?r,
      Hu : find_user (caller_id ?c) db = Some ?u |- _ =>
        rewrite (find_item_id _ _ _ Hi), (find_user_id _ _ _ Hr);
        apply (well_formed_by_lookups db); [apply Hwf | same_ids Hwf ..|];
        apply (assign_lookup_consistent db _ itemId toUserId (item_ownerId i));
        [ apply consistent_as_lookups; apply Hwf
        | apply no_user_without_id; apply Hwf
        | unfold owner_at; rewrite Hi; reflexivity
        | assumption
        | unfold owned_of; rewrite Hr; discriminate
        | owner_assigned itemId Hi
        | intros uid; unfold owned_of, find_user; project_db;
          rewrite !find_user_update by id_kept;
          destruct (String.eqb uid toUserId), (String.eqb uid (caller_id c)),
                   (find (has_user_id uid) (users db));
          reflexivity ]
    end.
Qed.

Lemma admin_gift_keeps_well_formed env t toUserId itemId db :
  well_formed db ->
  well_formed (snd (perform (admin_gift env t toUserId itemId) db)).
Proof.
  intros Hwf. unfold_route. split_goal Hwf.
  match goal with
  | Hi : find_item itemId db = Some ?i,
    Hr : find_user toUserId db = Some ?r |- _ =>
      rewrite (find_item_id _ _ _ Hi), (find_user_id _ _ _ Hr);
      apply (well_formed_by_lookups db); [apply Hwf | same_ids Hwf ..|];
      apply (assign_lookup_consistent db _ itemId toUserId (item_ownerId i));
      [ apply consistent_as_lookups; apply Hwf
      | apply no_user_without_id; apply Hwf
      | unfold owner_at; rewrite Hi; reflexivity
      | assumption
      | unfold owned_of; rewrite Hr; discriminate
      | owner_assigned itemId Hi
      | intros uid; unfold owned_of, find_user; project_db;
        rewrite !find_user_update by id_kept;
        destruct (String.eqb uid toUserId),
                 (find (has_user_id uid) (users db));
        reflexivity ]
  end.
Qed.

(** The owned lists after transfer's two updates, for each shape of the
    previous owner reference. *)
Ltac owned_after_transfer o :=
  intros uid; unfold owned_of, find_user, held_by; project_db;
  rewrite ?find_user_update by id_kept;
  repeat match goal with
         | H : truthy _ = _ |- _ => rewrite H
         end;
  cbn [andb]; cbv zeta;
  destruct (String.eqb uid o);
  try match goal with
      | |- context [String.eqb uid ?prev] => destruct (String.eqb uid prev)
      end;
  match goal with
  | |- context [find (has_user_id uid) ?us] =>
      destruct (find (has_user_id uid) us)
  end;
  cbn [option_map]; try reflexivity;
  unfold ensure; cbn [user_owned set_owned];
  try destruct (includes _ _); reflexivity.

Lemma admin_transfer_keeps_well_formed env t itemId toUserId db :
  well_formed db ->
  well_formed (snd (perform (admin_transfer env t itemId toUserId) db)).
Proof.
  intros Hwf. unfold_route. split_goal Hwf;
    match goal with
    | Hi : find_item itemId db = Some ?i,
      Hr : find_user toUserId db = Some ?r |- _ =>
        rewrite (find_item_id _ _ _ Hi), (find_user_id _ _ _ Hr);
        apply (well_formed_by_lookups db); [apply Hwf | same_ids Hwf ..|];
        apply (transfer_lookup_consistent db _ itemId toUserId (item_ownerId i));
        [ apply consistent_as_lookups; apply Hwf
        | apply no_user_without_id; apply Hwf
        | unfold owner_at; rewrite Hi; reflexivity
        | unfold owned_of; rewrite Hr; discriminate
        | owner_assigned itemId Hi
        | match goal with
          | Ho : item_ownerId i = _ |- _ => rewrite Ho
          end;
          owned_after_transfer toUserId ]
    end.
Qed.

Lemma find_item_filter_out (id k : string) (its : list Item) :
  find (has_item_id id)
       (filter (fun x => negb (String.eqb (item_id x) k)) its)
  = if String.eqb id k then None else find (has_item_id id) its.
Proof. apply (find_by_key_filter_out item_id). Qed.

Lemma admin_burn_keeps_well_formed env t itemId db :
  well_formed db ->
  well_formed (snd (perform (admin_burn env t itemId) db)).
Proof.
  intros Hwf. unfold_route. split_goal Hwf;
    match goal with
    | Hi : find_item itemId db = Some ?i |- _ =>
        rewrite (find_item_id _ _ _ Hi);
        apply (well_formed_by_lookups db);
        [ apply Hwf
        | same_ids Hwf
        | destruct Hwf as [(_ & Hni & _) _]; project_db;
          rewrite (map_key_filter_out item_id); apply NoDup_filter; exact Hni
        | apply (burn_lookup_consistent db _ itemId (item_ownerId i));
          [ apply consistent_as_lookups; apply Hwf
          | apply no_user_without_id; apply Hwf
          | unfold owner_at; rewrite Hi; reflexivity
          | intros id; unfold owner_at, find_item; project_db;
            rewrite find_item_filter_out;
            destruct (String.eqb id itemId); reflexivity
          | match goal with
            | Ho : item_ownerId i = _ |- _ => rewrite Ho
            end;
            intros uid; unfold owned_of, find_user, held_by; project_db;
            rewrite ?find_user_update by id_kept;
            repeat match goal with
                   | H : truthy _ = _ |- _ => rewrite H
                   end;
            cbn [andb];
            try match goal with
                | |- context [String.eqb uid ?prev] =>
                    destruct (String.eqb uid prev)
                end;
            match goal with
            | |- context [find (has_user_id uid) ?us] =>
                destruct (find (has_user_id uid) us)
            end;
            reflexivity ] ]
    end.
Qed.

(** C5 (as amended). In a snapshot whose user ids are pairwise distinct and
    non-empty and whose item ids are pairwise distinct, buy, gift, admin
    gift, transfer and burn keep the two sides of ownership consistent (and
    keep the ids distinct), whatever their outcome: every item with an owner
    reference is listed by that user, and every listed id is an item owned
    by the lister. *)
Theorem ownership_kept_by_pay_gift_transfer_burn :
  forall env t r db,
    keeps_ownership_in_step r = true ->
    well_formed db ->
    well_formed (snd (serve env t r db)).
Proof.
  intros env t r db Hr Hwf. destruct r; try discriminate Hr; unfold serve; cbn [route].
  - apply tx_pay_keeps_well_formed. exact Hwf.
  - apply admin_gift_keeps_well_formed. exact Hwf.
  - apply admin_transfer_keeps_well_formed. exact Hwf.
  - apply admin_burn_keeps_well_formed. exact Hwf.
Qed.

Lemma nodupb_NoDup (l : list string) : nodupb l = true -> NoDup l.
Proof.
  induction l as [|x l IH]; cbn [nodupb]; intros H; constructor.
  - apply andb_true_iff in H. destruct H as [H _].
    apply negb_true_iff in H. intros Hin. apply includes_In in Hin. congruence.
  - apply IH. apply andb_true_iff in H. apply H.
Qed.

Lemma well_formedb_sound (db : DB) : well_formedb db = true -> well_formed db.
Proof.
  unfold well_formedb, ids_well_formedb. rewrite !andb_true_iff.
  intros [[[Hu Hi] He] Hc]. split.
  - repeat split; try (apply nodupb_NoDup; assumption).
    apply negb_true_iff in He. intros Hin. apply includes_In in Hin. congruence.
  - apply ownership_consistentb_spec. exact Hc.
Qed.

(** C5 on Alice's purchase on the one-item market. *)
Lemma ownership_kept_by_pay_gift_transfer_burn_witness :
  well_formed
    (snd (serve env1 (Bearer alice) (TxPay "nft_1000" "buy" "") (market 5 0 5))).
Proof.
  apply (ownership_kept_by_pay_gift_transfer_burn env1 (Bearer alice)
           (TxPay "nft_1000" "buy" "") (market 5 0 5)).
  - reflexivity.
  - apply well_formedb_sound. reflexivity.
Defined.

(** C5 as stated fails for three of the operations it names.  From a
    consistent snapshot with distinct ids: deleting an owned item leaves its
    id in the owner's list; an item update that rewrites [ownerId] touches
    no list; a bulk import that carries [ownerId] touches no list. *)
Lemma delete_update_import_break_ownership :
  well_formed alice_owns
  /\ fst (serve env0 (Bearer admin0) (AdminItemsDelete "nft_1000") alice_owns)
     = Replied Ok
  /\ ~ ownership_consistent
         (snd (serve env0 (Bearer admin0) (AdminItemsDelete "nft_1000")
                     alice_owns))
  /\ fst (serve env0 (Bearer admin0)
                (AdminItemsUpdate "nft_1000" (only_owner (Some "u_1002")))
                alice_owns)
     = Replied Ok
  /\ ~ ownership_consistent
         (snd (serve env0 (Bearer admin0)
                     (AdminItemsUpdate "nft_1000" (only_owner (Some "u_1002")))
                     alice_owns))
  /\ well_formed (seeded 0 0)
  /\ ~ ownership_consistent imported_negative_stars.
Proof.
  split; [apply well_formedb_sound; reflexivity|].
  split; [reflexivity|].
  split; [intros H; apply ownership_consistentb_spec in H; discriminate H|].
  split; [reflexivity|].
  split; [intros H; apply ownership_consistentb_spec in H; discriminate H|].
  split; [apply well_formedb_sound; reflexivity|].
  intros H; apply ownership_consistentb_spec in H; discriminate H.
Qed.

(** The conditions on ids in [well_formed] cannot be dropped: from a
    consistent snapshot in which an item id is repeated, or a user id is
    repeated, a transfer leaves an inconsistent one; and so does a buy when
    a user has the empty id. *)
Lemma ownership_needs_well_formed_ids :
  ownership_consistent twin_items
  /\ ~ ownership_consistent
         (snd (serve env0 (Bearer admin0) (AdminTransfer "nft_1000" "u_1002")
                     twin_items))
  /\ ownership_consistent twin_users
  /\ ~ ownership_consistent
         (snd (serve env0 (Bearer admin0) (AdminTransfer "nft_1000" "u_1002")
                     twin_users))
  /\ ownership_consistent nameless_user
  /\ ~ ownership_consistent
         (snd (serve env0 (Bearer alice) (TxPay "nft_1000" "buy" "")
                     nameless_user)).
Proof.
  repeat split;
    try (apply ownership_consistentb_spec; reflexivity);
    intros H; apply ownership_consistentb_spec in H; discriminate H.
Qed.

(** ** Overlapping requests *)

(** A request that runs its three steps without another one in between
    does what [perform] does. *)
Lemma alone_as_performed (h : Handler) (file : DB) :
  run_schedule [0; 0; 0]%nat [Arrived h] file
  = ([Finished (fst (perform h file))], snd (perform h file)).
Proof.
  destruct h as [r|mutator]; [reflexivity|].
  cbn [run_schedule resume step_task perform]. unfold transact.
  destruct (mutator (mkStore file file)) as [[r|r|e] s]; reflexivity.
Qed.

(** Two requests whose steps do not interleave are served one after the
    other. *)
Lemma in_turn_as_performed (h1 h2 : Handler) (file : DB) :
  run_schedule [0; 0; 0; 1; 1; 1]%nat [Arrived h1; Arrived h2] file
  = ([Finished (fst (perform h1 file));
      Finished (fst (perform h2 (snd (perform h1 file))))],
     snd (perform h2 (snd (perform h1 file)))).
Proof.
  destruct h1 as [r1|m1], h2 as [r2|m2]; unfold perform, transact; simpl;
    repeat match goal with
           | |- context [match ?m (mkStore ?a ?b) with _ => _ end] =>
               destruct (m (mkStore a b)) as [[?|?|?] ?]; simpl
           end;
    reflexivity.
Qed.

(** Served one after the other, two withdrawals of the full balance end
    with one success and one "Insufficient balance". *)
Lemma serial_full_withdrawals env env' c addr addr' db u :
  find_user (caller_id c) db = Some u ->
  0 < user_balance u ->
  (5 <= String.length addr)%nat -> (5 <= String.length addr')%nat ->
  find_payment (nanoid env 0) db = None ->
  exists db',
    serve_all [mkSub env (Bearer c) (WithdrawRequest (Some (user_balance u)) addr);
               mkSub env' (Bearer c) (WithdrawRequest (Some (user_balance u)) addr')]
              db
    = ([Replied Ok; Replied (Err 400 "Insufficient balance")], db')
    /\ balance_of (caller_id c) db' = Some 0.
Proof.
  intros Hu HB Haddr Haddr' Hfresh.
  destruct (withdraw_request_holds env c (user_balance u) addr db u Hu
              ltac:(lia) Haddr Hfresh)
    as (db1 & p & Hrun & Hu1 & _).
  exists db1. cbn [serve_all]. unfold submit.
  cbn [sub_env sub_token sub_request]. rewrite Hrun.
  assert (Hsecond :
    serve env' (Bearer c) (WithdrawRequest (Some (user_balance u)) addr') db1
    = (Replied (Err 400 "Insufficient balance"), db1)).
  { unfold_route. unfold positive_amount.
    replace (0 <? user_balance u) with true by (symmetry; apply Z.ltb_lt; lia).
    replace (String.length addr' <? 5)%nat with false
      by (symmetry; apply Nat.ltb_ge; lia).
    rewrite Hu1. cbn [user_balance set_balance].
    replace (user_balance u - user_balance u <? user_balance u) with true
      by (symmetry; apply Z.ltb_lt; lia).
    reflexivity. }
  rewrite Hsecond. split; [reflexivity|].
  unfold balance_of. rewrite Hu1. cbn. f_equal. lia.
Qed.

(** C9 at its failing schedule.  Alice holds 10 and sends two withdrawals of
    10.  When both [loadDB] calls resolve before either closure runs, both
    closures see the balance 10 and both reply [ok]: no request observes
    "Insufficient balance", and the document written last keeps one payment
    record only.  Served one after the other, the second request is
    refused. *)
Theorem overlapping_withdrawals_both_succeed :
  balance_of "u_1001" (seeded 10 0) = Some 10
  /\ fst (run_schedule [0; 1; 0; 1; 0; 1]%nat two_full_withdrawals (seeded 10 0))
     = [Finished (Replied Ok); Finished (Replied Ok)]
  /\ balance_of "u_1001"
       (snd (run_schedule [0; 1; 0; 1; 0; 1]%nat two_full_withdrawals
                          (seeded 10 0)))
     = Some 0
  /\ List.length
       (payments_or_empty
          (snd (run_schedule [0; 1; 0; 1; 0; 1]%nat two_full_withdrawals
                             (seeded 10 0))))
     = 1%nat
  /\ fst (run_schedule [0; 0; 0; 1; 1; 1]%nat two_full_withdrawals (seeded 10 0))
     = [Finished (Replied Ok);
        Finished (Replied (Err 400 "Insufficient balance"))].
Proof. repeat split; reflexivity. Qed.

(** The trailing [saveDB] of [transact] also runs after a refusal.  When the
    refused request loaded its copy before another request committed, it
    writes that older copy back: Bob's deposit, stored and acknowledged, is
    gone once Alice's refused withdrawal completes. *)
Lemma overlapping_refusal_writes_stale_copy :
  option_map pay_userId
    (find_payment "jd_0"
       (snd (run_schedule [0; 1; 1; 1]%nat refused_withdrawal_and_deposit
                          (seeded 10 0))))
  = Some "u_1002"
  /\ run_schedule [0; 1; 1; 1; 0; 0]%nat refused_withdrawal_and_deposit
                  (seeded 10 0)
     = ([Finished (Replied (Err 400 "Insufficient balance"));
         Finished (Replied Ok)],
        seeded 10 0).
Proof. split; reflexivity. Qed.

(** ** Item ids *)

(** C10 at its failing input.  After two creations the ids are "nft_1000"
    and "nft_1001"; deleting (or burning) "nft_1000" leaves one item, so the
    next creation (or bulk import) computes 1000 + 1 and issues "nft_1001" a
    second time. *)
Theorem item_id_reissued_after_removal :
  fst (serve_all create_create_delete_create (seeded 0 0))
  = [Replied Ok; Replied Ok; Replied Ok; Replied Ok]
  /\ map item_id (items (snd (serve_all create_create_delete_create (seeded 0 0))))
     = ["nft_1001"; "nft_1001"]
  /\ ~ NoDup (map item_id
                (items (snd (serve_all create_create_delete_create (seeded 0 0)))))
  /\ fst (serve_all create_create_burn_import (seeded 0 0))
     = [Replied Ok; Replied Ok; Replied Ok; Replied Ok]
  /\ map item_id (items (snd (serve_all create_create_burn_import (seeded 0 0))))
     = ["nft_1001"; "nft_1001"].
Proof.
  split; [reflexivity|]. split; [reflexivity|].
  split; [|split; reflexivity].
  intros H. inversion H as [|x l Hnotin _]. apply Hnotin. left. reflexivity.
Qed.

(** * The rest of the server: properties *)

(** Splits the goal on every test of the unfolded route. *)
Ltac split_route :=
  repeat match goal with
         | |- context [match ?x with _ => _ end] =>
             lazymatch x with
             | context [match _ with _ => _ end] => fail
             | _ => destruct x eqn:?; cbv beta iota
             end
         end;
  cbn [snd fst].

Lemma import_rows_frame env rows :
  forall idx db,
    users (import_rows env idx rows db) = users db
    /\ payments (import_rows env idx rows db) = payments db
    /\ history (import_rows env idx rows db) = history db
    /\ notifications (import_rows env idx rows db) = notifications db.
Proof.
  induction rows as [|x rows IH]; intros idx db; cbn [import_rows].
  - repeat split.
  - destruct (IH (S idx) (import_row env idx x db)) as (Hu & Hp & Hh & Hn).
    rewrite Hu, Hp, Hh, Hn. repeat split.
Qed.

(** ** History *)

(** X1. No request served through [transact] rewrites or drops a history
    entry: the history after the request is the history before it, followed
    by the entries the request added. *)
Theorem history_is_append_only :
  forall env t r db,
    exists added,
      history (snd (serve env t r db)) = (history db ++ added)%list.
Proof.
  intros env t r db.
  destruct r; unfold_route; split_route; project_db;
    try (exists []; rewrite app_nil_r; reflexivity);
    try (rewrite <- ?app_assoc; eexists; reflexivity).
  exists []. rewrite app_nil_r. apply import_rows_frame.
Qed.

(** ** Payments *)

Lemma Forall2_same {A : Type} (R : A -> A -> Prop) (l : list A) :
  (forall x, R x x) -> Forall2 R l l.
Proof. intros H. induction l; constructor; auto. Qed.

Lemma Forall2_update_first {A : Type} (R : A -> A -> Prop) (q : A -> bool)
    (f : A -> A) (l : list A) :
  (forall x, R x x) ->
  (forall x, find q l = Some x -> R x (f x)) ->
  Forall2 R l (update_first q f l).
Proof.
  intros Hrefl. induction l as [|x l IH]; cbn [find update_first]; intros Hf.
  - constructor.
  - destruct (q x).
    + constructor; [apply Hf; reflexivity|].
      apply Forall2_same. exact Hrefl.
    + constructor; [apply Hrefl | apply IH; exact Hf].
Qed.

Lemma payments_evolve_refl (ps : list Payment) : payments_evolve ps ps.
Proof.
  exists ps, []. rewrite app_nil_r. repeat split.
  - apply Forall2_same. intros x. left. reflexivity.
  - constructor.
Qed.

Lemma payments_evolve_filed (ps : list Payment) (pay : Payment) :
  pay_status pay = pending -> payments_evolve ps (ps ++ [pay]).
Proof.
  intros H. exists ps, [pay]. repeat split.
  - apply Forall2_same. intros x. left. reflexivity.
  - repeat constructor. exact H.
Qed.

Lemma payments_evolve_resolved (id : string) (db : DB) (p : Payment)
    (s : Status) (a : string) (n : Payment -> option string) :
  find_payment id db = Some p ->
  negb (status_pending (pay_status p)) = false ->
  s <> pending ->
  payments_evolve (payments_or_empty db)
    (update_first (has_pay_id id) (fun p => resolve s a (n p) p)
                  (payments_or_empty db)).
Proof.
  intros Hp Hst Hs. eexists. exists []. rewrite app_nil_r.
  split; [reflexivity|]. split; [|constructor].
  apply Forall2_update_first.
  - intros x. left. reflexivity.
  - intros x Hx. unfold find_payment in Hp. rewrite Hx in Hp.
    injection Hp as ->. right. split.
    + revert Hst. destruct (pay_status p); cbn; intros Hst;
        [reflexivity | discriminate Hst ..].
    + split; [exact Hs | repeat split].
Qed.

(** X2. Under any request served through [transact], the payment records
    keep their order and the fields they were filed with; a record's status
    changes only from ['pending'] to a resolved one, so an approved or
    rejected record stays exactly as it is; and whatever the request adds
    comes after them and is pending. *)
Theorem payments_only_resolve_or_grow :
  forall env t r db,
    payments_evolve (payments_or_empty db)
                    (payments_or_empty (snd (serve env t r db))).
Proof.
  intros env t r db.
  destruct r; unfold_route; split_route; project_db;
    try apply payments_evolve_refl;
    try (apply payments_evolve_filed; reflexivity);
    try (eapply (payments_evolve_resolved _ _ _ approved _ pay_note);
         [eassumption | assumption | discriminate]);
    try (eapply (payments_evolve_resolved _ _ _ rejected _ (fun _ => Some _));
         [eassumption | assumption | discriminate]).
  unfold payments_or_empty.
  rewrite (proj1 (proj2 (import_rows_frame env _ 0%nat db))).
  apply (payments_evolve_refl (payments_or_empty db)).
Qed.

(** ** Solvency *)

Lemma Forall_update_first {A : Type} (P : A -> Prop) (q : A -> bool)
    (f : A -> A) (l : list A) :
  Forall P l ->
  (forall x, find q l = Some x -> P x -> P (f x)) ->
  Forall P (update_first q f l).
Proof.
  induction l as [|x l IH]; cbn [find update_first]; intros Hl Hf.
  - constructor.
  - inversion Hl as [|? ? Hx Hrest]; subst. destruct (q x).
    + constructor; [apply Hf; [reflexivity | exact Hx] | exact Hrest].
    + constructor; [exact Hx | apply IH; assumption].
Qed.

Lemma positive_amount_positive (a : option Z) (z : Z) :
  positive_amount a = Some z -> 0 < z.
Proof.
  unfold positive_amount. destruct a as [x|]; [|discriminate].
  destruct (0 <? x) eqn:E; [|discriminate].
  intros [= <-]. apply Z.ltb_lt. exact E.
Qed.

Lemma found_payment_amount (id : string) (db : DB) (p : Payment) :
  Forall (fun p => 0 < pay_amountTon p) (payments_or_empty db) ->
  find_payment id db = Some p -> 0 < pay_amountTon p.
Proof.
  intros Hall Hp. apply find_some in Hp. destruct Hp as [Hin _].
  rewrite Forall_forall in Hall. apply Hall. exact Hin.
Qed.

(** Brings the tests passed on the way into the form [lia] reads. *)
Ltac read_tests :=
  repeat match goal with
         | H : (_ <? _) = false |- _ => apply Z.ltb_ge in H
         | H : (_ <? _) = true |- _ => apply Z.ltb_lt in H
         | H : positive_amount _ = Some _ |- _ =>
             apply positive_amount_positive in H
         end.

(** The record an update reaches is the one the lookup returned. *)
Ltac same_record Hx :=
  match goal with
  | H : find_user ?k ?db = Some ?u |- _ =>
      let E := fresh in
      pose proof H as E; unfold find_user in E; rewrite Hx in E;
      injection E as E; subst
  end.

Ltac users_stay_solvent Hu Hp :=
  repeat first
    [ exact Hu
    | apply Forall_update_first;
      [| intros x Hx Px;
         first
           [ exact Px
           | destruct (includes _ _); exact Px
           | cbn [user_balance set_balance]; lia
           | cbn [user_balance set_balance]; same_record Hx; lia
           | cbn [user_balance set_balance];
             match goal with
             | H : find_payment _ _ = Some ?p |- _ =>
                 pose proof (found_payment_amount _ _ _ Hp H); lia
             end ] ] ].

Ltac payments_stay_solvent Hp :=
  first
    [ exact Hp
    | apply Forall_app; split;
      [exact Hp | constructor; [cbn [pay_amountTon]; assumption | constructor]]
    | apply Forall_update_first; [exact Hp | intros x _ Px; exact Px] ].

(** X3. No request served through [transact] can overdraw: when every
    balance is at least zero and every filed amount is above zero before the
    request, the same holds after it, whatever the request and its outcome. *)
Theorem solvency_is_kept :
  forall env t r db,
    solvent db -> solvent (snd (serve env t r db)).
Proof.
  intros env t r db [Hu Hp].
  destruct r; unfold_route; split_route; unfold solvent; project_db;
    read_tests;
    (split; [users_stay_solvent Hu Hp | try payments_stay_solvent Hp]).
  - rewrite (proj1 (import_rows_frame env _ 0%nat db)). exact Hu.
  - unfold payments_or_empty.
    rewrite (proj1 (proj2 (import_rows_frame env _ 0%nat db))). exact Hp.
Qed.

(** X3 on Alice's full withdrawal from the seeded users. *)
Lemma solvency_is_kept_witness :
  solvent (snd (serve env0 (Bearer alice) (WithdrawRequest (Some 10) "EQaddress")
                      (seeded 10 0))).
Proof.
  apply solvency_is_kept. split.
  - repeat (constructor; [cbn [user_balance seeded_user]; lia|]). constructor.
  - constructor.
Defined.

(** ** What a caller without the admin role can reach *)

Lemma map_update_first_kept {A B : Type} (g : A -> B) (q : A -> bool)
    (f : A -> A) (l : list A) :
  (forall x, g (f x) = g x) ->
  map g (update_first q f l) = map g l.
Proof.
  intros Hf. induction l as [|x l IH]; cbn; [reflexivity|].
  destruct (q x); cbn; [rewrite Hf | rewrite IH]; reflexivity.
Qed.

(** The balance found under [uid] after the updates of a route, none of
    which moves the balance of a record other than the caller's. *)
Ltac balance_untouched Huid :=
  unfold balance_of, find_user; project_db;
  repeat (rewrite find_user_update by id_kept;
          match goal with
          | |- context [String.eqb ?a ?b] =>
              destruct (String.eqb_spec a b);
              [try (exfalso; apply Huid; cbn; congruence)|]
          end);
  try reflexivity;
  match goal with
  | |- context [find (has_user_id ?k) ?us] =>
      destruct (find (has_user_id k) us); reflexivity
  end.

(** X4. A request whose token does not carry the admin role changes no one
    else's balance, changes no item's id, name or price and adds or removes
    no item, and resolves no payment: it can only file new ones. *)
Theorem non_admin_reach :
  forall env t r db,
    admin_token t = false ->
    (forall uid, token_id t <> Some uid ->
       balance_of uid (snd (serve env t r db)) = balance_of uid db)
    /\ map item_listing (items (snd (serve env t r db)))
       = map item_listing (items db)
    /\ exists filed,
         payments_or_empty (snd (serve env t r db))
         = (payments_or_empty db ++ filed)%list.
Proof.
  intros env t r db Ht.
  destruct t as [| |c]; cbn [admin_token] in Ht;
    [destruct r; cbn; (split; [reflexivity|]; split; [reflexivity|]);
     exists []; rewrite app_nil_r; reflexivity ..|].
  split; [|split].
  - intros uid Huid. cbn [token_id] in Huid.
    destruct r; unfold_route; rewrite ?Ht; split_route;
      try reflexivity; balance_untouched Huid.
  - destruct r; unfold_route; rewrite ?Ht; split_route; project_db;
      rewrite ?map_update_first_kept by (intros ?; reflexivity);
      reflexivity.
  - destruct r; unfold_route; rewrite ?Ht; split_route; project_db;
      try (exists []; rewrite app_nil_r; reflexivity);
      eexists; reflexivity.
Qed.

(** X4 on Alice's gift to Bob: Bob's balance stays, the item keeps its
    price. *)
Lemma non_admin_reach_witness :
  balance_of "u_1002"
    (snd (serve env1 (Bearer alice) (TxPay "nft_1000" "gift" "u_1002")
                (market 8 2 5)))
  = Some 2.
Proof.
  destruct (non_admin_reach env1 (Bearer alice)
              (TxPay "nft_1000" "gift" "u_1002") (market 8 2 5))
    as [Hbal _].
  - reflexivity.
  - rewrite Hbal; [reflexivity | discriminate].
Defined.

(** ** Notifications *)

Lemma Forall2_map_right {A : Type} (R : A -> A -> Prop) (f : A -> A)
    (l : list A) :
  (forall x, R x (f x)) -> Forall2 R l (map f l).
Proof. intros H. induction l; cbn; constructor; auto. Qed.

(** X5. Marking notifications as read touches nothing but the read flag of
    the caller's own notifications whose ids were listed: every other
    notification, and every other part of the document, stays as it is; each
    listed notification of the caller ends up read; and sending the same
    request again changes nothing more. *)
Theorem mark_read_reaches_own_listed_only :
  forall env c ids db,
    let db' := snd (serve env (Bearer c) (NotificationsRead ids) db) in
    fst (serve env (Bearer c) (NotificationsRead ids) db) = Replied Ok
    /\ users db' = users db /\ items db' = items db
    /\ payments db' = payments db /\ history db' = history db
    /\ Forall2 (marking (caller_id c) ids)
               (notifications_or_empty db) (notifications_or_empty db')
    /\ Forall (fun n => asked_to_read (caller_id c) ids n = true ->
                        notif_read n = true)
              (notifications_or_empty db')
    /\ snd (serve env (Bearer c) (NotificationsRead ids) db') = db'.
Proof.
  intros env c ids db. unfold_route.
  cbn [fst snd]. project_db.
  change (notifications_or_empty (set_notifications ?ns ?d)) with ns.
  repeat (split; [reflexivity|]).
  split; [|split].
  - apply Forall2_map_right. intros n. unfold marking, asked_to_read.
    destruct (String.eqb (notif_userId n) (caller_id c)
              && includes (notif_id n) ids); auto.
  - apply Forall_forall. intros n' Hin. apply in_map_iff in Hin.
    destruct Hin as (n & <- & _). unfold asked_to_read.
    destruct (String.eqb (notif_userId n) (caller_id c)
              && includes (notif_id n) ids) eqn:E; cbn; [reflexivity|].
    rewrite E. discriminate.
  - unfold set_notifications at 1. cbn [users items payments history].
    unfold set_notifications. f_equal. f_equal.
    rewrite map_map. apply map_ext. intros n.
    destruct (String.eqb (notif_userId n) (caller_id c)
              && includes (notif_id n) ids) eqn:E; cbn; rewrite E;
      reflexivity.
Qed.

(** ** Self-funded gift *)



(** ** Transfer and burn *)

Lemma balance_after_owned_update (uid k : string)
    (f : User -> User) (us : list User) :
  (forall u, user_id (f u) = user_id u) ->
  (forall u, user_balance (f u) = user_balance u) ->
  option_map user_balance (find (has_user_id uid) (update_first (has_user_id k) f us))
  = option_map user_balance (find (has_user_id uid) us).
Proof.
  intros Hid Hbal. rewrite find_user_update by exact Hid.
  destruct (String.eqb uid k); [|reflexivity].
  destruct (find (has_user_id uid) us); cbn; [rewrite Hbal|]; reflexivity.
Qed.

Ltac balance_kept :=
  intros ?; try destruct (includes _ _); reflexivity.

Lemma transfer_result env admin itemId toUserId db it to :
  is_admin admin = true ->
  itemId <> "" -> toUserId <> "" ->
  find_item itemId db = Some it ->
  find_user toUserId db = Some to ->
  exists db',
    serve env (Bearer admin) (AdminTransfer itemId toUserId) db
    = (Replied Ok, db')
    /\ owner_at itemId db' = Some (Some toUserId)
    /\ (forall uid, balance_of uid db' = balance_of uid db)
    /\ (forall uid,
          owned_of uid db'
          = let before :=
              if held_by (item_ownerId it) uid
              then option_map (without itemId) (owned_of uid db)
              else owned_of uid db in
            if String.eqb uid toUserId then option_map (ensure itemId) before
            else before)
    /\ history db'
       = (history db ++
          [mkHist toUserId (AdminTransferred itemId toUserId)
                  (clock env 0)])%list.
Proof.
  intros Hadm Hid Hto Hit Hu.
  pose proof (find_user_id _ _ _ Hu) as Huid.
  pose proof (find_item_id _ _ _ Hit) as Hiid.
  unfold_route.
  rewrite Hadm, (truthy_true _ Hid), (truthy_true _ Hto).
  cbn [negb orb]; cbv beta iota. rewrite Hit, Hu. cbv beta iota.
  rewrite Huid, Hiid.
  destruct (item_ownerId it) as [prev|] eqn:Ho;
    [destruct (truthy prev) eqn:Ht|];
    (eexists; split; [reflexivity|]);
    (split; [unfold owner_at, find_item; project_db;
             rewrite find_item_owner_set, Hit; reflexivity|]);
    (split; [intros uid; unfold balance_of, find_user; project_db;
             rewrite ?balance_after_owned_update by balance_kept;
             reflexivity|]);
    (split; [owned_after_transfer toUserId | reflexivity]).
Qed.

(** X7. An admin transfer moves an item whether or not it has an owner and
    charges nobody: the item's owner becomes the target, the target lists
    the item, a previous owner other than the target no longer lists it,
    every other user's list and every balance stay as they were, and one
    history entry is appended. *)
Theorem transfer_moves_without_charge :
  forall env admin itemId toUserId db it to,
    is_admin admin = true ->
    itemId <> "" -> toUserId <> "" ->
    find_item itemId db = Some it ->
    find_user toUserId db = Some to ->
    exists db',
      serve env (Bearer admin) (AdminTransfer itemId toUserId) db
      = (Replied Ok, db')
      /\ owner_at itemId db' = Some (Some toUserId)
      /\ (forall uid, balance_of uid db' = balance_of uid db)
      /\ (exists owned, owned_of toUserId db' = Some owned /\ In itemId owned)
      /\ (forall uid owned,
            held_by (item_ownerId it) uid = true -> uid <> toUserId ->
            owned_of uid db' = Some owned -> ~ In itemId owned)
      /\ (forall uid,
            held_by (item_ownerId it) uid = false -> uid <> toUserId ->
            owned_of uid db' = owned_of uid db)
      /\ history db'
         = (history db ++
            [mkHist toUserId (AdminTransferred itemId toUserId)
                    (clock env 0)])%list.
Proof.
  intros env admin itemId toUserId db it to Hadm Hid Hto Hit Hu.
  destruct (transfer_result env admin itemId toUserId db it to
              Hadm Hid Hto Hit Hu)
    as (db' & Hrun & Hown & Hbal & Hlists & Hhist).
  exists db'. split; [exact Hrun|]. split; [exact Hown|].
  split; [exact Hbal|]. split; [|split; [|split; [|exact Hhist]]].
  - rewrite Hlists. cbv zeta. rewrite String.eqb_refl.
    unfold owned_of at 1 2. rewrite Hu. cbn [option_map].
    destruct (held_by (item_ownerId it) toUserId); cbn [option_map];
      eexists; (split; [reflexivity|]); apply In_ensure; auto.
  - intros uid owned Hheld Hne. rewrite Hlists. cbv zeta. rewrite Hheld.
    destruct (String.eqb_spec uid toUserId); [congruence|].
    destruct (owned_of uid db); cbn [option_map]; [|discriminate].
    intros [= <-]. rewrite In_without. intuition.
  - intros uid Hheld Hne. rewrite Hlists. cbv zeta. rewrite Hheld.
    destruct (String.eqb_spec uid toUserId); [congruence | reflexivity].
Qed.

(** X7 on the item Alice bought, moved to Bob. *)
Lemma transfer_moves_without_charge_witness :
  exists db',
    serve env0 (Bearer admin0) (AdminTransfer "nft_1000" "u_1002") alice_owns
    = (Replied Ok, db')
    /\ owner_at "nft_1000" db' = Some (Some "u_1002")
    /\ balance_of "u_1002" db' = balance_of "u_1002" alice_owns.
Proof.
  destruct (transfer_moves_without_charge env0 admin0 "nft_1000" "u_1002"
              alice_owns
              (mkItem "nft_1000" "Rose" 5 5 (ImgSeedOfName "Rose") "Default"
                      3 0 (Some "u_1001") (clock env0 0))
              (seeded_user "u_1002" "Bob" "bob@example.com" "user" 0))
    as (db' & Hrun & Hown & Hbal & _);
    [reflexivity | discriminate | discriminate | reflexivity | reflexivity |].
  exists db'. split; [exact Hrun|]. split; [exact Hown | apply Hbal].
Defined.

(** X8. Burning an item removes every item that carries its id and takes
    the id out of its owner's list; nothing is refunded: all balances stay,
    items with other ids stay, and one history entry is appended under the
    owner (or under ['system'] for an unowned item).  Burning the same id
    again is answered 404 and changes nothing. *)
Theorem burn_removes_without_refund :
  forall env env' admin itemId db it,
    is_admin admin = true ->
    itemId <> "" ->
    find_item itemId db = Some it ->
    exists db',
      serve env (Bearer admin) (AdminBurn itemId) db = (Replied Ok, db')
      /\ find_item itemId db' = None
      /\ (forall id, id <> itemId -> find_item id db' = find_item id db)
      /\ (forall uid, balance_of uid db' = balance_of uid db)
      /\ (forall uid,
            owned_of uid db'
            = if held_by (item_ownerId it) uid
              then option_map (without itemId) (owned_of uid db)
              else owned_of uid db)
      /\ history db'
         = (history db ++
            [mkHist (match item_ownerId it with
                     | Some owner => string_or owner "system"
                     | None => "system"
                     end)
                    (AdminBurned itemId) (clock env 0)])%list
      /\ serve env' (Bearer admin) (AdminBurn itemId) db'
         = (Replied (Err 404 "Item not found"), db').
Proof.
  intros env env' admin itemId db it Hadm Hid Hit.
  pose proof (find_item_id _ _ _ Hit) as Hiid.
  assert (Hgone : forall its,
             find (has_item_id itemId)
                  (filter (fun x => negb (String.eqb (item_id x) itemId)) its)
             = None).
  { intros its. rewrite find_item_filter_out, String.eqb_refl. reflexivity. }
  unfold_route.
  rewrite Hadm, (truthy_true _ Hid).
  cbn [negb orb]; cbv beta iota. rewrite Hit. cbv beta iota.
  rewrite Hiid.
  destruct (item_ownerId it) as [prev|] eqn:Ho;
    [destruct (truthy prev) eqn:Ht|];
    (eexists; split; [reflexivity|]);
    unfold find_item; project_db; rewrite Hgone;
    (split; [reflexivity|]);
    (split; [intros id Hne; rewrite find_item_filter_out;
             destruct (String.eqb_spec id itemId); [congruence|reflexivity]|]);
    (split; [intros uid; unfold balance_of, find_user; project_db;
             rewrite ?balance_after_owned_update by balance_kept;
             reflexivity|]);
    (split; [intros uid; unfold owned_of, find_user, held_by; project_db;
             rewrite ?find_user_update by id_kept; rewrite ?Ht; cbn [andb];
             try destruct (String.eqb uid prev);
             try destruct (find (has_user_id uid) (users db));
             reflexivity|]);
    split; reflexivity.
Qed.

(** X8 on the item Alice bought. *)
Lemma burn_removes_without_refund_witness :
  exists db',
    serve env0 (Bearer admin0) (AdminBurn "nft_1000") alice_owns
    = (Replied Ok, db')
    /\ find_item "nft_1000" db' = None
    /\ owned_of "u_1001" db' = Some []
    /\ balance_of "u_1001" db' = Some 0.
Proof.
  destruct (burn_removes_without_refund env0 env1 admin0 "nft_1000" alice_owns
              (mkItem "nft_1000" "Rose" 5 5 (ImgSeedOfName "Rose") "Default"
                      3 0 (Some "u_1001") (clock env0 0)))
    as (db' & Hrun & Hgone & _ & Hbal & Hown & _);
    [reflexivity | discriminate | reflexivity |].
  exists db'. split; [exact Hrun|]. split; [exact Hgone|].
  split; [rewrite Hown | rewrite Hbal]; reflexivity.
Defined.

(** ** Item ids while nothing is removed *)

Lemma show_number_inj (a b : Z) : show_number a = show_number b -> a = b.
Proof.
  unfold show_number. intros H.
  assert (Hnn : forall z, Z.to_int z <> Decimal.Pos Decimal.Nil
                          /\ Z.to_int z <> Decimal.Neg Decimal.Nil).
  { intros z. destruct z as [|p|p]; cbn; split; try discriminate;
      intros E; injection E as E;
      exact (DecimalPos.Unsigned.to_uint_nonnil p E). }
  apply DecimalZ.to_int_inj.
  assert (E : Some (Z.to_int a) = Some (Z.to_int b)).
  { rewrite <- (NilZero.isi (Z.to_int a)) by apply Hnn.
    rewrite <- (NilZero.isi (Z.to_int b)) by apply Hnn.
    rewrite H. reflexivity. }
  injection E as E. exact E.
Qed.

Lemma append_inj (s a b : string) : (s ++ a = s ++ b)%string -> a = b.
Proof.
  induction s as [|c s IH]; cbn [String.append]; intros H; [exact H|].
  apply IH. congruence.
Qed.

Lemma issued_id_inj (n m : nat) : issued_id n = issued_id m -> n = m.
Proof.
  unfold issued_id. intros H. apply append_inj, show_number_inj in H. lia.
Qed.

Lemma ids_in_sequence_distinct (db : DB) :
  ids_in_sequence db -> NoDup (map item_id (items db)).
Proof.
  unfold ids_in_sequence. intros ->.
  apply Finite.Injective_map_NoDup; [|apply seq_NoDup].
  intros n m. apply issued_id_inj.
Qed.

Lemma ids_in_sequence_same_ids (db db' : DB) :
  map item_id (items db') = map item_id (items db) ->
  ids_in_sequence db -> ids_in_sequence db'.
Proof.
  unfold ids_in_sequence. intros Hsame Hseq.
  assert (Hlen : List.length (items db') = List.length (items db)).
  { rewrite <- (length_map item_id (items db')), Hsame. apply length_map. }
  rewrite Hsame, Hlen. exact Hseq.
Qed.

Lemma ids_in_sequence_issue (db : DB) (it : Item) :
  item_id it = next_item_id db ->
  ids_in_sequence db ->
  ids_in_sequence (set_items (items db ++ [it]) db).
Proof.
  unfold ids_in_sequence. intros Hid Hseq. cbn [items set_items].
  rewrite map_app, length_app. cbn [List.length map].
  rewrite Nat.add_1_r, seq_S, map_app, <- Hseq. cbn [map Nat.add].
  rewrite Hid. reflexivity.
Qed.

Lemma ids_in_sequence_import env rows :
  forall idx db,
    ids_in_sequence db -> ids_in_sequence (import_rows env idx rows db).
Proof.
  induction rows as [|x rows IH]; intros idx db Hseq; cbn [import_rows].
  - exact Hseq.
  - apply IH. unfold import_row. apply ids_in_sequence_issue; [reflexivity|].
    exact Hseq.
Qed.

Lemma ids_in_sequence_step env t r db :
  removes_an_item r = false ->
  ids_in_sequence db -> ids_in_sequence (snd (serve env t r db)).
Proof.
  intros Hr Hseq.
  destruct r; try discriminate Hr; unfold_route; split_route;
    try exact Hseq;
    try (apply (ids_in_sequence_same_ids db); [|exact Hseq];
         project_db;
         rewrite ?(map_key_update item_id) by id_kept; reflexivity);
    try (apply (ids_in_sequence_issue db); [reflexivity | exact Hseq]);
    try (apply ids_in_sequence_import; exact Hseq).
  reflexivity.
Qed.

(** X9. As long as no item is deleted or burned, item ids never repeat:
    served from a snapshot whose items carry the ids issued for 0, 1, 2, ...
    in order (the empty market is one), any sequence of other requests,
    creations and bulk imports included, leaves such a snapshot, and its
    item ids are pairwise distinct. *)
Theorem ids_distinct_while_nothing_removed :
  forall subs db,
    forallb (fun s => negb (removes_an_item (sub_request s))) subs = true ->
    ids_in_sequence db ->
    ids_in_sequence (snd (serve_all subs db))
    /\ NoDup (map item_id (items (snd (serve_all subs db)))).
Proof.
  intros subs db Hsubs Hseq.
  assert (H : ids_in_sequence (snd (serve_all subs db))).
  { revert db Hseq. induction subs as [|s rest IH]; intros db Hseq.
    - exact Hseq.
    - cbn [forallb] in Hsubs. apply andb_true_iff in Hsubs.
      destruct Hsubs as [Hs Hrest]. apply negb_true_iff in Hs.
      cbn [serve_all]. unfold submit.
      pose proof (ids_in_sequence_step (sub_env s) (sub_token s)
                    (sub_request s) db Hs Hseq) as Hstep.
      destruct (serve (sub_env s) (sub_token s) (sub_request s) db)
        as [out db1].
      cbn [snd] in Hstep. specialize (IH Hrest db1 Hstep).
      destruct (serve_all rest db1) as [outs db2]. exact IH. }
  split; [exact H | apply ids_in_sequence_distinct; exact H].
Qed.

(** X9 on two creations and a bulk import into the empty market. *)
Lemma ids_distinct_while_nothing_removed_witness :
  NoDup (map item_id
           (items (snd (serve_all
                          [create_item env0 "Rose"; create_item env0 "Lily";
                           mkSub env0 (Bearer admin0)
                                 (AdminItemsBulkImport
                                    (Some [mkRow "Iris" (Some 1) None "" ""
                                                 None None None]))]
                          (seeded 0 0))))).
Proof.
  apply ids_distinct_while_nothing_removed; reflexivity.
Defined.

(** ** Bulk import *)

Lemma string_or_nonempty (s d : string) : d <> "" -> string_or s d <> "".
Proof.
  intros Hd. unfold string_or. destruct (truthy s) eqn:E; [|exact Hd].
  apply truthy_nonempty. exact E.
Qed.

Lemma number_or_nonzero (o : option Z) (d : Z) : d <> 0 -> number_or o d <> 0.
Proof.
  intros Hd. unfold number_or. destruct o as [z|]; [|exact Hd].
  destruct (z =? 0) eqn:E; [exact Hd|]. apply Z.eqb_neq. exact E.
Qed.

Lemma number_or_as_default (field : option Z) (d : Z) :
  number_or_default field d (number_or field d).
Proof.
  unfold number_or_default, number_or. split.
  - intros z -> Hz. apply Z.eqb_neq in Hz. rewrite Hz. reflexivity.
  - intros [-> | ->]; reflexivity.
Qed.

Lemma string_or_kept (s d : string) : s <> "" -> string_or s d = s.
Proof. intros Hs. unfold string_or. rewrite (truthy_true _ Hs). reflexivity. Qed.

Lemma import_rows_items env rows :
  forall idx db,
    exists new,
      items (import_rows env idx rows db) = (items db ++ new)%list
      /\ List.length new = List.length rows
      /\ Forall2 imported_from rows new
      /\ Forall import_defaults_applied new.
Proof.
  induction rows as [|x rows IH]; intros idx db; cbn [import_rows].
  - exists []. rewrite app_nil_r. repeat split; constructor.
  - destruct (IH (S idx) (import_row env idx x db))
      as (new & Hitems & Hlen & Hfrom & Hall).
    unfold import_row at 2 in Hitems. cbn [items set_items] in Hitems.
    rewrite <- app_assoc in Hitems. eexists. split; [exact Hitems|].
    split; [cbn [List.length app]; rewrite Hlen; reflexivity|].
    split; (constructor; [|assumption]).
    + unfold imported_from.
      cbn [item_price item_rating item_stars item_level item_name item_id
           item_collection item_ownerId].
      repeat (split; [apply number_or_as_default|]).
      split; [intros Hn; apply string_or_kept; exact Hn|].
      split; [intros ->; reflexivity|].
      split; [intros Hc; apply string_or_kept; exact Hc|].
      split; [intros ->; reflexivity|].
      split.
      * intros o -> Ho. rewrite (truthy_true _ Ho). reflexivity.
      * intros [-> | ->]; reflexivity.
    + unfold import_defaults_applied. cbn.
      split; [apply string_or_nonempty; discriminate|].
      split; [apply number_or_nonzero; discriminate|].
      split; [apply number_or_nonzero; discriminate|].
      split; [apply string_or_nonempty; discriminate|].
      split.
      * destruct (x_ownerId x) as [o|]; [|discriminate].
        destruct (truthy o) eqn:E; [|discriminate].
        intros [= ->]. discriminate E.
      * intros [= H]. revert H. apply string_or_nonempty. discriminate.
Qed.

(** X10. A bulk import by an admin appends one item per row, in the order
    of the rows, after the stored items, which stay as they are, and touches
    nothing else.  Each imported item carries the fields of its row that
    are truthy and the route's default for every other one: price 0, rating
    5, stars 3, level 0, the name ['Item ' + id], the collection
    ['Default'] and no owner; so a row that asks for 0 stars gets 3, and one
    that asks for rating 0 gets 5.  Hence no imported item has an empty
    name, image or collection, a rating or a stars value of 0, or an empty
    owner reference.  An empty array changes nothing, and a body without an
    array is answered 400. *)
Theorem bulk_import_appends_with_defaults :
  forall env admin db,
    is_admin admin = true ->
    (forall rows,
        exists new,
          serve env (Bearer admin) (AdminItemsBulkImport (Some rows)) db
          = (Replied Ok,
             mkDB (users db) (items db ++ new) (payments db) (history db)
                  (notifications db))
          /\ List.length new = List.length rows
          /\ Forall2 imported_from rows new
          /\ Forall import_defaults_applied new)
    /\ serve env (Bearer admin) (AdminItemsBulkImport (Some [])) db
       = (Replied Ok, db)
    /\ serve env (Bearer admin) (AdminItemsBulkImport None) db
       = (Replied (Err 400 "items array required"), db).
Proof.
  intros env admin db Hadm. split; [|split].
  - intros rows. unfold_route. rewrite Hadm.
    destruct (import_rows_items env rows 0%nat db)
      as (new & Hitems & Hlen & Hfrom & Hall).
    destruct (import_rows_frame env rows 0%nat db) as (Hu & Hp & Hh & Hn).
    exists new. split; [|repeat split; assumption]. f_equal.
    destruct (import_rows env 0 rows db) as [us its ps hs ns].
    cbn [users items payments history notifications] in *. congruence.
  - unfold_route. rewrite Hadm. reflexivity.
  - unfold_route. rewrite Hadm. reflexivity.
Qed.

(** X10 on one row that asks for 0 stars and for rating 0: the item stored
    has 3 stars and rating 5. *)
Lemma bulk_import_appends_with_defaults_witness :
  exists it,
    serve env0 (Bearer admin0)
          (AdminItemsBulkImport
             (Some [mkRow "Iris" (Some 7) (Some 0) "" "" (Some 0) None
                          (Some "")]))
          (seeded 0 0)
    = (Replied Ok, mkDB (users (seeded 0 0)) [it] None [] None)
    /\ item_stars it = 3 /\ item_rating it = 5
    /\ item_price it = 7 /\ item_name it = "Iris"
    /\ item_ownerId it = None.
Proof.
  destruct (bulk_import_appends_with_defaults env0 admin0 (seeded 0 0))
    as [Himport _]; [reflexivity|].
  destruct (Himport [mkRow "Iris" (Some 7) (Some 0) "" "" (Some 0) None
                           (Some "")])
    as (new & Hrun & _ & Hfrom & _).
  inversion Hfrom as [|x it rows' new' Hit Hrest]; subst.
  inversion Hrest; subst.
  destruct Hit as (Hprice & Hrating & Hstars & _ & Hname & _ & _ & _ & _ & Howner).
  cbn [x_price x_rating x_stars x_name x_ownerId] in *.
  exists it. split; [exact Hrun|].
  split; [apply (proj2 Hstars); left; reflexivity|].
  split; [apply (proj2 Hrating); left; reflexivity|].
  split; [apply (proj1 Hprice 7); [reflexivity | discriminate]|].
  split; [apply Hname; discriminate|].
  apply Howner. left. reflexivity.
Defined.

(** ** Funds: balance plus held withdrawals *)

Lemma held_app (uid : string) (ps qs : list Payment) :
  held uid (ps ++ qs) = held uid ps + held uid qs.
Proof.
  induction ps as [|p ps IH]; cbn [app held]; [reflexivity|].
  rewrite IH. lia.
Qed.

Lemma holds_for_resolved (uid : string) (s : Status) (a : string)
    (n : option string) (p : Payment) :
  s <> pending -> holds_for uid (resolve s a n p) = false.
Proof.
  intros Hs. unfold holds_for. cbn [pay_status pay_userId pay_kind resolve].
  destruct s; [congruence | | ]; cbn [status_pending];
    rewrite andb_false_r; reflexivity.
Qed.

Lemma held_resolved (uid id : string) (s : Status) (a : string)
    (n : Payment -> option string) (ps : list Payment) (p : Payment) :
  s <> pending ->
  find (has_pay_id id) ps = Some p ->
  held uid (update_first (has_pay_id id) (fun p => resolve s a (n p) p) ps)
  = held uid ps - (if holds_for uid p then pay_amountTon p else 0).
Proof.
  intros Hs. induction ps as [|q ps IH]; cbn [find update_first held];
    [discriminate|].
  destruct (has_pay_id id q).
  - intros [= ->]. cbn [held]. rewrite holds_for_resolved by exact Hs. lia.
  - intros Hp. cbn [held]. rewrite IH by exact Hp. lia.
Qed.

(** X11. On whole-number funds within the range the program's doubles hold
    exactly (no negative balance, filed amounts above zero, balance plus
    held amounts at most 2^53 for every user), holding and refunding
    neither create nor destroy money: for every user, the balance plus the
    amounts of that user's pending withdrawals is the same before and after
    a withdrawal request of a whole amount of magnitude at most 2^53 and
    before and after a reject, whatever their outcome.  Every difference and sum the two routes take
    is then between whole numbers of magnitude at most 2^53 and is exact. *)
Theorem hold_and_refund_conserve_funds :
  forall env t r db uid,
    funds_exact db -> amount_exact r ->
    holds_or_refunds r = true ->
    funds_of uid (snd (serve env t r db)) = funds_of uid db.
Proof.
  intros env t r db uid _ _ Hr.
  destruct r; try discriminate Hr; unfold_route; split_route;
    try reflexivity;
    unfold funds_of, balance_of, find_user; project_db.
  - (* withdrawal request *)
    rewrite find_user_update by id_kept. rewrite held_app.
    cbn [held]. unfold holds_for.
    cbn [pay_userId pay_status pay_kind status_pending pay_amountTon].
    rewrite (String.eqb_sym (caller_id payload) uid).
    destruct (String.eqb uid (caller_id payload));
      destruct (find (has_user_id uid) (users db));
      cbn [option_map andb user_balance set_balance]; try reflexivity;
      f_equal; lia.
  - (* reject of a deposit *)
    match goal with
    | H : find_payment _ _ = Some ?p |- _ =>
        unfold find_payment in H;
        rewrite (held_resolved uid _ rejected _ (fun _ => Some note) _ p)
          by (discriminate || exact H);
        unfold holds_for
    end.
    match goal with H : pay_kind _ = deposit |- _ => rewrite H end.
    rewrite andb_false_r, Z.sub_0_r. reflexivity.
  - (* reject of a withdrawal *)
    match goal with
    | H : find_payment _ _ = Some ?p |- _ =>
        unfold find_payment in H;
        rewrite (held_resolved uid _ rejected _ (fun _ => Some note) _ p)
          by (discriminate || exact H);
        unfold holds_for
    end.
    match goal with H : pay_kind _ = withdraw |- _ => rewrite H end.
    match goal with
    | H : negb (status_pending (pay_status ?p)) = false |- _ =>
        apply negb_false_iff in H; rewrite H
    end.
    rewrite find_user_update by id_kept.
    match goal with
    | |- context [String.eqb (pay_userId ?p) uid] =>
        rewrite (String.eqb_sym (pay_userId p) uid);
        destruct (String.eqb uid (pay_userId p))
    end;
      destruct (find (has_user_id uid) (users db));
      cbn [option_map andb user_balance set_balance]; try reflexivity;
      f_equal; lia.
Qed.

(** X11 on Alice's full withdrawal: 10 in the balance before, 10 held after. *)
Lemma hold_and_refund_conserve_funds_witness :
  funds_of "u_1001"
    (snd (serve env0 (Bearer alice) (WithdrawRequest (Some 10) "EQaddress")
                (seeded 10 0)))
  = Some 10.
Proof.
  rewrite (hold_and_refund_conserve_funds env0 (Bearer alice)
             (WithdrawRequest (Some 10) "EQaddress") (seeded 10 0) "u_1001");
    [reflexivity | | unfold amount_exact, exact_in_double; lia | reflexivity].
  unfold funds_exact, solvent, exact_in_double.
  cbn [seeded users payments_or_empty payments seeded_user user_balance
       user_id held].
  split; [split|];
    repeat (apply Forall_cons; [cbn; lia|]); apply Forall_nil.
Defined.

(** ** Admin balance adjustment *)

Lemma adjust_result env admin userId delta db u :
  is_admin admin = true -> userId <> "" ->
  find_user userId db = Some u ->
  exists db',
    serve env (Bearer admin) (AdminUsersBalance userId (Some delta)) db
    = (Replied Ok, db')
    /\ find_user userId db'
       = Some (set_balance (Z.max 0 (user_balance u + delta)) u)
    /\ (forall other, other <> userId ->
          find_user other db' = find_user other db)
    /\ history db'
       = (history db ++
          [mkHist userId (AdminBalance (0 <=? delta) (Z.abs delta))
                  (clock env 0)])%list.
Proof.
  intros Hadm Hid Hu. unfold_route.
  rewrite Hadm, (truthy_true _ Hid). cbn [negb]; cbv beta iota. rewrite Hu.
  eexists. split; [reflexivity|].
  unfold find_user; project_db. split; [|split; [|reflexivity]].
  - rewrite find_user_update by id_kept. rewrite String.eqb_refl.
    unfold find_user in Hu. rewrite Hu. reflexivity.
  - intros other Hne. rewrite find_user_update by id_kept.
    destruct (String.eqb_spec other userId); [congruence | reflexivity].
Qed.

(** X12. For a whole-number balance that is not negative and a whole
    [delta] whose sum with it is at most 2^53, so that the program's doubles
    are exact: an admin adjustment sets the balance to
    [max(0, balance + delta)] and leaves every other user alone, while the
    history entry records the full size of [delta].  So a credit followed
    by the same debit restores the balance, but a debit larger than the
    balance followed by the same credit does not: the balance ends at
    [delta]. *)
Theorem balance_adjust_floors_at_zero :
  forall env env' admin userId d db u,
    is_admin admin = true -> userId <> "" ->
    find_user userId db = Some u ->
    0 <= user_balance u -> 0 <= d ->
    exact_in_double (user_balance u + d) ->
    (exists db',
        serve env (Bearer admin) (AdminUsersBalance userId (Some (- d))) db
        = (Replied Ok, db')
        /\ balance_of userId db' = Some (Z.max 0 (user_balance u - d))
        /\ (forall other, other <> userId ->
              balance_of other db' = balance_of other db)
        /\ history db'
           = (history db ++
              [mkHist userId (AdminBalance (0 <=? - d) d) (clock env 0)])%list)
    /\ balance_of userId
         (snd (serve_all
                 [mkSub env (Bearer admin)
                        (AdminUsersBalance userId (Some d));
                  mkSub env' (Bearer admin)
                        (AdminUsersBalance userId (Some (- d)))] db))
       = Some (user_balance u)
    /\ (user_balance u < d ->
        balance_of userId
          (snd (serve_all
                  [mkSub env (Bearer admin)
                         (AdminUsersBalance userId (Some (- d)));
                   mkSub env' (Bearer admin)
                         (AdminUsersBalance userId (Some d))] db))
        = Some d).
Proof.
  intros env env' admin userId d db u Hadm Hid Hu HB Hd _.
  assert (Htwo : forall d1 d2,
    balance_of userId
      (snd (serve_all
              [mkSub env (Bearer admin) (AdminUsersBalance userId (Some d1));
               mkSub env' (Bearer admin) (AdminUsersBalance userId (Some d2))]
              db))
    = Some (Z.max 0 (Z.max 0 (user_balance u + d1) + d2))).
  { intros d1 d2.
    destruct (adjust_result env admin userId d1 db u Hadm Hid Hu)
      as (db1 & Hrun1 & Hu1 & _).
    destruct (adjust_result env' admin userId d2 db1 _ Hadm Hid Hu1)
      as (db2 & Hrun2 & Hu2 & _).
    cbn [serve_all]. unfold submit. cbn [sub_env sub_token sub_request].
    rewrite Hrun1, Hrun2. cbn [snd]. unfold balance_of. rewrite Hu2.
    reflexivity. }
  split; [|split].
  - destruct (adjust_result env admin userId (- d) db u Hadm Hid Hu)
      as (db' & Hrun & Hu' & Hothers & Hhist).
    exists db'. split; [exact Hrun|]. split; [|split].
    + unfold balance_of. rewrite Hu'. reflexivity.
    + intros other Hne. unfold balance_of. rewrite (Hothers other Hne).
      reflexivity.
    + rewrite Hhist, Z.abs_opp, Z.abs_eq by exact Hd. reflexivity.
  - rewrite Htwo. f_equal. lia.
  - intros Hover. rewrite Htwo. f_equal. lia.
Qed.

(** X12 on Alice holding 5: a debit of 8 leaves 0. *)
Lemma balance_adjust_floors_at_zero_witness :
  exists db',
    serve env0 (Bearer admin0) (AdminUsersBalance "u_1001" (Some (- 8)))
          (seeded 5 0)
    = (Replied Ok, db')
    /\ balance_of "u_1001" db' = Some 0.
Proof.
  destruct (balance_adjust_floors_at_zero env0 env1 admin0 "u_1001" 8
              (seeded 5 0)
              (seeded_user "u_1001" "Alice" "alice@example.com" "user" 5))
    as [(db' & Hrun & Hbal & _) _];
    [reflexivity | discriminate | reflexivity | cbn; lia | lia
    | unfold exact_in_double; cbn [seeded_user user_balance]; lia |].
  exists db'. split; [exact Hrun | exact Hbal].
Defined.

(** Beyond those bounds the program rounds: on a balance of 0.1 a credit
    of 0.2 followed by a debit of 0.2 leaves more than 0.1, and a credit of
    1 on a balance of 2^53 leaves 2^53. *)
Lemma adjustment_rounds_outside_the_bounds :
  (0.1 <? Doubles.users_balance (Doubles.users_balance 0.1 0.2) (- 0.2))%float
  = true
  /\ Doubles.users_balance 9007199254740992 1 = 9007199254740992%float.
Proof. split; reflexivity. Qed.

(** ** Reading: lists sorted newest first *)

Lemma In_firstn {A : Type} (n : nat) (l : list A) (x : A) :
  In x (firstn n l) -> In x l.
Proof.
  intros H. rewrite <- (firstn_skipn n l). apply in_or_app. left. exact H.
Qed.

Section NewestFirst.
Context {A : Type}.
Variable ts : A -> Z.

Lemma insert_newest_first_perm (x : A) (l : list A) :
  Permutation (insert_newest_first ts x l) (x :: l).
Proof.
  induction l as [|y l IH]; cbn [insert_newest_first]; [reflexivity|].
  destruct (ts x <? ts y); [|reflexivity].
  rewrite IH. apply perm_swap.
Qed.

Lemma sort_newest_first_perm (l : list A) :
  Permutation (sort_newest_first ts l) l.
Proof.
  induction l as [|x l IH]; cbn [sort_newest_first]; [reflexivity|].
  rewrite insert_newest_first_perm, IH. reflexivity.
Qed.

Lemma insert_newest_first_sorted (x : A) (l : list A) :
  newest_first ts l -> newest_first ts (insert_newest_first ts x l).
Proof.
  unfold newest_first.
  induction l as [|y l IH]; cbn [insert_newest_first]; intros Hl.
  - repeat constructor.
  - inversion Hl as [|? ? Hrest Hy]; subst.
    destruct (ts x <? ts y) eqn:E.
    + apply Z.ltb_lt in E. constructor; [apply IH; exact Hrest|].
      apply Forall_forall. intros z Hz.
      apply (Permutation_in _ (insert_newest_first_perm x l)) in Hz.
      destruct Hz as [<-|Hz]; [lia|].
      rewrite Forall_forall in Hy. apply Hy. exact Hz.
    + apply Z.ltb_ge in E. constructor; [exact Hl|].
      constructor; [exact E|].
      rewrite Forall_forall in *. intros z Hz. specialize (Hy z Hz). lia.
Qed.

Lemma sort_newest_first_sorted (l : list A) :
  newest_first ts (sort_newest_first ts l).
Proof.
  induction l as [|x l IH]; cbn [sort_newest_first]; [constructor|].
  apply insert_newest_first_sorted. exact IH.
Qed.

Lemma newest_first_firstn (n : nat) (l : list A) :
  newest_first ts l -> newest_first ts (firstn n l).
Proof.
  unfold newest_first. revert n.
  induction l as [|x l IH]; intros n Hl; [rewrite firstn_nil; constructor|].
  destruct n as [|n]; [constructor|]. cbn [firstn].
  inversion Hl as [|? ? Hrest Hx]; subst. constructor; [apply IH; exact Hrest|].
  rewrite Forall_forall in *. intros z Hz. apply Hx.
  apply (In_firstn n l z). exact Hz.
Qed.

Lemma newest_page_length (n : nat) (l : list A) :
  List.length (firstn n (sort_newest_first ts l))
  = Nat.min n (List.length l).
Proof.
  rewrite length_firstn, (Permutation_length (sort_newest_first_perm l)).
  reflexivity.
Qed.

(** The first [n] of the sorted arrangement of [l]. *)
Lemma newest_page (n : nat) (l : list A) :
  let page := firstn n (sort_newest_first ts l) in
  newest_first ts page
  /\ (List.length page <= n)%nat
  /\ (forall x, In x page -> In x l)
  /\ ((List.length l <= n)%nat -> Permutation page l)
  /\ (forall x y, In x page -> In y l -> ~ In y page -> ts y <= ts x).
Proof.
  cbv zeta. split; [|split; [|split; [|split]]].
  - apply newest_first_firstn, sort_newest_first_sorted.
  - rewrite length_firstn. lia.
  - intros x Hx. apply (Permutation_in _ (sort_newest_first_perm l)).
    apply (In_firstn n _ x). exact Hx.
  - intros Hlen. rewrite firstn_all2; [apply sort_newest_first_perm|].
    rewrite (Permutation_length (sort_newest_first_perm l)). exact Hlen.
  - intros x y Hx Hy Hny.
    pose proof (sort_newest_first_sorted l) as Hs.
    apply (Permutation_in _ (Permutation_sym (sort_newest_first_perm l))) in Hy.
    rewrite <- (firstn_skipn n (sort_newest_first ts l)) in Hy, Hs.
    apply in_app_or in Hy. destruct Hy as [Hy|Hy]; [contradiction|].
    revert Hs Hx Hy. unfold newest_first.
    generalize (firstn n (sort_newest_first ts l)) as a.
    generalize (skipn n (sort_newest_first ts l)) as b.
    intros b a. induction a as [|z a IH]; cbn [app]; intros Hs Hx Hy;
      [contradiction|].
    inversion Hs as [|? ? Hrest Hz]; subst.
    destruct Hx as [->|Hx]; [|apply IH; assumption].
    rewrite Forall_forall in Hz. apply Hz. apply in_or_app. right. exact Hy.
Qed.
End NewestFirst.

(** X13. [GET /api/notifications] and [GET /api/payments/mine] send the
    caller's own records, newest first, 200 at most: each record sent is
    stored under the caller's id, the number sent is the smaller of 200 and
    the number of the caller's records, so that when the caller has at most
    200 they are all sent, each as often as it is stored; and a record left
    out is never newer than one that is sent. *)
Theorem own_pages_newest_first :
  forall c db,
    (exists page,
        notifications_list (Bearer c) db = Sent page
        /\ newest_first notif_ts page
        /\ (List.length page <= 200)%nat
        /\ (forall n, In n page ->
              In n (notifications_or_empty db)
              /\ notif_userId n = caller_id c)
        /\ (forall n m,
              In n page -> In m (notifications_or_empty db) ->
              notif_userId m = caller_id c -> ~ In m page ->
              notif_ts m <= notif_ts n)
        /\ List.length page
           = Nat.min 200
               (List.length
                  (filter (fun n => String.eqb (notif_userId n) (caller_id c))
                          (notifications_or_empty db)))
        /\ ((List.length
               (filter (fun n => String.eqb (notif_userId n) (caller_id c))
                       (notifications_or_empty db)) <= 200)%nat ->
            Permutation page
              (filter (fun n => String.eqb (notif_userId n) (caller_id c))
                      (notifications_or_empty db))))
    /\
    (exists page,
        payments_mine (Bearer c) db = Sent page
        /\ newest_first pay_ts page
        /\ (List.length page <= 200)%nat
        /\ (forall p, In p page ->
              In p (payments_or_empty db) /\ pay_userId p = caller_id c)
        /\ (forall p q,
              In p page -> In q (payments_or_empty db) ->
              pay_userId q = caller_id c -> ~ In q page ->
              pay_ts q <= pay_ts p)
        /\ List.length page
           = Nat.min 200
               (List.length
                  (filter (fun p => String.eqb (pay_userId p) (caller_id c))
                          (payments_or_empty db)))
        /\ ((List.length
               (filter (fun p => String.eqb (pay_userId p) (caller_id c))
                       (payments_or_empty db)) <= 200)%nat ->
            Permutation page
              (filter (fun p => String.eqb (pay_userId p) (caller_id c))
                      (payments_or_empty db)))).
Proof.
  intros c db. split.
  - destruct (newest_page notif_ts 200
                (filter (fun n => String.eqb (notif_userId n) (caller_id c))
                        (notifications_or_empty db)))
      as (Hs & Hlen & Hin & Hall & Hout).
    eexists. split; [reflexivity|]. split; [exact Hs|]. split; [exact Hlen|].
    split; [|split; [|split; [apply newest_page_length | exact Hall]]].
    + intros n Hn. apply Hin, filter_In in Hn. destruct Hn as [Hn E].
      apply String.eqb_eq in E. auto.
    + intros n m Hn Hm Hmine Hnot. apply (Hout n m Hn); [|exact Hnot].
      apply filter_In. split; [exact Hm|]. apply String.eqb_eq. exact Hmine.
  - destruct (newest_page pay_ts 200
                (filter (fun p => String.eqb (pay_userId p) (caller_id c))
                        (payments_or_empty db)))
      as (Hs & Hlen & Hin & Hall & Hout).
    eexists. split; [reflexivity|]. split; [exact Hs|]. split; [exact Hlen|].
    split; [|split; [|split; [apply newest_page_length | exact Hall]]].
    + intros p Hp. apply Hin, filter_In in Hp. destruct Hp as [Hp E].
      apply String.eqb_eq in E. auto.
    + intros p q Hp Hq Hmine Hnot. apply (Hout p q Hp); [|exact Hnot].
      apply filter_In. split; [exact Hq|]. apply String.eqb_eq. exact Hmine.
Qed.

(** X14. [GET /api/admin/payments] answers 403 to a caller without the admin
    role.  To an admin it sends at most 500 records, newest first; with a
    [status] parameter every record sent has that status, and a parameter
    that names no status ("done", say) yields the empty list. *)
Theorem admin_payments_filters_by_status :
  forall c status db,
    (is_admin c = false ->
     admin_payments (Bearer c) status db = Refused 403 "Admin only")
    /\
    (is_admin c = true ->
     exists page,
       admin_payments (Bearer c) status db = Sent page
       /\ newest_first pay_ts page
       /\ (List.length page <= 500)%nat
       /\ (forall p, In p page -> In p (payments_or_empty db))
       /\ (status <> "" ->
           forall p, In p page -> status_name (pay_status p) = status)
       /\ (status <> "" -> status <> "pending" -> status <> "approved" ->
           status <> "rejected" -> page = [])).
Proof.
  intros c status db. unfold admin_payments, fetch_auth, fetch_adminOnly.
  split; intros Hadm; rewrite Hadm; [reflexivity|]. cbv zeta.
  eexists. split; [reflexivity|].
  match goal with
  | |- newest_first _ (firstn _ (sort_newest_first _ ?l)) /\ _ =>
      destruct (newest_page pay_ts 500 l) as (Hs & Hlen & Hin & _)
  end.
  split; [exact Hs|]. split; [exact Hlen|]. split; [|split].
  - intros p Hp. apply Hin in Hp. destruct (truthy status); [|exact Hp].
    apply filter_In in Hp. apply Hp.
  - intros Hst p Hp. apply Hin in Hp.
    rewrite (truthy_true _ Hst) in Hp. apply filter_In in Hp.
    apply String.eqb_eq. apply Hp.
  - intros Hst Hp Ha Hr. rewrite (truthy_true _ Hst) in *.
    match goal with
    | |- firstn _ (sort_newest_first _ ?l) = [] =>
        assert (E : l = [])
    end.
    { match goal with |- ?l = [] => destruct l as [|p rest] eqn:El end;
        [reflexivity|].
      assert (Hin' : In p (p :: rest)) by (left; reflexivity).
      rewrite <- El in Hin'. apply filter_In in Hin'. destruct Hin' as [_ E].
      apply String.eqb_eq in E. destruct (pay_status p); cbn in E; congruence. }
    rewrite E. reflexivity.
Qed.

(** X14 for the admin and a status that does not exist. *)
Lemma admin_payments_filters_by_status_witness :
  admin_payments (Bearer admin0) "done" after_reject = Sent [].
Proof.
  destruct (admin_payments_filters_by_status admin0 "done" after_reject)
    as [_ Hadmin].
  destruct Hadmin as (page & Hrun & _ & _ & _ & _ & Hnone); [reflexivity|].
  rewrite Hrun. f_equal. apply Hnone; discriminate.
Defined.

(** ** Reading: a user's history *)

Lemma newest_hundred {A : Type} (l : list A) :
  rev (last_n 100 l) = firstn 100 (rev l).
Proof. unfold last_n. symmetry. apply firstn_rev. Qed.

(** X15. [GET /api/me/history] sends the caller's entries in reverse order
    of writing, the 100 latest at most.  An entry written next for the
    caller comes first in the next answer and pushes the oldest of 100 out;
    an entry written for someone else leaves the answer as it is. *)
Theorem me_history_latest_first :
  forall c db,
    exists page,
      me_history (Bearer c) db = Sent page
      /\ (List.length page <= 100)%nat
      /\ (forall h, In h page ->
            In h (history db) /\ hist_userId h = caller_id c)
      /\ (forall e,
            me_history (Bearer c) (set_history (history db ++ [e]) db)
            = Sent (if String.eqb (hist_userId e) (caller_id c)
                    then e :: firstn 99 page
                    else page)).
Proof.
  intros c db. unfold me_history, fetch_auth.
  eexists. split; [reflexivity|]. rewrite newest_hundred.
  split; [rewrite length_firstn; lia|]. split.
  - intros h Hh. apply In_firstn, in_rev, filter_In in Hh.
    destruct Hh as [Hh E]. apply String.eqb_eq in E. auto.
  - intros e. cbn [history set_history]. rewrite newest_hundred.
    rewrite filter_app. cbn [filter].
    destruct (String.eqb (hist_userId e) (caller_id c)).
    + rewrite rev_app_distr, firstn_firstn. cbn [rev app].
      change 100%nat with (S 99) at 1. rewrite firstn_cons. reflexivity.
    + rewrite app_nil_r. reflexivity.
Qed.

(** ** Reading: the admin's history *)

(** X16. [GET /api/admin/history] sends entries newest first.  With no
    [limit], or with [limit] 0, at most 200 are sent; with a positive
    [limit], at most that many and never more than 1000.  A negative
    [limit] is passed on to [slice] as an end counted from the back: all
    entries but the [-limit] oldest are sent, however many they are. *)
Theorem admin_history_limit :
  forall admin userId limit db,
    is_admin admin = true ->
    exists page all,
      admin_history (Bearer admin) userId limit db = Sent page
      /\ newest_first hist_ts all
      /\ Permutation all
           (if truthy userId
            then filter (fun h => String.eqb (hist_userId h) userId)
                        (history db)
            else history db)
      /\ (limit = None \/ limit = Some 0 -> page = firstn 200 all)
      /\ (forall n, limit = Some n -> 0 < n ->
            page = firstn (Z.to_nat (Z.min 1000 n)) all
            /\ (List.length page <= 1000)%nat)
      /\ (forall n, limit = Some n -> n < 0 ->
            page = firstn (List.length all - Z.to_nat (- n)) all).
Proof.
  intros admin userId limit db Hadm.
  unfold admin_history, fetch_auth, fetch_adminOnly. rewrite Hadm. cbv zeta.
  eexists. eexists. split; [reflexivity|].
  split; [apply sort_newest_first_sorted|].
  split; [apply sort_newest_first_perm|].
  split; [|split].
  - intros [-> | ->]; reflexivity.
  - intros n -> Hn. unfold number_or, slice_to.
    replace (n =? 0) with false by (symmetry; apply Z.eqb_neq; lia).
    replace (Z.min 1000 n <? 0) with false by (symmetry; apply Z.ltb_ge; lia).
    split; [reflexivity|]. rewrite length_firstn. lia.
  - intros n -> Hn. unfold number_or, slice_to.
    replace (n =? 0) with false by (symmetry; apply Z.eqb_neq; lia).
    replace (Z.min 1000 n) with n by lia.
    replace (n <? 0) with true by (symmetry; apply Z.ltb_lt; lia).
    reflexivity.
Qed.

(** X16 for a negative limit on a history of three entries. *)
Lemma admin_history_limit_witness :
  exists page,
    admin_history (Bearer admin0) "" (Some (-1))
      (snd (serve_all
              [mkSub env0 (Bearer admin0) (AdminUsersBalance "u_1001" (Some 1));
               mkSub env0 (Bearer admin0) (AdminUsersBalance "u_1001" (Some 2));
               mkSub env0 (Bearer admin0) (AdminUsersBalance "u_1001" (Some 3))]
              (seeded 0 0)))
    = Sent page
    /\ List.length page = 2%nat.
Proof.
  destruct (admin_history_limit admin0 "" (Some (-1))
              (snd (serve_all
                      [mkSub env0 (Bearer admin0)
                             (AdminUsersBalance "u_1001" (Some 1));
                       mkSub env0 (Bearer admin0)
                             (AdminUsersBalance "u_1001" (Some 2));
                       mkSub env0 (Bearer admin0)
                             (AdminUsersBalance "u_1001" (Some 3))]
                      (seeded 0 0))))
    as (page & all & Hrun & _ & Hperm & _ & _ & Hneg); [reflexivity|].
  exists page. split; [exact Hrun|].
  rewrite (Hneg (-1) eq_refl ltac:(lia)).
  rewrite length_firstn, (Permutation_length Hperm). reflexivity.
Defined.

(** ** Reading: what the caller owns *)

(** X17. In a snapshot whose ids are distinct and whose two sides of
    ownership agree, [GET /api/me/owned] sends exactly the items the
    caller's record lists: an id is the id of an item sent if and only if it
    is in the caller's owned list. *)
Theorem me_owned_matches_owned_list :
  forall c db u,
    well_formed db ->
    find_user (caller_id c) db = Some u ->
    exists page,
      me_owned (Bearer c) db = Sent page
      /\ (forall it, In it page ->
            In it (items db) /\ item_ownerId it = Some (caller_id c))
      /\ (forall id, In id (map item_id page) <-> In id (user_owned u)).
Proof.
  intros c db u [Hids [Ha Hb]] Hu. unfold me_owned, fetch_auth.
  eexists. split; [reflexivity|].
  assert (Hfilter : forall it,
    In it (filter (fun it => option_string_eqb (item_ownerId it) (caller_id c))
                  (items db))
    <-> In it (items db) /\ item_ownerId it = Some (caller_id c)).
  { intros it. rewrite filter_In, option_string_eqb_eq. reflexivity. }
  split; [intros it; apply Hfilter|].
  pose proof (find_user_id _ _ _ Hu) as Huid.
  assert (Hin : In u (users db))
    by (apply (find_by_key_in user_id) in Hu; apply Hu).
  assert (Hne : caller_id c <> "").
  { intros E. rewrite E in Hu. rewrite (no_user_without_id db Hids) in Hu.
    discriminate. }
  intros id. rewrite in_map_iff. split.
  - intros (it & <- & Hit). apply Hfilter in Hit. destruct Hit as [Hit Ho].
    destruct (Ha it (caller_id c) Hit Ho) as (u' & Hu' & Hid' & Hl);
      [apply truthy_nonempty; exact Hne|].
    assert (u' = u).
    { destruct Hids as (Hnd & _ & _).
      pose proof (find_by_key_unique user_id _ u' Hnd Hu') as E.
      rewrite Hid' in E. unfold find_user, has_user_id in Hu. congruence. }
    subst u'. exact Hl.
  - intros Hl. destruct (Hb u id Hin Hl) as (it & Hit & Hid & Ho).
    exists it. split; [exact Hid|]. apply Hfilter. split; [exact Hit|].
    rewrite Ho, Huid. reflexivity.
Qed.

(** X17 on the market after Alice's purchase. *)
Lemma me_owned_matches_owned_list_witness :
  exists page,
    me_owned (Bearer alice) alice_owns = Sent page
    /\ (In "nft_1000" (map item_id page) <-> In "nft_1000" ["nft_1000"]).
Proof.
  destruct (me_owned_matches_owned_list alice alice_owns
              (mkUser "u_1001" "Alice" "alice@example.com" "$2a$10$hash"
                      "user" 0 ["nft_1000"] 0 None))
    as (page & Hrun & _ & Hids).
  - apply well_formedb_sound. reflexivity.
  - reflexivity.
  - exists page. split; [exact Hrun | apply Hids].
Defined.

(** ** Registration and login *)

Lemma find_email_new_user (lib : Lib) (email email' : string) (db : DB)
    (u : User) :
  find_email lib email db = None ->
  user_email u = email ->
  toLowerCase lib email' = toLowerCase lib email ->
  find_email lib email' (set_users (users db ++ [u]) db) = Some u.
Proof.
  intros Hnone Hu Hsame. unfold find_email in *. cbn [users set_users].
  rewrite find_app_last, Hsame, Hnone, Hu, String.eqb_refl. reflexivity.
Qed.

(** X18. A registration that is accepted appends one user and touches
    nothing else; the new user has the role ['user'], a balance of 0, no
    items and no gifts.  From then on a registration under the same email,
    in any letter case, is refused and changes nothing, and a login with
    that email and the registered password is accepted whenever bcrypt
    accepts the password against the hash it made of it. *)
Theorem register_then_login :
  forall lib env name email password db,
    name <> "" -> email <> "" -> password <> "" ->
    find_email lib email db = None ->
    exists u,
      auth_register lib env name email password db
      = (Replied Ok, set_users (users db ++ [u]) db)
      /\ user_email u = email /\ user_role u = "user"
      /\ user_balance u = 0 /\ user_owned u = [] /\ user_gifts u = 0
      /\ (forall env' name' email' password',
            toLowerCase lib email' = toLowerCase lib email ->
            is_rejection
              (fst (auth_register lib env' name' email' password'
                      (set_users (users db ++ [u]) db))) = true
            /\ snd (auth_register lib env' name' email' password'
                      (set_users (users db ++ [u]) db))
               = set_users (users db ++ [u]) db)
      /\ (bcrypt_compare lib password (bcrypt_hash lib password) = true ->
          forall email',
            toLowerCase lib email' = toLowerCase lib email ->
            auth_login lib (Some email') password
                       (set_users (users db ++ [u]) db)
            = Replied Ok).
Proof.
  intros lib env name email password db Hn He Hp Hfree.
  pose (u := mkUser (nanoid env 0) name email (bcrypt_hash lib password)
                    "user" 0 [] 0 None).
  exists u. split.
  - unfold auth_register.
    rewrite (truthy_true _ Hn), (truthy_true _ He), (truthy_true _ Hp), Hfree.
    reflexivity.
  - repeat (split; [reflexivity|]). split.
    + intros env' name' email' password' Hsame. unfold auth_register.
      destruct (negb (truthy name') || negb (truthy email')
                || negb (truthy password')); [split; reflexivity|].
      rewrite (find_email_new_user lib email email' db u Hfree eq_refl Hsame).
      split; reflexivity.
    + intros Hlaw email' Hsame. unfold auth_login. cbn [String_of].
      rewrite (find_email_new_user lib email email' db u Hfree eq_refl Hsame).
      unfold u. cbn [user_pass]. rewrite Hlaw. reflexivity.
Qed.

(** X18 on a first registration next to the seeded users. *)
Lemma register_then_login_witness :
  exists u,
    auth_register plain_lib env0 "Carol" "carol@example.com" "carol123"
                  (seeded 0 0)
    = (Replied Ok, set_users (users (seeded 0 0) ++ [u]) (seeded 0 0))
    /\ user_role u = "user".
Proof.
  destruct (register_then_login plain_lib env0 "Carol" "carol@example.com"
              "carol123" (seeded 0 0))
    as (u & Hrun & _ & Hrole & _);
    [discriminate | discriminate | discriminate | reflexivity |].
  exists u. split; [exact Hrun | exact Hrole].
Defined.

(** ** Who the users are *)

Lemma roster_step env t r db :
  map user_identity (users (snd (serve env t r db)))
  = map user_identity (users db).
Proof.
  destruct r; unfold_route; split_route; project_db;
    rewrite ?map_update_first_kept
      by (intros ?; try destruct (includes _ _); reflexivity);
    try reflexivity.
  rewrite (proj1 (import_rows_frame env _ 0%nat db)). reflexivity.
Qed.

(** X19. No request served through [transact] adds, removes or reorders
    users, or changes a user's id, name, email, password hash or role;
    however many such requests are served, the users are the same. *)
Theorem transact_routes_keep_the_users :
  forall subs db,
    map user_identity (users (snd (serve_all subs db)))
    = map user_identity (users db).
Proof.
  intros subs. induction subs as [|s rest IH]; intros db; [reflexivity|].
  cbn [serve_all]. unfold submit.
  pose proof (roster_step (sub_env s) (sub_token s) (sub_request s) db) as H.
  destruct (serve (sub_env s) (sub_token s) (sub_request s) db) as [out db1].
  cbn [snd] in H. specialize (IH db1).
  destruct (serve_all rest db1) as [outs db2]. cbn [snd] in *.
  rewrite IH. exact H.
Qed.

Lemma emails_of_identities (lib : Lib) (us : list User) :
  map (fun u => toLowerCase lib (user_email u)) us
  = map (fun i => toLowerCase lib (snd (fst (fst i)))) (map user_identity us).
Proof. rewrite map_map. reflexivity. Qed.

Lemma emails_distinct_new_user (lib : Lib) (email : string) (db : DB)
    (u : User) :
  find_email lib email db = None -> user_email u = email ->
  emails_distinct lib db ->
  emails_distinct lib (set_users (users db ++ [u]) db).
Proof.
  unfold emails_distinct, find_email. intros Hfree Hu Hnd.
  cbn [users set_users]. rewrite map_app. cbn [map].
  apply NoDup_app; [exact Hnd | repeat constructor; auto |].
  intros e He [<-|[]]. apply in_map_iff in He.
  destruct He as (v & Hv & Hin). rewrite Hu in Hv.
  apply (find_none _ _ Hfree) in Hin. apply String.eqb_neq in Hin.
  congruence.
Qed.

(** X20. Emails stay unique, letter case aside: when no two users share an
    email before, none do after a registration, after a user creation by an
    admin, or after any request served through [transact], whatever the
    outcome. *)
Theorem emails_stay_distinct :
  forall lib db,
    emails_distinct lib db ->
    (forall env name email password,
        emails_distinct lib
          (snd (auth_register lib env name email password db)))
    /\ (forall env t name email password balance role,
          emails_distinct lib
            (snd (admin_users_create lib env t name email password balance
                                     role db)))
    /\ (forall env t r, emails_distinct lib (snd (serve env t r db))).
Proof.
  intros lib db Hnd. split; [|split].
  - intros env name email password. unfold auth_register.
    destruct (negb (truthy name) || negb (truthy email)
              || negb (truthy password)); [exact Hnd|].
    destruct (find_email lib email db) eqn:E; [exact Hnd|].
    apply (emails_distinct_new_user lib email); [exact E | reflexivity | exact Hnd].
  - intros env t name email password balance role. unfold admin_users_create.
    destruct t as [| |admin]; [exact Hnd | exact Hnd |].
    destruct (negb (is_admin admin)); [exact Hnd|].
    destruct (negb (truthy name) || negb (truthy email)
              || negb (truthy password)); [exact Hnd|].
    destruct (find_email lib email db) eqn:E; [exact Hnd|].
    apply (emails_distinct_new_user lib email); [exact E | reflexivity | exact Hnd].
  - intros env t r. unfold emails_distinct in *.
    rewrite emails_of_identities, roster_step, <- emails_of_identities.
    exact Hnd.
Qed.

(** X20 on a registration under Alice's email written with capitals, next
    to the seeded users: it is answered 409 and the emails stay distinct. *)
Lemma emails_stay_distinct_witness :
  fst (auth_register plain_lib env0 "Carol" "Alice@Example.COM" "carol123"
                     (seeded 0 0))
  = Replied (Err 409 "Email exists")
  /\ emails_distinct plain_lib
       (snd (auth_register plain_lib env0 "Carol" "Alice@Example.COM"
                           "carol123" (seeded 0 0))).
Proof.
  split; [reflexivity|].
  apply (emails_stay_distinct plain_lib (seeded 0 0)).
  unfold emails_distinct. cbn.
  repeat (constructor; [cbn; intuition discriminate|]). constructor.
Defined.

(** ** Seeding *)

(** X21. [seed()] fills an empty user list with the admin, Alice and Bob,
    each with balance 0 and nothing owned, and leaves a document that has
    users exactly as it is; it never touches items, payments, history or
    notifications.  Run again, with whatever hashes, it changes nothing. *)
Theorem seed_only_fills_empty :
  forall n e p1 p2 p3 db,
    (users db <> [] -> seed n e p1 p2 p3 db = db)
    /\ (users db = [] ->
        map user_id (users (seed n e p1 p2 p3 db))
        = ["u_admin"; "u_1001"; "u_1002"]
        /\ map user_role (users (seed n e p1 p2 p3 db))
           = ["admin"; "user"; "user"]
        /\ Forall (fun u => user_balance u = 0 /\ user_owned u = [])
                  (users (seed n e p1 p2 p3 db)))
    /\ items (seed n e p1 p2 p3 db) = items db
    /\ payments (seed n e p1 p2 p3 db) = payments db
    /\ history (seed n e p1 p2 p3 db) = history db
    /\ notifications (seed n e p1 p2 p3 db) = notifications db
    /\ (forall n' e' q1 q2 q3,
          seed n' e' q1 q2 q3 (seed n e p1 p2 p3 db) = seed n e p1 p2 p3 db).
Proof.
  intros n e p1 p2 p3 db. unfold seed.
  destruct (users db) as [|u us] eqn:E; cbn [List.length Nat.eqb].
  - split; [congruence|]. split.
    + intros _. cbn. repeat split. repeat constructor.
    + repeat (split; [reflexivity|]). intros. reflexivity.
  - split; [reflexivity|]. split; [discriminate|].
    repeat (split; [reflexivity|]). intros. rewrite E. reflexivity.
Qed.

(** ** Requests in flight: in turn, and overlapping *)

Lemma resume_after (done : list Task) (t : Task) (rest : list Task)
    (file : DB) :
  resume (List.length done) (done ++ t :: rest)%list file
  = ((done ++ fst (step_task t file) :: rest)%list, snd (step_task t file)).
Proof.
  induction done as [|d done IH]; cbn [List.length app resume].
  - destruct (step_task t file). reflexivity.
  - rewrite IH. reflexivity.
Qed.

Lemma run_schedule_app (a b : list nat) (ts : list Task) (file : DB) :
  run_schedule (a ++ b)%list ts file
  = run_schedule b (fst (run_schedule a ts file))
                   (snd (run_schedule a ts file)).
Proof.
  revert ts file. induction a as [|i a IH]; intros ts file;
    cbn [app run_schedule]; [reflexivity|].
  destruct (resume i ts file) as [ts' file']. apply IH.
Qed.

Lemma three_steps_after (done : list Task) (h : Handler) (rest : list Task)
    (file : DB) :
  run_schedule [List.length done; List.length done; List.length done]
               (done ++ Arrived h :: rest)%list file
  = ((done ++ Finished (fst (perform h file)) :: rest)%list,
     snd (perform h file)).
Proof.
  cbn [run_schedule]. rewrite resume_after.
  destruct h as [r|m]; cbn [step_task fst snd perform].
  - rewrite resume_after. cbn [step_task fst snd].
    rewrite resume_after. reflexivity.
  - rewrite resume_after. cbn [step_task]. unfold transact.
    destruct (m (mkStore file file)) as [[r|r|e] s]; cbn [fst snd];
      rewrite resume_after; reflexivity.
Qed.

Lemma in_turn_after (hs : list Handler) :
  forall (done : list Task) (file : DB),
    run_schedule (in_turn (List.length done) (List.length hs))
                 (done ++ map Arrived hs)%list file
    = ((done ++ map Finished (fst (perform_all hs file)))%list,
       snd (perform_all hs file)).
Proof.
  induction hs as [|h hs IH]; intros done file.
  - reflexivity.
  - cbn [List.length map perform_all]. unfold in_turn. cbn [seq flat_map].
    rewrite run_schedule_app, three_steps_after. cbn [fst snd].
    destruct (perform h file) as [out file1]. cbn [fst snd].
    specialize (IH (done ++ [Finished out])%list file1).
    rewrite <- !app_assoc in IH. cbn [app] in IH.
    rewrite length_app in IH. cbn [List.length] in IH.
    rewrite Nat.add_1_r in IH. unfold in_turn in IH. rewrite IH.
    destruct (perform_all hs file1) as [outs file2]. reflexivity.
Qed.

(** X22. Requests whose steps do not interleave behave as if [transact]
    had a lock: when each of any number of requests in flight runs its
    three steps before the next one starts, every request gets the answer,
    and the stored document ends as, serving them one after the other
    gives. *)
Theorem in_turn_is_serial :
  forall hs file,
    run_schedule (in_turn 0 (List.length hs)) (map Arrived hs) file
    = (map Finished (fst (perform_all hs file)), snd (perform_all hs file)).
Proof.
  intros hs file. apply (in_turn_after hs [] file).
Qed.

Lemma route_disk_blind env t r m :
  route env t r = Transact m -> disk_blind m.
Proof.
  intros H.
  destruct r; unfold_route; split_paths H;
    injection H as <-; intros db d d'; cbv beta iota;
    split_route; repeat split; try reflexivity; intros; discriminate.
Qed.

Lemma overlap_of_blind (m1 m2 : Work Reply) (file : DB) :
  disk_blind m1 -> disk_blind m2 ->
  fst (run_schedule [0; 1; 0; 1; 0; 1]%nat
                    [Arrived (Transact m1); Arrived (Transact m2)] file)
  = [Finished (fst (transact m1 file)); Finished (fst (transact m2 file))]
  /\ snd (run_schedule [0; 1; 0; 1; 0; 1]%nat
                       [Arrived (Transact m1); Arrived (Transact m2)] file)
     = match fst (transact m2 file) with
       | Replied _ => snd (transact m2 file)
       | Uncaught _ => snd (transact m1 file)
       end.
Proof.
  intros H1 H2. unfold transact. simpl.
  destruct (H1 file file file) as (_ & _ & Hthrow1).
  destruct (m1 (mkStore file file)) as [[r1|r1|e1] s1]; simpl in *;
    (destruct (H2 file (disk s1) file) as (Hres2 & Hmem2 & Hthrow2);
     destruct (m2 (mkStore file (disk s1))) as [res2 s2];
     destruct (m2 (mkStore file file)) as [res2' s2']; simpl in *;
     subst res2'; destruct res2 as [r2|r2|e2]; simpl;
     rewrite <- ?Hmem2; try (split; reflexivity)).
  split; [reflexivity|].
  apply (Hthrow2 e2 eq_refl).
Qed.

(** X23. Two requests that overlap completely, both loading before either
    runs, are each answered as if alone on the document they loaded, and
    the document stored in the end is the one the second request leaves
    when served alone: whatever the first request changed is lost, although
    it was answered.  When the second request raises, the first one's
    document is stored. *)
Theorem overlap_keeps_last_writer :
  forall env1 t1 r1 env2 t2 r2 m1 m2 file,
    route env1 t1 r1 = Transact m1 ->
    route env2 t2 r2 = Transact m2 ->
    fst (run_schedule [0; 1; 0; 1; 0; 1]%nat
                      [Arrived (route env1 t1 r1); Arrived (route env2 t2 r2)]
                      file)
    = [Finished (fst (serve env1 t1 r1 file));
       Finished (fst (serve env2 t2 r2 file))]
    /\ snd (run_schedule [0; 1; 0; 1; 0; 1]%nat
                         [Arrived (route env1 t1 r1);
                          Arrived (route env2 t2 r2)] file)
       = match fst (serve env2 t2 r2 file) with
         | Replied _ => snd (serve env2 t2 r2 file)
         | Uncaught _ => snd (serve env1 t1 r1 file)
         end.
Proof.
  intros env1 t1 r1 env2 t2 r2 m1 m2 file H1 H2.
  unfold serve. rewrite H1, H2. cbn [perform].
  apply overlap_of_blind; eapply route_disk_blind; eassumption.
Qed.

(** X23 on Alice's two full withdrawals: the stored document is the one the
    second request alone leaves. *)
Lemma overlap_keeps_last_writer_witness :
  snd (run_schedule [0; 1; 0; 1; 0; 1]%nat two_full_withdrawals (seeded 10 0))
  = snd (serve env1 (Bearer alice) (WithdrawRequest (Some 10) "EQaddress")
               (seeded 10 0)).
Proof.
  edestruct (overlap_keeps_last_writer
               env0 (Bearer alice) (WithdrawRequest (Some 10) "EQaddress")
               env1 (Bearer alice) (WithdrawRequest (Some 10) "EQaddress"))
    as [_ Hfile]; [reflexivity | reflexivity |].
  unfold two_full_withdrawals, full_withdrawal. rewrite Hfile. reflexivity.
Defined.

(** ** The ban flag is written, never read *)

Lemma DB_ext (a b : DB) :
  users a = users b -> items a = items b -> payments a = payments b ->
  history a = history b -> notifications a = notifications b -> a = b.
Proof. destruct a, b. cbn. intros; subst; reflexivity. Qed.

Lemma find_user_lift (id : string) (db : DB) :
  find_user id (lift_bans db) = option_map lift_ban (find_user id db).
Proof.
  unfold find_user, lift_bans. cbn [users set_users].
  induction (users db) as [|u us IH]; cbn [map find]; [reflexivity|].
  unfold has_user_id at 1 3. cbn [user_id lift_ban].
  destruct (String.eqb (user_id u) id); [reflexivity | exact IH].
Qed.

Lemma find_item_lift (id : string) (db : DB) :
  find_item id (lift_bans db) = find_item id db.
Proof. reflexivity. Qed.

Lemma find_payment_lift (id : string) (db : DB) :
  find_payment id (lift_bans db) = find_payment id db.
Proof. reflexivity. Qed.

Lemma update_first_lifted (p : User -> bool) (f : User -> User)
    (l : list User) :
  (forall x, p (lift_ban x) = p x) ->
  (forall x, f (lift_ban x) = lift_ban (f x)) ->
  update_first p f (map lift_ban l) = map lift_ban (update_first p f l).
Proof.
  intros Hp Hf. induction l as [|x l IH]; cbn [map update_first]; [reflexivity|].
  rewrite Hp. destruct (p x); cbn [map]; [rewrite Hf | rewrite IH]; reflexivity.
Qed.

Lemma map_lift_update (p : User -> bool) (f : User -> User) (l : list User) :
  (forall x, p (lift_ban x) = p x) ->
  (forall x, lift_ban (f (lift_ban x)) = lift_ban (f x)) ->
  map lift_ban (update_first p f (map lift_ban l))
  = map lift_ban (update_first p f l).
Proof.
  intros Hp Hf. induction l as [|x l IH]; cbn [map update_first]; [reflexivity|].
  rewrite Hp. destruct (p x); cbn [map].
  - rewrite Hf, map_map. reflexivity.
  - rewrite IH. reflexivity.
Qed.

Lemma map_lift_idem (l : list User) :
  map lift_ban (map lift_ban l) = map lift_ban l.
Proof. rewrite map_map. reflexivity. Qed.

Lemma import_rows_lift env rows :
  forall idx db,
    import_rows env idx rows (lift_bans db)
    = lift_bans (import_rows env idx rows db).
Proof.
  induction rows as [|x rows IH]; intros idx db; cbn [import_rows];
    [reflexivity|].
  rewrite <- IH. reflexivity.
Qed.

Ltac lifted_side :=
  intros ?; try destruct (includes _ _); reflexivity.

Ltac split_lifted db :=
  repeat first
    [ rewrite find_user_lift
    | rewrite find_item_lift
    | rewrite find_payment_lift
    | progress cbn [option_map lift_ban user_balance user_id user_owned
                    user_gifts user_role user_email user_name user_pass]
    | match goal with
      | H : find_user ?i db = _ |- context [find_user ?i db] => rewrite H
      | H : ?x = _ |- context [match ?x with _ => _ end] => rewrite H
      end; cbv beta iota
    | match goal with
      | |- context [option_map lift_ban (find_user ?i db)] =>
          destruct (find_user i db) eqn:?
      end; cbn [option_map]; cbv beta iota
    | match goal with
      | |- context [match ?x with _ => _ end] =>
          lazymatch x with
          | context [match _ with _ => _ end] => fail
          | _ => destruct x eqn:?; cbv beta iota
          end
      end ];
  cbn [snd fst].

Lemma served_without_bans env t r db :
  fst (serve env t r (lift_bans db)) = fst (serve env t r db)
  /\ lift_bans (snd (serve env t r (lift_bans db)))
     = lift_bans (snd (serve env t r db)).
Proof.
  destruct r; unfold_route; split_lifted db;
    (split; [reflexivity|]);
    try reflexivity;
    try (apply DB_ext; unfold lift_bans; project_db; try reflexivity;
         rewrite ?update_first_lifted by lifted_side;
         rewrite ?map_lift_idem; try reflexivity;
         apply map_lift_update; lifted_side).
  rewrite import_rows_lift.
  apply DB_ext; unfold lift_bans; cbn [users items payments history
    notifications set_users]; try reflexivity.
  apply map_lift_idem.
Qed.

Lemma login_without_bans lib email password db :
  auth_login lib email password (lift_bans db)
  = auth_login lib email password db.
Proof.
  unfold auth_login, find_email, lift_bans. cbn [users set_users].
  induction (users db) as [|u us IH]; cbn [map find]; [reflexivity|].
  cbn [user_email lift_ban].
  destruct (String.eqb _ _); [reflexivity | exact IH].
Qed.

(** X24. The [banned] key that [POST /api/admin/users/ban] writes is checked
    neither by a route served through [transact] nor by the login: with
    every ban taken off the stored document, each such request gets the same
    reply and leaves the same document up to the ban keys, and a login gets
    the same reply.  A banned user signs in, pays, withdraws and upgrades as
    before. *)
Theorem ban_flag_is_never_read :
  forall lib env t r email password db,
    fst (serve env t r (lift_bans db)) = fst (serve env t r db)
    /\ lift_bans (snd (serve env t r (lift_bans db)))
       = lift_bans (snd (serve env t r db))
    /\ auth_login lib email password (lift_bans db)
       = auth_login lib email password db.
Proof.
  intros lib env t r email password db.
  destruct (served_without_bans env t r db) as [Hreply Hfile].
  repeat split; [exact Hreply | exact Hfile | apply login_without_bans].
Qed.

(** ** The profile *)

Lemma find_by_identity (id : string) :
  forall l l' : list User,
    map user_identity l = map user_identity l' ->
    forall u, find (has_user_id id) l = Some u ->
    exists u', find (has_user_id id) l' = Some u'
               /\ user_identity u' = user_identity u.
Proof.
  induction l as [|a l IH]; intros [|b l'] Hmap u Hfind;
    try discriminate Hmap; [discriminate Hfind|].
  cbn [map] in Hmap.
  remember (user_identity a) as ia eqn:Hia.
  remember (user_identity b) as ib eqn:Hib.
  injection Hmap as Hhead Htail. subst ia ib.
  cbn [find] in *. unfold has_user_id at 1 in Hfind.
  unfold has_user_id at 1.
  assert (Hid : user_id b = user_id a).
  { unfold user_identity in Hhead. congruence. }
  rewrite Hid. destruct (String.eqb (user_id a) id).
  - injection Hfind as <-. exists b. split; [reflexivity | symmetry; exact Hhead].
  - exact (IH l' Htail u Hfind).
Qed.

(** X25. [GET /api/me] keeps answering a caller whose user record is stored,
    whatever requests are served through [transact] in between, and the id,
    name, email and role it sends stay the ones stored at the start: only
    the balance can differ.  The route raises only for a caller without a
    record, and no such request removes one. *)
Theorem profile_outlives_requests :
  forall subs db c u,
    find_user (caller_id c) db = Some u ->
    exists balance,
      me (Bearer c) (snd (serve_all subs db))
      = Sent (mkProfile (user_id u) (user_name u) (user_email u)
                        (user_role u) balance).
Proof.
  intros subs db c u Hfind.
  assert (H : exists u', find_user (caller_id c) (snd (serve_all subs db))
                         = Some u'
                         /\ user_identity u' = user_identity u).
  { revert db u Hfind.
    induction subs as [|s rest IH]; intros db u Hfind.
    - exists u. split; [exact Hfind | reflexivity].
    - cbn [serve_all]. unfold submit.
      pose proof (roster_step (sub_env s) (sub_token s) (sub_request s) db)
        as Hstep.
      destruct (serve (sub_env s) (sub_token s) (sub_request s) db)
        as [out db1].
      cbn [snd] in Hstep.
      destruct (find_by_identity (caller_id c) (users db) (users db1)
                  (eq_sym Hstep) u Hfind) as (u1 & Hfind1 & Hsame1).
      destruct (IH db1 u1 Hfind1) as (u2 & Hfind2 & Hsame2).
      destruct (serve_all rest db1) as [outs db2]. cbn [snd] in *.
      exists u2. split; [exact Hfind2 | congruence]. }
  destruct H as (u' & Hfind' & Hsame).
  exists (user_balance u'). unfold me, fetch_auth. rewrite Hfind'.
  unfold user_identity in Hsame. injection Hsame as -> -> -> _ ->.
  reflexivity.
Qed.

(** X25 on Alice after her full withdrawal and its rejection. *)
Lemma profile_outlives_requests_witness :
  exists balance,
    me (Bearer alice)
       (snd (serve_all [mkSub env0 (Bearer alice)
                              (WithdrawRequest (Some 10) "EQaddress");
                        mkSub env1 (Bearer admin0)
                              (PaymentsReject (nanoid env0 0) "")]
                       (seeded 10 0)))
    = Sent (mkProfile "u_1001" "Alice" "alice@example.com" "user" balance).
Proof.
  apply (profile_outlives_requests
           [mkSub env0 (Bearer alice) (WithdrawRequest (Some 10) "EQaddress");
            mkSub env1 (Bearer admin0) (PaymentsReject (nanoid env0 0) "")]
           (seeded 10 0) alice
           (seeded_user "u_1001" "Alice" "alice@example.com" "user" 10)).
  reflexivity.
Defined.
